(** * Verification model of the legislation-analysis pipeline

    Shallow embedding of the orchestrator ([workflow.py]), the knowledge-base
    merge engine ([reform_knowledge_base.py]), the date-extraction stage
    ([date_extraction_agent.py]), the review stage ([review_agent.py]) and the
    validation and correction engine ([validation_agent.py]).

    Conventions.
    - A Python [str] is a list of Unicode code points ([list N]); literals are
      written as UTF-8 Rocq strings and decoded with [Py.U].
    - Case mapping and the word-character class are exact on U+0000..U+00FF
      (Basic Latin and Latin-1 Supplement, which cover Portuguese); code
      points above U+00FF are caseless, and above U+024F they are not word
      characters.  White space is Python's full [str.isspace] set.  The
      decimal digits, which [\d] matches and [int] reads, are the whole
      category Nd of Unicode 14.0, the table of CPython 3.11.
    - Dictionaries with string values are [gmap string (list N)].
    - The text-generation service, the web fetcher and the report templates
      are collaborators: they appear as fields of a record of oracles.  The
      decoded answers of the service are typed as the prompts ask for them:
      a field that the code reads as a string holds a JSON string, a flag
      holds a JSON boolean.
    - A pattern is compiled by [Re.compile], which covers the syntax that
      the patterns of the repository are written in.  Its result [None]
      stands for a pattern that Python rejects and also for a pattern that
      is outside this syntax; a statement reads [None] as the exception
      [re.error] only for patterns shown to be rejected by Python (an
      operator with nothing to repeat, a parenthesis left open or closed
      without its pair).
    - The knowledge base is a table of the module
      [reform_knowledge_base.py].  Its accessors hand out the lists of the
      table themselves, and the validation and the review rewrite fields
      of the records they receive (the context and the type of a date; the
      type, the description and the other texts of a tax change).  The
      model gives the table as the module defines it, which is what the
      first run of a process reads; a statement about what a stage takes
      from the table is made relative to what the accessor hands out. *)

From Stdlib Require Import String Ascii List NArith ZArith Lia Bool.
From Stdlib Require Import Uint63 PrimFloat.
From stdpp Require Import gmap strings list.
Import ListNotations.
Local Open Scope N_scope.
#[local] Set Warnings "-inexact-float,-abstract-large-number".

(* ================================================================== *)
(** ** Python strings *)
(* ================================================================== *)

Module Py.

Abbreviation str := (list N).

(** UTF-8 decoding of a byte sequence (well-formed input assumed; a stray
    byte is kept as it is). *)
Fixpoint utf8_decode (bs : list N) : str :=
  match bs with
  | [] => []
  | b :: r0 =>
      if b <? 0x80 then b :: utf8_decode r0
      else if b <? 0xE0 then
        match r0 with
        | b1 :: r1 =>
            (N.land b 0x1F * 64 + N.land b1 0x3F) :: utf8_decode r1
        | [] => [b]
        end
      else if b <? 0xF0 then
        match r0 with
        | b1 :: b2 :: r2 =>
            (N.land b 0x0F * 4096 + N.land b1 0x3F * 64 + N.land b2 0x3F)
              :: utf8_decode r2
        | _ => b :: r0
        end
      else
        match r0 with
        | b1 :: b2 :: b3 :: r3 =>
            (N.land b 0x07 * 262144 + N.land b1 0x3F * 4096
             + N.land b2 0x3F * 64 + N.land b3 0x3F) :: utf8_decode r3
        | _ => b :: r0
        end
  end.

(** A source literal. *)
Definition U (s : string) : str :=
  utf8_decode (List.map N_of_ascii (list_ascii_of_string s)).

Definition in_range (lo hi c : N) : bool := (lo <=? c) && (c <=? hi).

(** [str.lower] on one code point. *)
Definition lower1 (c : N) : N :=
  if in_range 0x41 0x5A c then c + 32
  else if in_range 0xC0 0xDE c && negb (c =? 0xD7) then c + 32
  else c.

(** [str.upper] on one code point; sharp s becomes two letters. *)
Definition upper1 (c : N) : str :=
  if in_range 0x61 0x7A c then [c - 32]
  else if in_range 0xE0 0xFE c && negb (c =? 0xF7) then [c - 32]
  else if c =? 0xDF then [0x53; 0x53]
  else if c =? 0xFF then [0x178]
  else if c =? 0xB5 then [0x39C]
  else [c].

Definition lower (s : str) : str := List.map lower1 s.
Definition upper (s : str) : str := List.flat_map upper1 s.

(** [str.isspace] on one code point. *)
Definition isspace (c : N) : bool :=
  in_range 0x09 0x0D c || in_range 0x1C 0x20 c || (c =? 0x85) || (c =? 0xA0)
  || (c =? 0x1680) || in_range 0x2000 0x200A c || (c =? 0x2028)
  || (c =? 0x2029) || (c =? 0x202F) || (c =? 0x205F) || (c =? 0x3000).

(** The blocks of decimal digits (category Nd): in each block the digits
    0 to 9 follow one another, five times over in the mathematical block
    U+1D7CE..U+1D7FF. *)
Definition decimal_blocks : list (N * N) :=
  [ (0x30, 0x39); (0x660, 0x669); (0x6F0, 0x6F9); (0x7C0, 0x7C9);
    (0x966, 0x96F); (0x9E6, 0x9EF); (0xA66, 0xA6F); (0xAE6, 0xAEF);
    (0xB66, 0xB6F); (0xBE6, 0xBEF); (0xC66, 0xC6F); (0xCE6, 0xCEF);
    (0xD66, 0xD6F); (0xDE6, 0xDEF); (0xE50, 0xE59); (0xED0, 0xED9);
    (0xF20, 0xF29); (0x1040, 0x1049); (0x1090, 0x1099); (0x17E0, 0x17E9);
    (0x1810, 0x1819); (0x1946, 0x194F); (0x19D0, 0x19D9); (0x1A80, 0x1A89);
    (0x1A90, 0x1A99); (0x1B50, 0x1B59); (0x1BB0, 0x1BB9); (0x1C40, 0x1C49);
    (0x1C50, 0x1C59); (0xA620, 0xA629); (0xA8D0, 0xA8D9); (0xA900, 0xA909);
    (0xA9D0, 0xA9D9); (0xA9F0, 0xA9F9); (0xAA50, 0xAA59); (0xABF0, 0xABF9);
    (0xFF10, 0xFF19); (0x104A0, 0x104A9); (0x10D30, 0x10D39);
    (0x11066, 0x1106F); (0x110F0, 0x110F9); (0x11136, 0x1113F);
    (0x111D0, 0x111D9); (0x112F0, 0x112F9); (0x11450, 0x11459);
    (0x114D0, 0x114D9); (0x11650, 0x11659); (0x116C0, 0x116C9);
    (0x11730, 0x11739); (0x118E0, 0x118E9); (0x11950, 0x11959);
    (0x11C50, 0x11C59); (0x11D50, 0x11D59); (0x11DA0, 0x11DA9);
    (0x16A60, 0x16A69); (0x16AC0, 0x16AC9); (0x16B50, 0x16B59);
    (0x1D7CE, 0x1D7FF); (0x1E140, 0x1E149); (0x1E2F0, 0x1E2F9);
    (0x1E950, 0x1E959); (0x1FBF0, 0x1FBF9) ].

(** [str.isdecimal] on one code point: the class that [\d] matches in a
    [str] pattern and the digits that [int] reads. *)
Definition isdecimal (c : N) : bool :=
  existsb (fun b : N * N => in_range (fst b) (snd b) c) decimal_blocks.

(** The value of a decimal digit, [int(c)]. *)
Definition decimal_value (c : N) : N :=
  match List.find (fun b : N * N => in_range (fst b) (snd b) c) decimal_blocks with
  | Some b => (c - fst b) mod 10
  | None => 0
  end.

(** [str.isalnum] on one code point. *)
Definition isalnum (c : N) : bool :=
  in_range 0x30 0x39 c || in_range 0x41 0x5A c || in_range 0x61 0x7A c
  || (c =? 0xAA) || (c =? 0xB2) || (c =? 0xB3) || (c =? 0xB5) || (c =? 0xB9)
  || (c =? 0xBA) || in_range 0xBC 0xBE c || in_range 0xC0 0xD6 c
  || in_range 0xD8 0xF6 c || in_range 0xF8 0x24F c.

Definition eqb (a b : str) : bool := bool_decide (a = b).

(** [not l] for a list. *)
Definition is_empty {A} (l : list A) : bool :=
  match l with [] => true | _ :: _ => false end.

(** [s.startswith(p)], returning what follows the prefix. *)
Fixpoint strip_prefix (p s : str) : option str :=
  match p, s with
  | [], _ => Some s
  | a :: p', b :: s' => if a =? b then strip_prefix p' s' else None
  | _ :: _, [] => None
  end.

(** [sub in s]. *)
Fixpoint contains (sub s : str) : bool :=
  match strip_prefix sub s with
  | Some _ => true
  | None => match s with [] => false | _ :: s' => contains sub s' end
  end.

(** [s.replace(old, new)] for a non-empty [old]: left to right, without
    overlap.  [fuel] bounds the scan and is [length s] at the call. *)
Fixpoint replace_go (fuel : nat) (old new s : str) : str :=
  match fuel with
  | O => s
  | S fuel' =>
      match s with
      | [] => []
      | c :: s' =>
          match strip_prefix old s with
          | Some after => new ++ replace_go fuel' old new after
          | None => c :: replace_go fuel' old new s'
          end
      end
  end.

Definition replace (old new s : str) : str :=
  match old with
  | [] => s
  | _ => replace_go (length s) old new s
  end.

(** [s.strip()]. *)
Fixpoint lstrip (s : str) : str :=
  match s with
  | c :: s' => if isspace c then lstrip s' else s
  | [] => []
  end.
Definition rstrip (s : str) : str := rev (lstrip (rev s)).
Definition strip (s : str) : str := rstrip (lstrip s).

(** [s[:n]] and [s[a:b]] for non-negative bounds. *)
Definition upto (n : nat) (s : str) : str := firstn n s.
Definition slice (a b : nat) (s : str) : str := firstn (b - a) (skipn a s).

(** [sep.join(parts)]. *)
Fixpoint join (sep : str) (parts : list str) : str :=
  match parts with
  | [] => []
  | [p] => p
  | p :: ps => p ++ sep ++ join sep ps
  end.

(** [s.split()]: the maximal runs of non-space characters. *)
Fixpoint split_ws_go (cur : str) (s : str) : list str :=
  match s with
  | [] => match cur with [] => [] | _ => [rev cur] end
  | c :: s' =>
      if isspace c
      then match cur with
           | [] => split_ws_go [] s'
           | _ => rev cur :: split_ws_go [] s'
           end
      else split_ws_go (c :: cur) s'
  end.
Definition split_ws (s : str) : list str := split_ws_go [] s.

(** [s.rfind(c)] for a single character, [None] for -1. *)
Fixpoint rfind_go (c : N) (s : str) (i : nat) (last : option nat) : option nat :=
  match s with
  | [] => last
  | x :: s' => rfind_go c s' (S i) (if x =? c then Some i else last)
  end.
Definition rfind (c : N) (s : str) : option nat := rfind_go c s 0%nat None.

(** [s.split(sep)] for a single character. *)
Fixpoint split_on_go (sep : N) (cur : str) (s : str) : list str :=
  match s with
  | [] => [rev cur]
  | c :: s' =>
      if c =? sep then rev cur :: split_on_go sep [] s'
      else split_on_go sep (c :: cur) s'
  end.
Definition split_on (sep : N) (s : str) : list str := split_on_go sep [] s.

(** [s.rsplit(' ', 1)[0]]: what precedes the last space, or all of [s]. *)
Definition before_last_space (s : str) : str :=
  match rfind 0x20 s with
  | Some i => upto i s
  | None => s
  end.

(** [s[-1]], [None] on the empty string. *)
Definition last_char (s : str) : option N := List.last (List.map Some s) None.

(** [str(n)] for a natural number. *)
Fixpoint digits_of (d : Decimal.uint) : str :=
  match d with
  | Decimal.Nil => []
  | Decimal.D0 d' => 0x30 :: digits_of d'
  | Decimal.D1 d' => 0x31 :: digits_of d'
  | Decimal.D2 d' => 0x32 :: digits_of d'
  | Decimal.D3 d' => 0x33 :: digits_of d'
  | Decimal.D4 d' => 0x34 :: digits_of d'
  | Decimal.D5 d' => 0x35 :: digits_of d'
  | Decimal.D6 d' => 0x36 :: digits_of d'
  | Decimal.D7 d' => 0x37 :: digits_of d'
  | Decimal.D8 d' => 0x38 :: digits_of d'
  | Decimal.D9 d' => 0x39 :: digits_of d'
  end.
Definition str_of_nat (n : nat) : str := digits_of (Nat.to_uint n).

(** [int(s)] for a string of decimal digits. *)
Definition int_of (s : str) : N :=
  List.fold_left (fun acc c => 10 * acc + decimal_value c) s 0.

(** [any(marker in s for marker in markers)]. *)
Definition contains_any (markers : list str) (s : str) : bool :=
  existsb (fun mk => contains mk s) markers.

End Py.

(* ================================================================== *)
(** ** Regular expressions ([re]) *)
(* ================================================================== *)

(** The fragment of Python's pattern syntax that the repository's patterns
    (and the date strings it uses as patterns) are written in: literals,
    [.], classes, the escapes [\d \s \w \b] and their complements, anchors,
    groups, lookahead, alternation and the greedy and lazy quantifiers.
    Matching is backtracking with Python's priorities, so [search] and
    [finditer] return the same spans. *)

Module Re.
Import Py.

Inductive category := Digit | Space | Word.

Inductive item :=
| IChar (c : N)
| IRange (lo hi : N)
| ICat (negated : bool) (k : category).

Inductive at_code :=
| AtBeginning | AtEnd | AtEndString | AtBoundary | AtNonBoundary.

Inductive regex :=
| Empty
| Lit (c : N)
| AnyChar
| InSet (negated : bool) (items : list item)
| Cat (r1 r2 : regex)
| Or (r1 r2 : regex)
| Repeat (lo : nat) (hi : option nat) (greedy : bool) (r : regex)
| Assert (positive : bool) (r : regex)
| At (a : at_code).

(** *** Parsing a pattern *)

(** The pattern parser reads ASCII letters and ASCII digits only
    ([ASCIILETTERS] and [DIGITS] of the parser). *)
Definition is_ascii_letter (c : N) : bool :=
  in_range 0x41 0x5A c || in_range 0x61 0x7A c.

Definition is_ascii_digit (c : N) : bool := in_range 0x30 0x39 c.

(** What a backslash escape stands for; [inside] is true within [[...]]. *)
Inductive escape_code :=
| EChar (c : N)
| ECategory (negated : bool) (k : category)
| EAt (a : at_code)
| EBad.

Definition parse_escape (inside : bool) (c : N) : escape_code :=
  if c =? 0x64 then ECategory false Digit          (* \d *)
  else if c =? 0x44 then ECategory true Digit      (* \D *)
  else if c =? 0x73 then ECategory false Space     (* \s *)
  else if c =? 0x53 then ECategory true Space      (* \S *)
  else if c =? 0x77 then ECategory false Word      (* \w *)
  else if c =? 0x57 then ECategory true Word       (* \W *)
  else if c =? 0x62 then (if inside then EChar 8 else EAt AtBoundary)
  else if c =? 0x42 then (if inside then EBad else EAt AtNonBoundary)
  else if c =? 0x41 then (if inside then EBad else EAt AtBeginning)
  else if c =? 0x5A then (if inside then EBad else EAt AtEndString)
  else if c =? 0x6E then EChar 10
  else if c =? 0x74 then EChar 9
  else if c =? 0x72 then EChar 13
  else if c =? 0x66 then EChar 12
  else if c =? 0x76 then EChar 11
  else if c =? 0x61 then EChar 7
  else if is_ascii_letter c || is_ascii_digit c then EBad
  else EChar c.

(** A run of ASCII digits and what follows it. *)
Fixpoint parse_nat (acc : option nat) (s : str) : option nat * str :=
  match s with
  | c :: s' =>
      if is_ascii_digit c
      then parse_nat (Some (10 * default 0%nat acc + N.to_nat (c - 0x30))%nat) s'
      else (acc, s)
  | [] => (acc, s)
  end.

(** [{m}], [{m,}], [{,n}], [{m,n}] and [{,}] after the opening brace; a
    brace that opens none of them is an ordinary character. *)
Definition parse_braces (s : str) : option (nat * option nat * str) :=
  let '(lo, s1) := parse_nat None s in
  match s1 with
  | 0x7D :: s2 =>
      match lo with Some m => Some (m, Some m, s2) | None => None end
  | 0x2C :: s2 =>
      let '(hi, s3) := parse_nat None s2 in
      match s3 with
      | 0x7D :: s4 => Some (default 0%nat lo, hi, s4)
      | _ => None
      end
  | _ => None
  end.

Definition starts_quantifier (s : str) : bool :=
  match s with
  | c :: s' =>
      (c =? 0x2A) || (c =? 0x2B) || (c =? 0x3F)
      || ((c =? 0x7B) && bool_decide (is_Some (parse_braces s')))
  | [] => false
  end.

(** The quantifier, if any, that follows an atom.  [None] is a pattern
    that Python rejects or that lies outside the fragment. *)
Definition parse_quantifier (a : regex) (s : str) : option (regex * str) :=
  let bounds :=
    match s with
    | 0x2A :: s' => Some (0%nat, None, s')
    | 0x2B :: s' => Some (1%nat, None, s')
    | 0x3F :: s' => Some (0%nat, Some 1%nat, s')
    | 0x7B :: s' => parse_braces s'
    | _ => None
    end in
  match bounds with
  | None => Some (a, s)
  | Some (lo, hi, s1) =>
      let repeatable :=
        match a with At _ | Empty => false | _ => true end in
      let ordered :=
        match hi with Some h => (lo <=? h)%nat | None => true end in
      if negb repeatable || negb ordered then None
      else
        match s1 with
        | 0x3F :: s2 =>
            if starts_quantifier s2 then None
            else Some (Repeat lo hi false a, s2)
        | 0x2B :: _ => None
        | _ =>
            if starts_quantifier s1 then None
            else Some (Repeat lo hi true a, s1)
        end
  end.

(** One member of a class: a character or a category, and the rest. *)
Definition parse_set_atom (s : str) : option (escape_code * str) :=
  match s with
  | 0x5C :: c :: s' =>
      match parse_escape true c with
      | EBad => None
      | e => Some (e, s')
      end
  | 0x5C :: [] => None
  | c :: s' => Some (EChar c, s')
  | [] => None
  end.

(** The members of a class up to the closing bracket. *)
Fixpoint parse_set (fuel : nat) (first : bool) (s : str)
  : option (list item * str) :=
  match fuel with
  | O => None
  | S fuel' =>
      match s with
      | [] => None
      | c :: s0 =>
          if (c =? 0x5D) && negb first then Some ([], s0)
          else
            match parse_set_atom s with
            | None => None
            | Some (e, s1) =>
                let single :=
                  match e with
                  | EChar x => Some (IChar x)
                  | ECategory n k => Some (ICat n k)
                  | _ => None
                  end in
                let range :=
                  match s1 with
                  | 0x2D :: d :: s2 =>
                      if d =? 0x5D then None
                      else
                        match parse_set_atom (d :: s2) with
                        | Some (e2, s3) => Some (e2, s3)
                        | None => None
                        end
                  | _ => None
                  end in
                match range with
                | Some (e2, s3) =>
                    match e, e2 with
                    | EChar lo, EChar hi =>
                        if lo <=? hi
                        then
                          match parse_set fuel' false s3 with
                          | Some (items, s4) => Some (IRange lo hi :: items, s4)
                          | None => None
                          end
                        else None
                    | _, _ => None
                    end
                | None =>
                    match single with
                    | None => None
                    | Some it =>
                        match parse_set fuel' false s1 with
                        | Some (items, s4) => Some (it :: items, s4)
                        | None => None
                        end
                    end
                end
            end
      end
  end.

(** Alternation, sequence and atom. *)
Fixpoint parse_alt (fuel : nat) (s : str) : option (regex * str) :=
  match fuel with
  | O => None
  | S f =>
      match parse_seq f s with
      | Some (r, 0x7C :: s1) =>
          match parse_alt f s1 with
          | Some (r2, s2) => Some (Or r r2, s2)
          | None => None
          end
      | other => other
      end
  end
with parse_seq (fuel : nat) (s : str) : option (regex * str) :=
  match fuel with
  | O => None
  | S f =>
      match s with
      | [] => Some (Empty, [])
      | c :: _ =>
          if (c =? 0x7C) || (c =? 0x29) then Some (Empty, s)
          else
            match parse_atom f s with
            | None => None
            | Some (a, s1) =>
                match parse_quantifier a s1 with
                | None => None
                | Some (q, s2) =>
                    match parse_seq f s2 with
                    | Some (Empty, s3) => Some (q, s3)
                    | Some (r, s3) => Some (Cat q r, s3)
                    | None => None
                    end
                end
            end
      end
  end
with parse_atom (fuel : nat) (s : str) : option (regex * str) :=
  match fuel with
  | O => None
  | S f =>
      match s with
      | [] => None
      | 0x5C :: c :: s1 =>
          match parse_escape false c with
          | EChar x => Some (Lit x, s1)
          | ECategory n k => Some (InSet false [ICat n k], s1)
          | EAt a => Some (At a, s1)
          | EBad => None
          end
      | 0x5C :: [] => None
      | 0x2E :: s1 => Some (AnyChar, s1)
      | 0x5E :: s1 => Some (At AtBeginning, s1)
      | 0x24 :: s1 => Some (At AtEnd, s1)
      | 0x5B :: 0x5E :: s1 =>
          match parse_set (S (length s1)) true s1 with
          | Some (items, s2) => Some (InSet true items, s2)
          | None => None
          end
      | 0x5B :: s1 =>
          match parse_set (S (length s1)) true s1 with
          | Some (items, s2) => Some (InSet false items, s2)
          | None => None
          end
      | 0x28 :: 0x3F :: k :: s1 =>
          if (k =? 0x3A) || (k =? 0x3D) || (k =? 0x21) then
            match parse_alt f s1 with
            | Some (r, 0x29 :: s2) =>
                if k =? 0x3A then Some (r, s2)
                else Some (Assert (k =? 0x3D) r, s2)
            | _ => None
            end
          else None
      | 0x28 :: s1 =>
          match parse_alt f s1 with
          | Some (r, 0x29 :: s2) => Some (r, s2)
          | _ => None
          end
      | c :: s1 =>
          if starts_quantifier s || (c =? 0x29)
          then None
          else Some (Lit c, s1)
      end
  end.

(** [re.compile] on the fragment.  [None] is a pattern that Python rejects
    ([re.error]) or a pattern outside the fragment, which Python may well
    accept: back-references and octal escapes (a backslash before a digit),
    [\x], [\u] and [\N] escapes, named groups, lookbehind, inline flags,
    possessive quantifiers.  [Some r] is a pattern that Python compiles,
    its repetition counts being below the limit of 2^32 - 1. *)
Definition compile (pattern : str) : option regex :=
  match parse_alt (4 * length pattern + 8) pattern with
  | Some (r, []) => Some r
  | _ => None
  end.

(** *** Matching *)

(** A position in the subject: the character before it, what remains, and
    the index. *)
Record pos := { prev : option N; rest : str; idx : nat }.

Definition start_of (s : str) : pos := {| prev := None; rest := s; idx := 0 |}.

Definition advance (p : pos) : option (N * pos) :=
  match rest p with
  | [] => None
  | c :: r => Some (c, {| prev := Some c; rest := r; idx := S (idx p) |})
  end.

Definition is_word (c : N) : bool := isalnum c || (c =? 0x5F).

Definition in_category (k : category) (c : N) : bool :=
  match k with
  | Digit => isdecimal c
  | Space => isspace c
  | Word => is_word c
  end.

Definition item_matches (c : N) (it : item) : bool :=
  match it with
  | IChar x => c =? x
  | IRange lo hi => in_range lo hi c
  | ICat n k => xorb n (in_category k c)
  end.

(** With [IGNORECASE] a character also stands for its other case. *)
Definition case_variants (ignorecase : bool) (c : N) : list N :=
  if ignorecase then c :: lower1 c :: upper1 c else [c].

Definition lit_matches (ignorecase : bool) (x c : N) : bool :=
  if ignorecase then lower1 c =? lower1 x else c =? x.

Definition set_matches (ignorecase : bool) (negated : bool)
           (items : list item) (c : N) : bool :=
  xorb negated
       (existsb (fun v => existsb (item_matches v) items)
                (case_variants ignorecase c)).

Definition word_before (p : pos) : bool :=
  match prev p with Some c => is_word c | None => false end.
Definition word_after (p : pos) : bool :=
  match rest p with c :: _ => is_word c | [] => false end.

Definition at_holds (a : at_code) (p : pos) : bool :=
  match a with
  | AtBeginning => match prev p with None => true | Some _ => false end
  | AtEnd => match rest p with [] | [10] => true | _ => false end
  | AtEndString => match rest p with [] => true | _ => false end
  | AtBoundary => xorb (word_before p) (word_after p)
  | AtNonBoundary => negb (xorb (word_before p) (word_after p))
  end.

Definition or_else {A} (a b : option A) : option A :=
  match a with Some _ => a | None => b end.

(** [m r p k]: match [r] at [p] and hand the position reached to the
    continuation [k]; alternatives are tried in Python's order and the
    first success is returned. A repetition never iterates on an empty
    match beyond its lower bound. *)
Fixpoint m (ignorecase : bool) (r : regex) (p : pos)
         (k : pos -> option pos) {struct r} : option pos :=
  match r with
  | Empty => k p
  | Lit x =>
      match advance p with
      | Some (c, p') => if lit_matches ignorecase x c then k p' else None
      | None => None
      end
  | AnyChar =>
      match advance p with
      | Some (c, p') => if c =? 10 then None else k p'
      | None => None
      end
  | InSet n items =>
      match advance p with
      | Some (c, p') => if set_matches ignorecase n items c then k p' else None
      | None => None
      end
  | Cat r1 r2 => m ignorecase r1 p (fun p' => m ignorecase r2 p' k)
  | Or r1 r2 => or_else (m ignorecase r1 p k) (m ignorecase r2 p k)
  | Repeat lo hi greedy r' =>
      (fix loop (fuel count : nat) (p : pos) {struct fuel} : option pos :=
         match fuel with
         | O => None
         | S fuel' =>
             let below_max :=
               match hi with Some h => (count <? h)%nat | None => true end in
             let more :=
               if below_max then
                 m ignorecase r' p
                   (fun p' =>
                      if (idx p' =? idx p)%nat && (lo <=? count)%nat then None
                      else loop fuel' (S count) p')
               else None in
             let stop := if (lo <=? count)%nat then k p else None in
             if greedy then or_else more stop else or_else stop more
         end) (S (length (rest p)) + lo)%nat 0%nat p
  | Assert positive r' =>
      match m ignorecase r' p Some with
      | Some _ => if positive then k p else None
      | None => if positive then None else k p
      end
  | At a => if at_holds a p then k p else None
  end.

(** The first match at or after [p], as [(start, end)] indices; with
    [nonempty] the match at [p] itself must consume something. *)
Fixpoint scan (ignorecase : bool) (r : regex) (fuel : nat) (nonempty : bool)
         (p : pos) : option (nat * pos) :=
  match fuel with
  | O => None
  | S fuel' =>
      let k := fun q =>
                 if nonempty && (idx q =? idx p)%nat then None else Some q in
      match m ignorecase r p k with
      | Some q => Some (idx p, q)
      | None =>
          match advance p with
          | Some (_, p') => scan ignorecase r fuel' false p'
          | None => None
          end
      end
  end.

(** [re.search] on a compiled pattern: the span of the first match. *)
Definition search_span (ignorecase : bool) (r : regex) (s : str)
  : option (nat * nat) :=
  match scan ignorecase r (S (length s)) false (start_of s) with
  | Some (a, q) => Some (a, idx q)
  | None => None
  end.

(** [re.finditer] on a compiled pattern: the spans of the successive
    non-overlapping matches. *)
Fixpoint iter_spans (ignorecase : bool) (r : regex) (fuel : nat)
         (nonempty : bool) (p : pos) : list (nat * nat) :=
  match fuel with
  | O => []
  | S fuel' =>
      match scan ignorecase r (S (length (rest p))) nonempty p with
      | Some (a, q) =>
          (a, idx q) :: iter_spans ignorecase r fuel' (idx q =? a)%nat q
      | None => []
      end
  end.

Definition finditer_spans (ignorecase : bool) (r : regex) (s : str)
  : list (nat * nat) :=
  iter_spans ignorecase r (S (S (2 * length s))) false (start_of s).

(** [bool(re.search(pattern, s, flags))]; [None] is the [None] of
    [compile]: the exception raised on a pattern that Python rejects, or a
    pattern outside the fragment. *)
Definition search (ignorecase : bool) (pattern s : str) : option bool :=
  match compile pattern with
  | Some r => Some (bool_decide (is_Some (search_span ignorecase r s)))
  | None => None
  end.

(** [[(mt.start(), mt.end()) for mt in re.finditer(pattern, s, flags)]]. *)
Definition finditer (ignorecase : bool) (pattern s : str)
  : option (list (nat * nat)) :=
  match compile pattern with
  | Some r => Some (finditer_spans ignorecase r s)
  | None => None
  end.

(** The text of the first match, [re.search(...).group(0)]. *)
Definition search_group0 (ignorecase : bool) (pattern s : str)
  : option (option str) :=
  match compile pattern with
  | Some r =>
      Some
        match search_span ignorecase r s with
        | Some (a, b) => Some (slice a b s)
        | None => None
        end
  | None => None
  end.

(** [re.sub(pattern, '', s)] for a pattern that matches no empty string:
    the text outside the matches. *)
Fixpoint cut (spans : list (nat * nat)) (offset : nat) (s : str) : str :=
  match spans with
  | [] => s
  | (a, b) :: tl => firstn (a - offset) s ++ cut tl b (skipn (b - offset) s)
  end.

Definition remove_all (ignorecase : bool) (pattern s : str) : option str :=
  match finditer ignorecase pattern s with
  | Some spans => Some (cut spans 0 s)
  | None => None
  end.

(** [re.escape]. *)
Definition special_chars : str :=
  U "()[]{}?*+-|^$\.&~# " ++ [9; 10; 13; 11; 12].

Definition escape (s : str) : str :=
  List.flat_map
    (fun c => if existsb (N.eqb c) special_chars then [0x5C; c] else [c]) s.

End Re.

Local Open Scope string_scope.
Local Open Scope list_scope.

(** A dictionary whose values are strings: a tax-change record, an
    effective-date record. [d.get(k, "")] is [get d k]. *)
Abbreviation dict := (gmap string (list N)).

Definition get (d : dict) (k : string) : list N := default [] (d !! k).

(* ================================================================== *)
(** ** Knowledge base ([reform_knowledge_base.py]) *)
(* ================================================================== *)

Module KB.
Import Py.

(** [detect_known_legislation]; [title] is not read by the source. *)
Definition detect_known_legislation (url content title : str) : option str :=
  let url_lower := lower url in
  let content_lower := upto 5000 (lower content) in
  if contains (U "lcp214") url_lower
     || contains (U "lcp/lcp214") url_lower
     || contains (U "/lcp/214") url_lower
     || contains (U "lei complementar nº 214") content_lower
     || contains (U "lei complementar n° 214") content_lower
     || (contains (U "ibs") content_lower && contains (U "cbs") content_lower
         && contains (U "imposto seletivo") content_lower)
     || (contains (U "reforma tributária") content_lower
         && contains (U "ibs") content_lower)
  then Some (U "LC_214")
  else if contains (U "mpv1318") url_lower
          || contains (U "mpv/mpv1318") url_lower
          || contains (U "redata") content_lower
  then Some (U "MPV_1318")
  else None.

Definition LC_214_vigencias : list dict :=
  [ list_to_map
      [("data", U "16/01/2025");
       ("contexto", U "Publicação e início da vigência da Lei Complementar nº 214");
       ("tipo", U "inicio_vigencia");
       ("relevancia", U "alta")];
    list_to_map
      [("data", U "2026");
       ("contexto", U "Início do período de teste - CBS 0,9% + IBS 0,1%");
       ("tipo", U "inicio_vigencia");
       ("relevancia", U "alta")];
    list_to_map
      [("data", U "2027");
       ("contexto", U "CBS entra em vigor com alíquota cheia (~8,8%); IS (Imposto Seletivo) entra em vigor");
       ("tipo", U "inicio_vigencia");
       ("relevancia", U "alta")];
    list_to_map
      [("data", U "2029-2032");
       ("contexto", U "Período de transição gradual - redução progressiva de PIS/COFINS/ICMS/ISS");
       ("tipo", U "prazo_transicao");
       ("relevancia", U "alta")];
    list_to_map
      [("data", U "31/12/2032");
       ("contexto", U "Último ano de coexistência dos sistemas tributários");
       ("tipo", U "prazo_final");
       ("relevancia", U "alta")];
    list_to_map
      [("data", U "01/01/2033");
       ("contexto", U "Extinção total de PIS, COFINS, ICMS e ISS - IBS e CBS em vigor pleno");
       ("tipo", U "prazo_final");
       ("relevancia", U "alta")] ].

Definition LC_214_system_changes : list dict :=
  [ list_to_map
      [("tributo", U "IBS");
       ("tipo_mudanca", U "NOVO TRIBUTO");
       ("situacao_anterior", U "Não existia (ICMS + ISS eram separados)");
       ("situacao_nova", U "Novo tributo unificado estadual/municipal com alíquota de referência de 17,7%. Substitui gradualmente ICMS e ISS até 2033.");
       ("condicoes", U "Aplica-se a todas as operações com bens e serviços. Quem era contribuinte de ICMS ou ISS será contribuinte do IBS.");
       ("vigencia", U "2026 (teste) a 2033 (pleno)");
       ("descricao_completa", U "IBS: NOVO TRIBUTO (substitui ICMS+ISS)");
       ("compliance_risks", U "Necessidade de adaptar sistemas para novo tributo; período de convivência com ICMS/ISS gera complexidade.")];
    list_to_map
      [("tributo", U "CBS");
       ("tipo_mudanca", U "NOVO TRIBUTO");
       ("situacao_anterior", U "Não existia (PIS + COFINS eram separados)");
       ("situacao_nova", U "Nova contribuição federal com alíquota de referência de 8,8%. Substitui gradualmente PIS e COFINS até 2033. Crédito amplo (inclusive serviços).");
       ("condicoes", U "Aplica-se a todas as operações com bens e serviços. Regime não cumulativo com crédito amplo.");
       ("vigencia", U "2026 (teste 0,9%) a 2027 (alíquota cheia)");
       ("descricao_completa", U "CBS: NOVO TRIBUTO (substitui PIS+COFINS)");
       ("compliance_risks", U "Necessidade de adaptar sistemas para novo tributo; mudança de regime de crédito.")];
    list_to_map
      [("tributo", U "IS");
       ("tipo_mudanca", U "NOVO TRIBUTO");
       ("situacao_anterior", U "Não existia");
       ("situacao_nova", U "Imposto Seletivo incidente sobre produtos prejudiciais à saúde ou meio ambiente. Alíquotas variáveis por produto.");
       ("condicoes", U "Incide sobre: bebidas alcoólicas, cigarros, bebidas açucaradas, veículos poluentes, extração de recursos não renováveis.");
       ("vigencia", U "A partir de 2027");
       ("descricao_completa", U "IS: NOVO TRIBUTO (Imposto Seletivo)");
       ("compliance_risks", U "Verificar se produtos Dell se enquadram (ex: baterias, componentes eletrônicos com substâncias específicas).")] ].

(** The keys of an entry that the accessors below read; an absent key is
    [None]. *)
Record entry := {
  e_vigencias : option (list dict);
  e_system_changes : option (list dict)
}.

Definition LC_214_DATA : entry :=
  {| e_vigencias := Some LC_214_vigencias;
     e_system_changes := Some LC_214_system_changes |}.

(** The entry of MPV 1318 only carries its identification. *)
Definition MPV_1318_DATA : entry :=
  {| e_vigencias := None; e_system_changes := None |}.

Definition KNOWLEDGE_BASE : gmap (list N) entry :=
  <[U "LC_214" := LC_214_DATA]> (<[U "MPV_1318" := MPV_1318_DATA]> ∅).

(** [KNOWLEDGE_BASE.get(key, {}).get("vigencias", [])]; the key may be
    [None].  The code returns the list of the table itself, whose records
    the review stage rewrites ([contexto], [tipo]); the value here is the
    list as the module defines it. *)
Definition get_vigencias_for_legislation (key : option str) : list dict :=
  match key with
  | Some k =>
      match KNOWLEDGE_BASE !! k with
      | Some e => default [] (e_vigencias e)
      | None => []
      end
  | None => []
  end.

(** [KNOWLEDGE_BASE.get(key, {}).get("system_changes", [])], with the same
    sharing: the validation and the review rewrite the records handed
    out. *)
Definition get_system_changes_for_legislation (key : option str) : list dict :=
  match key with
  | Some k =>
      match KNOWLEDGE_BASE !! k with
      | Some e => default [] (e_system_changes e)
      | None => []
      end
  | None => []
  end.

(** The extraction engine's own marker for a failed extraction. *)
Definition sentinel : str := U "Análise detalhada necessária".

(** [extracted and len(extracted) > 0 and
     extracted[0].get('tributo') != 'Análise detalhada necessária']. *)
Definition has_valid_changes (extracted : list dict) : bool :=
  match extracted with
  | [] => false
  | first :: _ => negb (bool_decide (first !! "tributo" = Some sentinel))
  end.

Definition merge_with_extracted_data
           (extracted_vigencias extracted_changes : list dict)
           (known_legislation_key : option str) : list dict * list dict :=
  let kb_vigencias := get_vigencias_for_legislation known_legislation_key in
  let kb_changes := get_system_changes_for_legislation known_legislation_key in
  let vigencias_merged :=
    if bool_decide (extracted_vigencias = [])
       || (length extracted_vigencias <? 3)%nat
    then kb_vigencias else extracted_vigencias in
  let changes_merged :=
    if negb (has_valid_changes extracted_changes)
    then kb_changes else extracted_changes in
  (vigencias_merged, changes_merged).

End KB.

(* ================================================================== *)
(** ** The shared analysis state ([WorkflowState]) *)
(* ================================================================== *)

(** Each nested dictionary is a record of the keys that the modelled code
    reads or writes.  For a nested dictionary held in an [option], [None]
    is the empty dictionary [{}] the run starts with (or an absent key). *)

Record WebResult := {
  wr_url : list N;
  wr_title : list N;
  wr_content : list N;
  wr_is_official : bool;
  wr_content_type : list N
}.

Record RawExtraction := {
  raw_text : list N;
  content_length : nat;
  sources_count : nat;
  rx_legislation_type : list N
}.

Record DateExtraction := {
  dates_text : list N;
  vigencias : list dict;
  count : nat;
  dx_known_law_key : option (list N)
}.

Record Percentual := {
  valor : float;
  pc_contexto : list N;
  pc_tipo : list N
}.

Record Quantification := {
  percentuais : list Percentual;
  llm_analysis : list N;
  total_encontrado : nat
}.

Record StructuredData := {
  sd_raw_extraction : option RawExtraction;
  sd_date_extraction : option DateExtraction;
  sd_quantification : option Quantification;
  sd_legislation_type : list N
}.

Record ValidationResults := {
  completeness_score : float;
  needs_enhancement : bool;
  missing_sections : list (list N)
}.

(** [aliquotas] is the tax-change list; the keys not listed here are written
    by the system-changes stage and read only by the report assembly. *)
Record SystemChanges := {
  aliquotas : list dict;
  compliance_risks : option (list (list N));
  sc_known_law_key : option (list N)
}.

Record ValidationStatus := {
  validated : bool;
  corrections_made : nat;
  errors : list (list N);
  confidence : list N
}.

Record State := {
  query : list N;
  urls : list (list N);
  web_results : list WebResult;
  legislation_type : list N;
  raw_extraction : option RawExtraction;
  date_extraction : option DateExtraction;
  quantification : option Quantification;
  structured_data : option StructuredData;
  validation_results : option ValidationResults;
  enhanced_data : option StructuredData;
  impact_analysis : dict;
  system_changes : option SystemChanges;
  dell_analysis : dict;
  known_law_key : option (list N);
  validation_status : option ValidationStatus;
  final_analysis : list N;
  workflow_complete : bool
}.

Definition set_web_results (v : list WebResult) (s : State) : State :=
  {| query := query s; urls := urls s; web_results := v;
     legislation_type := legislation_type s;
     raw_extraction := raw_extraction s; date_extraction := date_extraction s;
     quantification := quantification s; structured_data := structured_data s;
     validation_results := validation_results s;
     enhanced_data := enhanced_data s; impact_analysis := impact_analysis s;
     system_changes := system_changes s; dell_analysis := dell_analysis s;
     known_law_key := known_law_key s;
     validation_status := validation_status s;
     final_analysis := final_analysis s;
     workflow_complete := workflow_complete s |}.

Definition set_legislation_type (v : list N) (s : State) : State :=
  {| query := query s; urls := urls s; web_results := web_results s;
     legislation_type := v;
     raw_extraction := raw_extraction s; date_extraction := date_extraction s;
     quantification := quantification s; structured_data := structured_data s;
     validation_results := validation_results s;
     enhanced_data := enhanced_data s; impact_analysis := impact_analysis s;
     system_changes := system_changes s; dell_analysis := dell_analysis s;
     known_law_key := known_law_key s;
     validation_status := validation_status s;
     final_analysis := final_analysis s;
     workflow_complete := workflow_complete s |}.

Definition set_raw_extraction (v : option RawExtraction) (s : State) : State :=
  {| query := query s; urls := urls s; web_results := web_results s;
     legislation_type := legislation_type s;
     raw_extraction := v; date_extraction := date_extraction s;
     quantification := quantification s; structured_data := structured_data s;
     validation_results := validation_results s;
     enhanced_data := enhanced_data s; impact_analysis := impact_analysis s;
     system_changes := system_changes s; dell_analysis := dell_analysis s;
     known_law_key := known_law_key s;
     validation_status := validation_status s;
     final_analysis := final_analysis s;
     workflow_complete := workflow_complete s |}.

Definition set_date_extraction (v : option DateExtraction) (s : State) : State :=
  {| query := query s; urls := urls s; web_results := web_results s;
     legislation_type := legislation_type s;
     raw_extraction := raw_extraction s; date_extraction := v;
     quantification := quantification s; structured_data := structured_data s;
     validation_results := validation_results s;
     enhanced_data := enhanced_data s; impact_analysis := impact_analysis s;
     system_changes := system_changes s; dell_analysis := dell_analysis s;
     known_law_key := known_law_key s;
     validation_status := validation_status s;
     final_analysis := final_analysis s;
     workflow_complete := workflow_complete s |}.

Definition set_quantification (v : option Quantification) (s : State) : State :=
  {| query := query s; urls := urls s; web_results := web_results s;
     legislation_type := legislation_type s;
     raw_extraction := raw_extraction s; date_extraction := date_extraction s;
     quantification := v; structured_data := structured_data s;
     validation_results := validation_results s;
     enhanced_data := enhanced_data s; impact_analysis := impact_analysis s;
     system_changes := system_changes s; dell_analysis := dell_analysis s;
     known_law_key := known_law_key s;
     validation_status := validation_status s;
     final_analysis := final_analysis s;
     workflow_complete := workflow_complete s |}.

Definition set_structured_data (v : option StructuredData) (s : State) : State :=
  {| query := query s; urls := urls s; web_results := web_results s;
     legislation_type := legislation_type s;
     raw_extraction := raw_extraction s; date_extraction := date_extraction s;
     quantification := quantification s; structured_data := v;
     validation_results := validation_results s;
     enhanced_data := enhanced_data s; impact_analysis := impact_analysis s;
     system_changes := system_changes s; dell_analysis := dell_analysis s;
     known_law_key := known_law_key s;
     validation_status := validation_status s;
     final_analysis := final_analysis s;
     workflow_complete := workflow_complete s |}.

Definition set_validation_results (v : option ValidationResults) (s : State)
  : State :=
  {| query := query s; urls := urls s; web_results := web_results s;
     legislation_type := legislation_type s;
     raw_extraction := raw_extraction s; date_extraction := date_extraction s;
     quantification := quantification s; structured_data := structured_data s;
     validation_results := v;
     enhanced_data := enhanced_data s; impact_analysis := impact_analysis s;
     system_changes := system_changes s; dell_analysis := dell_analysis s;
     known_law_key := known_law_key s;
     validation_status := validation_status s;
     final_analysis := final_analysis s;
     workflow_complete := workflow_complete s |}.

Definition set_enhanced_data (v : option StructuredData) (s : State) : State :=
  {| query := query s; urls := urls s; web_results := web_results s;
     legislation_type := legislation_type s;
     raw_extraction := raw_extraction s; date_extraction := date_extraction s;
     quantification := quantification s; structured_data := structured_data s;
     validation_results := validation_results s;
     enhanced_data := v; impact_analysis := impact_analysis s;
     system_changes := system_changes s; dell_analysis := dell_analysis s;
     known_law_key := known_law_key s;
     validation_status := validation_status s;
     final_analysis := final_analysis s;
     workflow_complete := workflow_complete s |}.

Definition set_impact_analysis (v : dict) (s : State) : State :=
  {| query := query s; urls := urls s; web_results := web_results s;
     legislation_type := legislation_type s;
     raw_extraction := raw_extraction s; date_extraction := date_extraction s;
     quantification := quantification s; structured_data := structured_data s;
     validation_results := validation_results s;
     enhanced_data := enhanced_data s; impact_analysis := v;
     system_changes := system_changes s; dell_analysis := dell_analysis s;
     known_law_key := known_law_key s;
     validation_status := validation_status s;
     final_analysis := final_analysis s;
     workflow_complete := workflow_complete s |}.

Definition set_system_changes (v : option SystemChanges) (s : State) : State :=
  {| query := query s; urls := urls s; web_results := web_results s;
     legislation_type := legislation_type s;
     raw_extraction := raw_extraction s; date_extraction := date_extraction s;
     quantification := quantification s; structured_data := structured_data s;
     validation_results := validation_results s;
     enhanced_data := enhanced_data s; impact_analysis := impact_analysis s;
     system_changes := v; dell_analysis := dell_analysis s;
     known_law_key := known_law_key s;
     validation_status := validation_status s;
     final_analysis := final_analysis s;
     workflow_complete := workflow_complete s |}.

Definition set_dell_analysis (v : dict) (s : State) : State :=
  {| query := query s; urls := urls s; web_results := web_results s;
     legislation_type := legislation_type s;
     raw_extraction := raw_extraction s; date_extraction := date_extraction s;
     quantification := quantification s; structured_data := structured_data s;
     validation_results := validation_results s;
     enhanced_data := enhanced_data s; impact_analysis := impact_analysis s;
     system_changes := system_changes s; dell_analysis := v;
     known_law_key := known_law_key s;
     validation_status := validation_status s;
     final_analysis := final_analysis s;
     workflow_complete := workflow_complete s |}.

Definition set_known_law_key (v : option (list N)) (s : State) : State :=
  {| query := query s; urls := urls s; web_results := web_results s;
     legislation_type := legislation_type s;
     raw_extraction := raw_extraction s; date_extraction := date_extraction s;
     quantification := quantification s; structured_data := structured_data s;
     validation_results := validation_results s;
     enhanced_data := enhanced_data s; impact_analysis := impact_analysis s;
     system_changes := system_changes s; dell_analysis := dell_analysis s;
     known_law_key := v;
     validation_status := validation_status s;
     final_analysis := final_analysis s;
     workflow_complete := workflow_complete s |}.

Definition set_validation_status (v : option ValidationStatus) (s : State)
  : State :=
  {| query := query s; urls := urls s; web_results := web_results s;
     legislation_type := legislation_type s;
     raw_extraction := raw_extraction s; date_extraction := date_extraction s;
     quantification := quantification s; structured_data := structured_data s;
     validation_results := validation_results s;
     enhanced_data := enhanced_data s; impact_analysis := impact_analysis s;
     system_changes := system_changes s; dell_analysis := dell_analysis s;
     known_law_key := known_law_key s;
     validation_status := v;
     final_analysis := final_analysis s;
     workflow_complete := workflow_complete s |}.

Definition set_final (report : list N) (s : State) : State :=
  {| query := query s; urls := urls s; web_results := web_results s;
     legislation_type := legislation_type s;
     raw_extraction := raw_extraction s; date_extraction := date_extraction s;
     quantification := quantification s; structured_data := structured_data s;
     validation_results := validation_results s;
     enhanced_data := enhanced_data s; impact_analysis := impact_analysis s;
     system_changes := system_changes s; dell_analysis := dell_analysis s;
     known_law_key := known_law_key s;
     validation_status := validation_status s;
     final_analysis := report;
     workflow_complete := true |}.

Definition set_aliquotas (v : list dict) (sc : SystemChanges) : SystemChanges :=
  {| aliquotas := v; compliance_risks := compliance_risks sc;
     sc_known_law_key := sc_known_law_key sc |}.

Definition set_vigencias (v : list dict) (dx : DateExtraction) : DateExtraction :=
  {| dates_text := dates_text dx; vigencias := v; count := count dx;
     dx_known_law_key := dx_known_law_key dx |}.

(* ================================================================== *)
(** ** Validation and correction engine ([validation_agent.py]) *)
(* ================================================================== *)

Module Validation.
Import Py.

(** [self.change_type_patterns], in the order of the dictionary. *)
Definition change_type_patterns : list (str * list str) :=
  [ (U "SUSPENSÃO",
     [ U "suspens[ãa]o"; U "suspend[ea]"; U "fica\s+suspenso";
       U "pagamento\s+suspenso"; U "com\s+suspens[ãa]o" ]);
    (U "ISENÇÃO",
     [ U "isen[çc][ãa]o"; U "isento[s]?"; U "fica[m]?\s+isento";
       U "com\s+isen[çc][ãa]o" ]);
    (U "ALÍQUOTA 0%",
     [ U "al[íi]quota\s+(?:de\s+)?(?:0%|zero)"; U "0%\s*\(?zero";
       U "zero\s*\(?0%"; U "reduzida?\s+a\s+zero";
       U "convertida?\s+em\s+(?:al[íi]quota\s+)?zero" ]);
    (U "REDUÇÃO",
     [ U "redu[çc][ãa]o"; U "reduzid[ao]"; U "reduz(?:ir)?";
       U "al[íi]quota\s+reduzida" ]);
    (U "CRÉDITO",
     [ U "cr[ée]dito"; U "direito\s+a\s+cr[ée]dito"; U "creditamento" ]) ].

(** [self.tributo_patterns]. *)
Definition tributo_patterns : list (str * list str) :=
  [ (U "PIS", [ U "\bpis\b"; U "contribui[çc][ãa]o\s+para\s+o\s+pis" ]);
    (U "COFINS",
     [ U "\bcofins\b"; U "contribui[çc][ãa]o.*financiamento.*seguridade" ]);
    (U "IPI",
     [ U "\bipi\b"; U "imposto\s+sobre\s+produtos\s+industrializados" ]);
    (U "ICMS",
     [ U "\bicms\b";
       U "imposto\s+sobre\s+(?:circula[çc][ãa]o|opera[çc][õo]es)" ]);
    (U "ISS", [ U "\biss\b"; U "imposto\s+sobre\s+servi[çc]os" ]);
    (U "II",
     [ U "imposto\s+de\s+importa[çc][ãa]o";
       U "\bii\b(?!\s*[-,.]?\s*(?:do|da|de|iii|iv|v)\b)" ]);
    (U "IBS", [ U "\bibs\b"; U "imposto\s+sobre\s+bens\s+e\s+servi[çc]os" ]);
    (U "CBS",
     [ U "\bcbs\b"; U "contribui[çc][ãa]o\s+sobre\s+bens\s+e\s+servi[çc]os" ]);
    (U "IS",
     [ U "imposto\s+seletivo"; U "\bis\b(?=\s+(?:incid|ser[áa]|sobre))" ]) ].

(** [table.get(key)]. *)
Fixpoint assoc (table : list (str * list str)) (key : str)
  : option (list str) :=
  match table with
  | [] => None
  | (k, v) :: tl => if eqb k key then Some v else assoc tl key
  end.

(** [any(re.search(p, text, re.IGNORECASE) for p in patterns)], evaluated
    left to right; [None] is the [None] of [Re.search]. *)
Fixpoint search_any (patterns : list str) (text : str) : option bool :=
  match patterns with
  | [] => Some false
  | p :: ps =>
      found ← Re.search true p text;
      if found : bool then Some true else search_any ps text
  end.

(** [rf'\b{re.escape(t)}\b']. *)
Definition word_pattern (t : str) : str := U "\b" ++ Re.escape t ++ U "\b".

Definition _validate_tributo (tributo original_lower : str) : option bool :=
  let tributo_key := upper tributo in
  let tributo_key := replace (U "CONTRIBUIÇÃO PARA O ") [] tributo_key in
  let tributo_key := replace (U "CONTRIBUIÇÃO PARA A ") [] tributo_key in
  let tributo_key := strip tributo_key in
  let patterns :=
    default [word_pattern (lower tributo)] (assoc tributo_patterns tributo_key) in
  search_any patterns original_lower.

(** The window of characters kept on each side of a mention. *)
Definition window : nat := 300.

Definition context_of (text : str) (span : nat * nat) : str :=
  let start := (fst span - window)%nat in
  let stop := Nat.min (length text) (snd span + window) in
  slice start stop text.

Fixpoint contexts_of_patterns (patterns : list str) (text : str)
  : option (list str) :=
  match patterns with
  | [] => Some []
  | p :: ps =>
      spans ← Re.finditer true p text;
      others ← contexts_of_patterns ps text;
      Some (List.map (context_of text) spans ++ others)
  end.

Definition _find_tributo_contexts (tributo text : str) : option (list str) :=
  let patterns :=
    default [word_pattern tributo] (assoc tributo_patterns (upper tributo)) in
  contexts_of_patterns patterns text.

(** The first change type, in table order, one of whose patterns occurs
    in [context]. *)
Fixpoint first_type (table : list (str * list str)) (context : str)
  : option (option str) :=
  match table with
  | [] => Some None
  | (tipo_key, patterns) :: tl =>
      found ← search_any patterns context;
      if found : bool then Some (Some tipo_key) else first_type tl context
  end.

(** The type found in the first context that shows one. *)
Fixpoint first_type_in (contexts : list str) : option (option str) :=
  match contexts with
  | [] => Some None
  | c :: cs =>
      t ← first_type change_type_patterns c;
      match t with
      | Some k => Some (Some k)
      | None => first_type_in cs
      end
  end.

(** The first key of the table that occurs in [tipo_upper]. *)
Fixpoint first_key_in (table : list (str * list str)) (tipo_upper : str)
  : option str :=
  match table with
  | [] => None
  | (k, _) :: tl =>
      if contains k tipo_upper then Some k else first_key_in tl tipo_upper
  end.

(** [(tipo_to_check, secondary_check)]. *)
Definition types_to_check (tipo_mudanca : str) : option str * option str :=
  let tipo_upper := upper tipo_mudanca in
  if contains (U "SUSPENSÃO") tipo_upper
     && (contains (U "0%") tipo_upper || contains (U "ZERO") tipo_upper)
  then (Some (U "SUSPENSÃO"), Some (U "ALÍQUOTA 0%"))
  else (first_key_in change_type_patterns tipo_upper, None).

(** The windows in which the type of change is looked for: those around the
    mentions of the tax, or the whole text when there is no mention. *)
Definition tributo_contexts (tributo original_lower : str) : option (list str) :=
  let tributo_lower :=
    replace (U "contribuição para a ") []
            (replace (U "contribuição para o ") [] (lower tributo)) in
  found_contexts ← _find_tributo_contexts tributo_lower original_lower;
  Some match found_contexts with
       | [] => [original_lower]
       | _ => found_contexts
       end.

(** [(is_valid, tipo_correto)]. *)
Definition _validate_change_type (tributo tipo_mudanca original_lower : str)
  : option (bool * option str) :=
  let '(tipo_to_check, secondary_check) := types_to_check tipo_mudanca in
  match tipo_to_check with
  | None => Some (false, None)
  | Some to_check =>
      contexts ← tributo_contexts tributo original_lower;
      tipo_encontrado ← first_type_in contexts;
      match tipo_encontrado with
      | Some found =>
          if eqb to_check found then Some (true, Some found)
          else
            match secondary_check with
            | Some secondary =>
                if eqb secondary found
                then Some (true, Some (to_check ++ U " → " ++ secondary))
                else Some (false, Some found)
            | None => Some (false, Some found)
            end
      | None => Some (false, None)
      end
  end.

(** Whether a pattern of the change type [tipo] occurs in [context]. *)
Definition type_shown (tipo context : str) : option bool :=
  search_any (default [] (assoc change_type_patterns tipo)) context.

Definition _get_situacao_nova (tipo_correto tributo : str) : str :=
  if eqb tipo_correto (U "SUSPENSÃO") then
    U "Suspensão do pagamento do " ++ tributo
      ++ U " conforme condições da legislação."
  else if eqb tipo_correto (U "SUSPENSÃO → ALÍQUOTA 0%") then
    U "Suspensão do " ++ tributo
      ++ U " que converte em alíquota zero após cumprimento dos requisitos."
  else if eqb tipo_correto (U "ISENÇÃO") then
    U "Isenção do " ++ tributo
      ++ U " para operações específicas conforme condições da legislação."
  else if eqb tipo_correto (U "ALÍQUOTA 0%") then
    U "Alíquota zero do " ++ tributo ++ U " para operações específicas."
  else if eqb tipo_correto (U "REDUÇÃO") then
    U "Redução da alíquota do " ++ tributo ++ U " conforme legislação."
  else if eqb tipo_correto (U "CRÉDITO") then
    U "Direito a crédito do " ++ tributo
      ++ U " conforme condições estabelecidas."
  else U "Alteração no " ++ tributo ++ U " conforme legislação.".

(** The three keys that a correction rewrites. *)
Definition apply_correction (tributo tipo_correto : str) (aliq : dict) : dict :=
  <["situacao_nova" := _get_situacao_nova tipo_correto tributo]>
    (<["descricao_completa" := tributo ++ U ": " ++ tipo_correto]>
       (<["tipo_mudanca" := tipo_correto]> aliq)).

Definition error_not_found (tributo : str) : str :=
  U "⚠️ " ++ tributo ++ U ": não encontrado no texto original".

Definition error_unconfirmed (tributo tipo_mudanca : str) : str :=
  U "❌ " ++ tributo ++ U ": tipo '" ++ tipo_mudanca
    ++ U "' não confirmado no texto".

(** The loop over the tax-change list: the records (in place), the
    corrections counted and the errors logged so far. *)
Fixpoint validate_aliquotas (original_lower : str) (aliquotas : list dict)
         (corrections_made : nat) (errors_found : list str)
  : option (list dict * nat * list str) :=
  match aliquotas with
  | [] => Some ([], corrections_made, errors_found)
  | aliq :: tl =>
      let tributo := get aliq "tributo" in
      let tipo_mudanca := get aliq "tipo_mudanca" in
      tributo_valid ← _validate_tributo tributo original_lower;
      if negb tributo_valid then
        '(tl', c, e) ← validate_aliquotas original_lower tl corrections_made
                         (errors_found ++ [error_not_found tributo]);
        Some (aliq :: tl', c, e)
      else
        '(tipo_validated, tipo_correto) ←
          _validate_change_type tributo tipo_mudanca original_lower;
        if negb tipo_validated then
          match tipo_correto with
          | Some correto =>
              '(tl', c, e) ← validate_aliquotas original_lower tl
                               (S corrections_made) errors_found;
              Some (apply_correction tributo correto aliq :: tl', c, e)
          | None =>
              '(tl', c, e) ← validate_aliquotas original_lower tl
                               corrections_made
                               (errors_found
                                  ++ [error_unconfirmed tributo tipo_mudanca]);
              Some (aliq :: tl', c, e)
          end
        else
          '(tl', c, e) ← validate_aliquotas original_lower tl
                           corrections_made errors_found;
          Some (aliq :: tl', c, e)
  end.

(** One entry of the answer of the text-generation service, after JSON
    decoding.  [v_tributo = None] is an entry without that key.  The entry
    is typed as the prompt asks for it: the tax code and the type are JSON
    strings, the flag is a JSON boolean.  An answer that holds a list or an
    object where the type is expected is outside the model: the code would
    store it in the record and raise [TypeError] when it looks the type up
    in [_get_situacao_nova]. *)
Record Validacao := {
  v_tributo : option str;
  v_tipo_correto : str;
  v_correcao_necessaria : bool
}.

(** The escalation call: the lines sent for validation and the excerpt of
    the text, to the decoded answer; [None] is any failure of the call or
    of the decoding. *)
Definition Generate := list str -> str -> option (list Validacao).

Definition needed (v : Validacao) : bool :=
  v_correcao_necessaria v && negb (eqb (v_tipo_correto v) []).

(** The corrections kept from an answer; an entry without its [tributo]
    key raises, and the whole answer is lost. *)
Fixpoint corrections_of (vs : list Validacao) : option (list (str * str)) :=
  match vs with
  | [] => Some []
  | v :: tl =>
      if needed v then
        t ← v_tributo v;
        others ← corrections_of tl;
        Some ((t, v_tipo_correto v) :: others)
      else corrections_of tl
  end.

Definition _validate_via_llm (generate : Generate) (aliquotas : list dict)
           (original_text : str) : list (str * str) :=
  match aliquotas with
  | [] => []
  | _ =>
      let tributos_to_validate :=
        List.map
          (fun aliq =>
             U "- " ++ get aliq "tributo" ++ U ": " ++ get aliq "tipo_mudanca")
          (List.filter
             (fun aliq =>
                negb (eqb (get aliq "tributo") [])
                && negb (eqb (get aliq "tipo_mudanca") []))
             aliquotas) in
      match tributos_to_validate with
      | [] => []
      | _ =>
          match generate tributos_to_validate (upto 6000 original_text) with
          | Some vs => default [] (corrections_of vs)
          | None => []
          end
      end
  end.

(** One correction of the escalation step, applied to every record of
    that tax code. *)
Fixpoint apply_llm_correction (tributo tipo_correto : str)
         (aliquotas : list dict) (corrections_made : nat)
  : list dict * nat :=
  match aliquotas with
  | [] => ([], corrections_made)
  | aliq :: tl =>
      if bool_decide (aliq !! "tributo" = Some tributo) then
        let '(tl', c) :=
          apply_llm_correction tributo tipo_correto tl (S corrections_made) in
        (apply_correction tributo tipo_correto aliq :: tl', c)
      else
        let '(tl', c) :=
          apply_llm_correction tributo tipo_correto tl corrections_made in
        (aliq :: tl', c)
  end.

Fixpoint apply_llm_corrections (corrections : list (str * str))
         (aliquotas : list dict) (corrections_made : nat)
  : list dict * nat :=
  match corrections with
  | [] => (aliquotas, corrections_made)
  | (tributo, tipo_correto) :: tl =>
      let '(aliquotas', c) :=
        apply_llm_correction tributo tipo_correto aliquotas corrections_made in
      apply_llm_corrections tl aliquotas' c
  end.

(** An effective date is kept when it is a period in years, when it occurs
    in the text, or when its year does. *)
Definition vigencia_kept (vig : dict) (original_lower : str) : option bool :=
  let data := get vig "data" in
  if contains (U "ano") (lower data) then Some true
  else
    let data_normalized := replace (U "/") (U "[-/]") data in
    found ← Re.search false data_normalized original_lower;
    if found : bool then Some true
    else
      exact ← Re.search false (word_pattern data) original_lower;
      if exact : bool then Some true
      else
        year_match ← Re.search_group0 false (U "20\d{2}") data;
        match year_match with
        | Some year => Some (contains year original_lower)
        | None => Some false
        end.

Fixpoint _validate_vigencias (vigencias : list dict) (original_lower : str)
  : option (list dict) :=
  match vigencias with
  | [] => Some []
  | vig :: tl =>
      keep ← vigencia_kept vig original_lower;
      validated ← _validate_vigencias tl original_lower;
      Some (if keep : bool then vig :: validated else validated)
  end.

(** [max(sources, key=len)]: the first of the longest. *)
Fixpoint longest (best : str) (others : list str) : str :=
  match others with
  | [] => best
  | x :: tl =>
      if (length best <? length x)%nat then longest x tl else longest best tl
  end.

Definition _get_original_text (state : State) : str :=
  let first := match raw_extraction state with
               | Some r => raw_text r
               | None => []
               end in
  let second := match structured_data state with
                | Some sd => match sd_raw_extraction sd with
                             | Some r => raw_text r
                             | None => []
                             end
                | None => []
                end in
  let contents :=
    List.filter (fun c => negb (eqb c []))
                (List.map wr_content (web_results state)) in
  longest first (second :: contents).

(** Step 1 of [validate]: the tax codes and the types of change.  The
    result is the state, the corrections made and the errors found. *)
Definition validate_changes (original_lower : str) (state : State)
  : option (State * nat * list str) :=
  match system_changes state with
  | Some sc =>
      '(aliquotas', c, e) ← validate_aliquotas original_lower (aliquotas sc) 0 [];
      Some (set_system_changes (Some (set_aliquotas aliquotas' sc)) state, c, e)
  | None => Some (state, 0%nat, [])
  end.

(** Step 2: the escalation to the text-generation service, made only when
    one to three errors were found. *)
Definition escalate (generate : Generate) (original_text : str)
           (errors_found : list str) (state : State) (corrections_made : nat)
  : State * nat :=
  if negb (is_empty errors_found) && (length errors_found <=? 3)%nat then
    match system_changes state with
    | Some sc =>
        let llm_corrections :=
          _validate_via_llm generate (aliquotas sc) (upto 8000 original_text) in
        let '(aliquotas', c) :=
          apply_llm_corrections llm_corrections (aliquotas sc) corrections_made in
        (set_system_changes (Some (set_aliquotas aliquotas' sc)) state, c)
    | None => (state, corrections_made)
    end
  else (state, corrections_made).

(** Step 3: the effective dates. *)
Definition validate_dates (original_lower : str) (state : State)
  : option State :=
  match date_extraction state with
  | Some dx =>
      validated ← _validate_vigencias (vigencias dx) original_lower;
      Some (set_date_extraction (Some (set_vigencias validated dx)) state)
  | None => Some state
  end.

(** Step 4: the validation flag. *)
Definition status_of (corrections_made : nat) (errors_found : list str)
  : ValidationStatus :=
  {| validated := true;
     corrections_made := corrections_made;
     errors := errors_found;
     confidence := if is_empty errors_found then U "alta" else U "media" |}.

(** [ValidationAgent.validate]; [None] comes from the filter of the
    effective dates alone: a date that Python rejects as a pattern, which
    raises [re.error] out of the method, or a date outside the fragment of
    [Re.compile]. *)
Definition validate (generate : Generate) (state : State) : option State :=
  let original_text := _get_original_text state in
  if eqb original_text [] then Some state
  else
    let original_lower := lower original_text in
    '(state1, corrections_made, errors_found) ←
      validate_changes original_lower state;
    let '(state2, corrections_made) :=
      escalate generate original_text errors_found state1 corrections_made in
    state3 ← validate_dates original_lower state2;
    Some (set_validation_status
            (Some (status_of corrections_made errors_found)) state3).

End Validation.

(* ================================================================== *)
(** ** Collaborators *)
(* ================================================================== *)

(** What the core receives from outside: the two import flags of the
    optional modules, the clock, the web fetcher, and the calls to the
    text-generation service with the parsing that the extraction stages do
    on its answers.  An [option] result is [None] when the call raises. *)
Record Env := {
  HAS_KNOWLEDGE_BASE : bool;
  HAS_VALIDATION_AGENT : bool;
  current_year : nat;
  (* WebSearchAgent *)
  fetch_multiple_urls : list (list N) -> list WebResult;
  search : list N -> list WebResult;
  identify_legislation_type : list N -> list N -> list N;
  (* RawExtractionAgent: the service's answer for (content, query) *)
  generate_raw : list N -> list N -> option (list N);
  (* DateExtractionAgent: the parsed answers and the pattern fallback *)
  _extract_via_llm : list N -> list dict;
  _extract_via_llm_reforma : list N -> list dict;
  _extract_regex_fallback : list N -> list dict;
  (* QuantificationAgent *)
  quantify : list WebResult -> Quantification;
  (* ImpactAnalysisAgent, on the consolidated content *)
  extract_impact_analysis : list N -> option dict;
  (* SystemChangesAgent: the records parsed from the service's analysis;
     the flag tells the reform prompt from the general one *)
  extract_aliquota_changes : bool -> StructuredData -> dict -> list dict;
  extract_compliance_risks :
    bool -> StructuredData -> dict -> option (list N) -> list (list N);
  (* ValidationAgent's escalation call *)
  generate_validation : Validation.Generate;
  (* DellRelevanceAgent *)
  analyze_relevance : StructuredData -> dict -> list WebResult -> option dict;
  (* FinalAssemblyAgent *)
  assemble_report : State -> option (list N)
}.

(* ================================================================== *)
(** ** System-changes stage ([system_changes_agent.py]) *)
(* ================================================================== *)

Module SystemChangesStage.
Import Py.

(** The fallback rule of [identify_changes]. *)
Definition fallback (has_knowledge_base : bool) (known_law_key : option str)
           (aliquotas : list dict) : list dict :=
  if has_knowledge_base && bool_decide (is_Some known_law_key) then
    if negb (KB.has_valid_changes aliquotas) then
      let kb_changes := KB.get_system_changes_for_legislation known_law_key in
      if negb (is_empty kb_changes) then kb_changes else aliquotas
    else aliquotas
  else aliquotas.

Definition import_markers : list str :=
  [ U "importação"; U "importado"; U "alfândega"; U "aduaneiro";
    U "estrangeiro" ].
Definition inciso_markers : list str :=
  [ U "inciso ii"; U "incisos ii"; U "art."; U "§"; U "iii"; U "iv"; U "v" ].

(** [_post_process_tributos] on the tax-change list. *)
Fixpoint post_process_aliquotas (aliquotas : list dict) : list dict :=
  match aliquotas with
  | [] => []
  | aliq :: tl =>
      let tributo := get aliq "tributo" in
      if contains (U "II") (upper tributo) && (length tributo <=? 5)%nat then
        let descricao := lower (get aliq "descricao_completa") in
        let condicoes := lower (get aliq "condicoes") in
        let situacao := lower (get aliq "situacao_nova") in
        let contexto_completo :=
          descricao ++ U " " ++ condicoes ++ U " " ++ situacao in
        let has_import := contains_any import_markers contexto_completo in
        let has_inciso := contains_any inciso_markers contexto_completo in
        if negb has_import || has_inciso then post_process_aliquotas tl
        else <["tributo" := U "II (Imposto de Importação)"]> aliq
               :: post_process_aliquotas tl
      else aliq :: post_process_aliquotas tl
  end.

Definition identify_changes (env : Env) (structured_data : StructuredData)
           (impact_analysis : dict) (known_law_key : option str)
  : SystemChanges :=
  let original_legislation_text :=
    match sd_raw_extraction structured_data with
    | Some r => raw_text r
    | None => []
    end in
  let known_law_key :=
    match known_law_key with
    | Some k => Some k
    | None =>
        if HAS_KNOWLEDGE_BASE env
        then KB.detect_known_legislation [] original_legislation_text []
        else None
    end in
  let reforma := bool_decide (known_law_key = Some (U "LC_214")) in
  let aliquotas :=
    extract_aliquota_changes env reforma structured_data impact_analysis in
  let aliquotas := fallback (HAS_KNOWLEDGE_BASE env) known_law_key aliquotas in
  {| aliquotas := post_process_aliquotas aliquotas;
     compliance_risks :=
       Some (extract_compliance_risks env reforma structured_data
                                      impact_analysis known_law_key);
     sc_known_law_key := known_law_key |}.

End SystemChangesStage.

(* ================================================================== *)
(** ** Date-extraction stage ([date_extraction_agent.py]) *)
(* ================================================================== *)

Module DateExtraction.
Import Py.

(** The first 5000 characters of the first two sources that have
    content, joined by a blank line. *)
Definition _consolidate_content (web_results : list WebResult) : str :=
  join [10; 10]
       (List.map (fun r => upto 5000 (wr_content r))
                 (List.filter (fun r => negb (eqb (wr_content r) []))
                              (firstn 2 web_results))).

(** The list comprehension that removes duplicates: a record stays when
    its date was not seen before; a record without the key raises. *)
Fixpoint dedupe (seen : list str) (vigencias : list dict)
  : option (list dict) :=
  match vigencias with
  | [] => Some []
  | v :: tl =>
      data ← v !! "data";
      if bool_decide (data ∈ seen) then dedupe seen tl
      else others ← dedupe (data :: seen) tl; Some (v :: others)
  end.

(** One line of [dates_text]. *)
Definition date_line (v : dict) : option str :=
  data ← v !! "data";
  contexto ← v !! "contexto";
  Some (data ++ U ": " ++ contexto).

Fixpoint date_lines (vigencias : list dict) : option (list str) :=
  match vigencias with
  | [] => Some []
  | v :: tl =>
      line ← date_line v; others ← date_lines tl; Some (line :: others)
  end.

(** The fallback to the knowledge base, taken when a known law is detected
    and the service gave fewer than three dates. *)
Definition knowledge_base_fallback (has_knowledge_base : bool)
           (known_law_key : option str) (vigencias : list dict) : list dict :=
  if has_knowledge_base && bool_decide (is_Some known_law_key) then
    if is_empty vigencias || (length vigencias <? 3)%nat then
      let kb_vigencias := KB.get_vigencias_for_legislation known_law_key in
      if negb (is_empty kb_vigencias) then kb_vigencias else vigencias
    else vigencias
  else vigencias.

(** The secondary fallback, taken with fewer than two dates: the dates found
    by the patterns are appended and the duplicates removed. *)
Definition regex_fallback (found vigencias : list dict) : option (list dict) :=
  if is_empty vigencias || (length vigencias <? 2)%nat
  then dedupe [] (vigencias ++ found)
  else Some vigencias.

(** The dictionary returned: at most eight dates are kept. *)
Definition result (known_law_key : option str) (vigencias : list dict)
  : option DateExtraction :=
  lines ← date_lines vigencias;
  Some {| dates_text := join [10] lines;
          vigencias := firstn 8 vigencias;
          count := length (firstn 8 vigencias);
          dx_known_law_key := known_law_key |}.

(** [DateExtractionAgent.extract]; [None] is the [KeyError] of a record
    without its date or its context. *)
Definition extract (env : Env) (web_results : list WebResult)
           (raw_extraction : option RawExtraction) : option DateExtraction :=
  let content := _consolidate_content web_results in
  let raw_text :=
    match raw_extraction with Some r => raw_text r | None => [] end in
  let known_law_key :=
    match web_results with
    | first :: _ =>
        if HAS_KNOWLEDGE_BASE env
        then KB.detect_known_legislation (wr_url first) content (wr_title first)
        else None
    | [] => None
    end in
  let combined_content :=
    upto 8000 content ++ [10; 10] ++ upto 4000 raw_text in
  let vigencias :=
    if bool_decide (known_law_key = Some (U "LC_214"))
    then _extract_via_llm_reforma env combined_content
    else _extract_via_llm env combined_content in
  let vigencias :=
    knowledge_base_fallback (HAS_KNOWLEDGE_BASE env) known_law_key vigencias in
  vigencias ←
    regex_fallback (_extract_regex_fallback env combined_content) vigencias;
  result known_law_key vigencias.

End DateExtraction.

(* ================================================================== *)
(** ** Review stage ([review_agent.py]) *)
(* ================================================================== *)

Module Review.
Import Py.

Definition max_dates_allowed : nat := 6.

Definition legal_reference_markers : list str :=
  [ U "lei"; U "decreto"; U "mp"; U "portaria"; U "medida provisória";
    U "conforme"; U "nos termos"; U "de acordo com"; U "previsto" ].

Definition historical_patterns : list str :=
  [ U "lei.*\d+.*de.*(?:19\d{2}|200\d|201\d)";
    U "decreto.*\d+.*de.*(?:19\d{2}|200\d|201\d)" ].

Fixpoint search_any_cs (patterns : list str) (text : str) : option bool :=
  match patterns with
  | [] => Some false
  | p :: ps =>
      found ← Re.search false p text;
      if found : bool then Some true else search_any_cs ps text
  end.

Definition _infer_vigencia_type (data contexto : str) : str :=
  let contexto_lower := lower contexto in
  if contains_any [U "início"; U "começa"; U "entra em vigor"; U "a partir de"]
                  contexto_lower
  then U "inicio_vigencia"
  else if contains_any [U "prazo"; U "limite"; U "até"; U "máximo para"]
                       contexto_lower
  then U "prazo_aquisicao"
  else if contains_any [U "duração"; U "período"; U "vigência do benefício"]
                       contexto_lower
  then U "duracao_beneficio"
  else if contains_any [U "permanência"; U "mínimo"; U "ativo imobilizado"]
                       contexto_lower
  then U "prazo_permanencia"
  else if contains (U "ano") (lower data) then U "duracao_beneficio"
  else U "prazo_final".

(** The loop of [_review_dates]; it stops once [max_dates_allowed] records
    are kept, a test made only after a dated record is appended. *)
Fixpoint review_dates_loop (year_now : nat) (vigencias cleaned : list dict)
  : option (list dict) :=
  match vigencias with
  | [] => Some cleaned
  | v :: tl =>
      let data := get v "data" in
      let contexto := get v "contexto" in
      let tipo := get v "tipo" in
      if contains (U "ano") (lower data)
         || eqb tipo (U "duracao_beneficio")
         || eqb tipo (U "prazo_permanencia")
      then
        let v := if eqb tipo [] then <["tipo" := U "duracao_beneficio"]> v
                 else v in
        review_dates_loop year_now tl (cleaned ++ [v])
      else
        year_match ← Re.search_group0 false (U "20\d{2}") data;
        match year_match with
        | None => review_dates_loop year_now tl cleaned
        | Some year_text =>
            let year := int_of year_text in
            let contexto_lower := lower contexto in
            if (year <? N.of_nat year_now)%N then
              if contains_any legal_reference_markers contexto_lower then
                let v := <["contexto" :=
                             U "📜 Referência legal: " ++ upto 150 contexto]> v in
                let cleaned := cleaned ++ [v] in
                if (max_dates_allowed <=? length cleaned)%nat then Some cleaned
                else review_dates_loop year_now tl cleaned
              else review_dates_loop year_now tl cleaned
            else
              is_historical ← search_any_cs historical_patterns contexto_lower;
              let current_markers :=
                [ U "mpv"; U "1.318"; U "1318"; U "redata";
                  str_of_nat year_now; U "2025" ] in
              if is_historical && negb (contains_any current_markers contexto_lower)
              then review_dates_loop year_now tl cleaned
              else
                let contexto_clean := join (U " ") (split_ws contexto) in
                let v := <["contexto" := upto 180 contexto_clean]> v in
                let v :=
                  if eqb (get v "tipo") []
                  then <["tipo" := _infer_vigencia_type data contexto_clean]> v
                  else v in
                let cleaned := cleaned ++ [v] in
                if (max_dates_allowed <=? length cleaned)%nat then Some cleaned
                else review_dates_loop year_now tl cleaned
        end
  end.

Definition _review_dates (year_now : nat) (dx : DateExtraction)
  : option DateExtraction :=
  match vigencias dx with
  | [] => Some dx
  | _ =>
      cleaned ← review_dates_loop year_now (vigencias dx) [];
      text ←
        (if is_empty cleaned then Some (dates_text dx)
         else lines ← DateExtraction.date_lines cleaned; Some (join [10] lines));
      Some {| dates_text := text; vigencias := cleaned;
              count := length cleaned;
              dx_known_law_key := dx_known_law_key dx |}
  end.

(** [_fix_truncated_text]; the bound [max_length * 0.7] is 420.0 and 210.0
    for the two lengths in use, so the comparison is made on integers.
    [None] is the [IndexError] on a long string of white space. *)
Definition _fix_truncated_text (text : str) (max_length : nat) : option str :=
  if eqb text [] then Some text
  else if (length text <=? max_length)%nat then Some text
  else
    final ← last_char (strip text);
    if existsb (N.eqb final) (U ".!?") then Some text
    else
      let head := upto max_length text in
      let later (a b : option nat) : option nat :=
        match a, b with
        | Some x, Some y => Some (Nat.max x y)
        | Some x, None => Some x
        | None, _ => b
        end in
      let last_punct :=
        later (later (rfind 0x2E head) (rfind 0x21 head)) (rfind 0x3F head) in
      match last_punct with
      | Some i =>
          if (max_length * 7 <? i * 10)%nat then Some (upto (S i) text)
          else
            let text_cut := before_last_space head in
            if (50 <? length text_cut)%nat then Some (text_cut ++ U "...")
            else Some text
      | None =>
          let text_cut := before_last_space head in
          if (50 <? length text_cut)%nat then Some (text_cut ++ U "...")
          else Some text
      end.

Definition cleaned_keys : list string :=
  [ "situacao_nova"; "condicoes"; "vigencia"; "descricao_completa";
    "compliance_risks" ].

(** The cleaning of one text field. *)
Definition clean_text (text : str) : option str :=
  text ← Re.remove_all false (U "\*\*+") text;
  text ← Re.remove_all false (U "~~.*?~~") text;
  text ← _fix_truncated_text text 600;
  Some (join (U " ") (split_ws text)).

Fixpoint clean_fields (keys : list string) (aliq : dict) : option dict :=
  match keys with
  | [] => Some aliq
  | key :: tl =>
      match aliq !! key with
      | Some text =>
          if eqb text [] then clean_fields tl aliq
          else text' ← clean_text text; clean_fields tl (<[key := text']> aliq)
      | None => clean_fields tl aliq
      end
  end.

(** The loop over the tax-change list: a record is dropped when its tax
    code was seen before or when it carries no type of change. *)
Fixpoint review_aliquotas (aliquotas : list dict) (seen_tributos : list str)
  : option (list dict) :=
  match aliquotas with
  | [] => Some []
  | aliq :: tl =>
      let tributo := get aliq "tributo" in
      if bool_decide (tributo ∈ seen_tributos) then
        review_aliquotas tl seen_tributos
      else
        let tipo_mudanca := get aliq "tipo_mudanca" in
        if eqb tipo_mudanca [] || eqb tipo_mudanca (U "Análise manual necessária")
        then review_aliquotas tl seen_tributos
        else
          aliq' ← clean_fields cleaned_keys aliq;
          others ← review_aliquotas tl (tributo :: seen_tributos);
          Some (aliq' :: others)
  end.

Fixpoint clean_risks (risks : list str) : option (list str) :=
  match risks with
  | [] => Some []
  | risk :: tl =>
      risk_clean ← _fix_truncated_text risk 300;
      others ← clean_risks tl;
      Some (if (20 <? length risk_clean)%nat then risk_clean :: others
            else others)
  end.

(** [list(dict.fromkeys(l))]. *)
Fixpoint unique (seen : list str) (l : list str) : list str :=
  match l with
  | [] => []
  | x :: tl =>
      if bool_decide (x ∈ seen) then unique seen tl
      else x :: unique (x :: seen) tl
  end.

Definition _review_system_changes (sc : SystemChanges) : option SystemChanges :=
  match aliquotas sc with
  | [] => Some sc
  | _ =>
      cleaned_aliquotas ← review_aliquotas (aliquotas sc) [];
      risks ←
        match compliance_risks sc with
        | Some risks =>
            cleaned ← clean_risks risks; Some (Some (firstn 6 (unique [] cleaned)))
        | None => Some None
        end;
      Some {| aliquotas := cleaned_aliquotas; compliance_risks := risks;
              sc_known_law_key := sc_known_law_key sc |}
  end.

(** The tax a line of the impact analysis is about. *)
Definition tributo_key_of (line_lower : str) : option (option str) :=
  if contains (U "pis") line_lower && contains (U "cofins") line_lower
  then Some (Some (U "pis_cofins"))
  else if contains (U "pis") line_lower then Some (Some (U "pis"))
  else if contains (U "cofins") line_lower then Some (Some (U "cofins"))
  else if contains (U "ipi") line_lower then Some (Some (U "ipi"))
  else
    is_ii ← Re.search false (U "\b(ii|imposto de importação)\b") line_lower;
    if is_ii : bool then Some (Some (U "ii"))
    else if contains (U "icms") line_lower then Some (Some (U "icms"))
    else if contains (U "iss") line_lower then Some (Some (U "iss"))
    else if contains (U "irpj") line_lower
            || contains (U "imposto de renda") line_lower
    then Some (Some (U "ir"))
    else if contains (U "csll") line_lower then Some (Some (U "csll"))
    else Some None.

Definition without (x : str) (l : list str) : list str :=
  List.filter (fun y => negb (eqb x y)) l.

(** The loop of [_deduplicate_tributos]: a line about PIS and COFINS
    together replaces the earlier lines about one of them alone. *)
Fixpoint dedupe_lines (lines seen_tributos deduplicated : list str)
  : option (list str) :=
  match lines with
  | [] => Some deduplicated
  | line :: tl =>
      key ← tributo_key_of (lower line);
      match key with
      | None => dedupe_lines tl seen_tributos (deduplicated ++ [line])
      | Some k =>
          if eqb k (U "pis_cofins") then
            let '(seen1, kept1) :=
              if bool_decide (U "pis" ∈ seen_tributos)
              then (without (U "pis") seen_tributos,
                    List.filter
                      (fun l => negb (contains (U "pis") (lower l)
                                      && negb (contains (U "cofins") (lower l))))
                      deduplicated)
              else (seen_tributos, deduplicated) in
            let '(seen2, kept2) :=
              if bool_decide (U "cofins" ∈ seen1)
              then (without (U "cofins") seen1,
                    List.filter
                      (fun l => negb (contains (U "cofins") (lower l)
                                      && negb (contains (U "pis") (lower l))))
                      kept1)
              else (seen1, kept1) in
            dedupe_lines tl (U "pis_cofins" :: seen2) (kept2 ++ [line])
          else if eqb k (U "pis") || eqb k (U "cofins") then
            if bool_decide (U "pis_cofins" ∈ seen_tributos)
               || bool_decide (k ∈ seen_tributos)
            then dedupe_lines tl seen_tributos deduplicated
            else dedupe_lines tl (k :: seen_tributos) (deduplicated ++ [line])
          else
            if bool_decide (k ∈ seen_tributos)
            then dedupe_lines tl seen_tributos deduplicated
            else dedupe_lines tl (k :: seen_tributos) (deduplicated ++ [line])
      end
  end.

Definition _deduplicate_tributos (tributos_text : str) : option str :=
  if eqb tributos_text [] then Some tributos_text
  else
    let lines :=
      List.filter (fun l => negb (eqb l []))
                  (List.map strip (split_on 10 tributos_text)) in
    kept ← dedupe_lines lines [] [];
    Some (join [10] kept).

Definition _review_impact_analysis (impact_analysis : dict) : option dict :=
  let tributos_text := get impact_analysis "tributos" in
  if eqb tributos_text [] then Some impact_analysis
  else
    text ← _deduplicate_tributos tributos_text;
    Some (<["tributos" := text]> impact_analysis).

(** [ReviewAgent.review]. *)
Definition review (env : Env) (state : State) : option State :=
  state ←
    match date_extraction state with
    | Some dx =>
        dx' ← _review_dates (current_year env) dx;
        Some (set_date_extraction (Some dx') state)
    | None => Some state
    end;
  state ←
    match system_changes state with
    | Some sc =>
        sc' ← _review_system_changes sc;
        Some (set_system_changes (Some sc') state)
    | None => Some state
    end;
  if bool_decide (impact_analysis state = ∅) then Some state
  else
    ia ← _review_impact_analysis (impact_analysis state);
    Some (set_impact_analysis ia state).

End Review.

(* ================================================================== *)
(** ** Structure validation and enhancement ([legal_analysis_agent.py]) *)
(* ================================================================== *)

Module Structure.
Import Py.

Definition float_of_nat (n : nat) : float :=
  PrimFloat.of_uint63 (Uint63.of_Z (Z.of_nat n)).

Definition raw_text_of (data : StructuredData) : str :=
  match sd_raw_extraction data with Some r => raw_text r | None => [] end.
Definition vigencias_of (data : StructuredData) : list dict :=
  match sd_date_extraction data with Some d => vigencias d | None => [] end.
Definition percentuais_of (data : StructuredData) : list Percentual :=
  match sd_quantification data with Some q => percentuais q | None => [] end.

(** [min(1.0, x)]. *)
Definition min_one (x : float) : float :=
  if PrimFloat.ltb x 1.0%float then x else 1.0%float.

(** [_calculate_completeness]: the mean of three scores, summed from left
    to right in binary64. *)
Definition _calculate_completeness (data : StructuredData) : float :=
  let text := raw_text_of data in
  let s1 :=
    if is_empty text then 0.0%float
    else min_one (PrimFloat.div (float_of_nat (length text)) 1000.0%float) in
  let s2 := if is_empty (vigencias_of data) then 0.3%float else 1.0%float in
  let s3 := if is_empty (percentuais_of data) then 0.3%float else 1.0%float in
  PrimFloat.div (PrimFloat.add (PrimFloat.add s1 s2) s3) 3.0%float.

Definition _identify_gaps (data : StructuredData) : list str :=
  (if is_empty (raw_text_of data) then [U "raw_extraction"] else [])
    ++ (if is_empty (vigencias_of data) then [U "vigencias"] else [])
    ++ (if is_empty (percentuais_of data) then [U "percentuais"] else []).

(** [StructureValidationAgent.process]. *)
Definition process (raw_extraction : option RawExtraction)
           (date_extraction : option DateExtraction)
           (quantification : option Quantification) (legislation_type : str)
  : StructuredData * ValidationResults :=
  let structured :=
    {| sd_raw_extraction := raw_extraction;
       sd_date_extraction := date_extraction;
       sd_quantification := quantification;
       sd_legislation_type := legislation_type |} in
  let score := _calculate_completeness structured in
  (structured,
   {| completeness_score := score;
      needs_enhancement := PrimFloat.ltb score 0.70%float;
      missing_sections := _identify_gaps structured |}).

(** [EnhancementAgent.enhance]: a copy of the structured data. *)
Definition enhance (structured_data : StructuredData)
           (validation_results : option ValidationResults)
           (web_results : list WebResult) : StructuredData :=
  structured_data.

Definition empty_data : StructuredData :=
  {| sd_raw_extraction := None; sd_date_extraction := None;
     sd_quantification := None; sd_legislation_type := [] |}.

End Structure.

(* ================================================================== *)
(** ** Pipeline orchestrator ([workflow.py]) *)
(* ================================================================== *)

Module Workflow.
Import Py.

(** The nodes of the stage graph, under the names they are added with. *)
Inductive node :=
| input | search_node | detect_type | raw_extract | extract_dates
| extract_numbers | validate | enhance | analyze_impact | system_changes_node
| validation_check | dell_relevance | review | assemble.

(** [state.get("enhanced_data") or state["structured_data"]]. *)
Definition data_of (state : State) : StructuredData :=
  match enhanced_data state with
  | Some d => d
  | None => default Structure.empty_data (structured_data state)
  end.

Definition process_input (state : State) : State :=
  set_validation_status None (set_known_law_key None state).

Definition search_web (env : Env) (state : State) : State :=
  let results :=
    if negb (is_empty (urls state)) then fetch_multiple_urls env (urls state)
    else search env (query state) in
  set_web_results results state.

Definition detect_type_stage (env : Env) (state : State) : State :=
  match web_results state with
  | first :: _ =>
      let content := wr_content first in
      let url := wr_url first in
      let leg_type :=
        if negb (eqb content []) then identify_legislation_type env content url
        else U "default" in
      let state := set_legislation_type leg_type state in
      match KB.detect_known_legislation url content (wr_title first) with
      | Some known_key => set_known_law_key (Some known_key) state
      | None => state
      end
  | [] => set_legislation_type (U "default") state
  end.

(** [RawExtractionAgent._consolidate_content]: documents first, then the
    official pages, then the other sources. *)
Definition consolidate_sources (web_results : list WebResult) : str :=
  let pdf r := eqb (wr_content_type r) (U "pdf") in
  let block (label : str) r :=
    [ [10] ++ U "===" ++ label ++ wr_title r ++ U "===" ++ [10];
      wr_content r ] in
  join [10]
       (List.flat_map (block (U "PDF: ")) (List.filter pdf web_results)
        ++ List.flat_map (block (U "OFICIAL: "))
             (List.filter (fun r => wr_is_official r && negb (pdf r))
                          web_results)
        ++ List.flat_map (block [])
             (List.filter (fun r => negb (wr_is_official r) && negb (pdf r))
                          web_results)).

Definition extract_raw (env : Env) (state : State) : option State :=
  let content := consolidate_sources (web_results state) in
  result ← generate_raw env (upto 40000 content) (query state);
  Some (set_raw_extraction
          (Some {| raw_text := result;
                   content_length := length content;
                   sources_count := length (web_results state);
                   rx_legislation_type := legislation_type state |})
          state).

Definition extract_dates_stage (env : Env) (state : State) : option State :=
  dates ← DateExtraction.extract env (web_results state) (raw_extraction state);
  let state := set_date_extraction (Some dates) state in
  Some (match dx_known_law_key dates, known_law_key state with
        | Some k, None => set_known_law_key (Some k) state
        | _, _ => state
        end).

Definition extract_numbers_stage (env : Env) (state : State) : State :=
  set_quantification (Some (quantify env (web_results state))) state.

Definition validate_stage (state : State) : State :=
  let '(structured, validation) :=
    Structure.process (raw_extraction state) (date_extraction state)
                      (quantification state) (legislation_type state) in
  set_validation_results (Some validation)
                         (set_structured_data (Some structured) state).

Definition enhance_stage (state : State) : State :=
  set_enhanced_data
    (Some (Structure.enhance (default Structure.empty_data (structured_data state))
                             (validation_results state) (web_results state)))
    state.

(** [ImpactAnalysisAgent._consolidate_content]. *)
Definition all_content (web_results : list WebResult) : str :=
  join [10; 10]
       (List.filter (fun c => negb (eqb c []))
                    (List.map wr_content web_results)).

Definition analyze_impact_stage (env : Env) (state : State) : option State :=
  impact ← extract_impact_analysis env (all_content (web_results state));
  Some (set_impact_analysis impact state).

Definition analyze_system_changes (env : Env) (state : State) : State :=
  let changes :=
    SystemChangesStage.identify_changes env (data_of state)
                                        (impact_analysis state)
                                        (known_law_key state) in
  let state := set_system_changes (Some changes) state in
  match sc_known_law_key changes, known_law_key state with
  | Some k, None => set_known_law_key (Some k) state
  | _, _ => state
  end.

Definition run_validation (env : Env) (state : State) : option State :=
  if HAS_VALIDATION_AGENT env
  then Validation.validate (generate_validation env) state
  else Some state.

Definition dell_relevance_check (env : Env) (state : State) : option State :=
  dell ← analyze_relevance env (data_of state) (impact_analysis state)
                           (web_results state);
  Some (set_dell_analysis dell state).

Definition assemble_stage (env : Env) (state : State) : option State :=
  report ← assemble_report env state;
  Some (set_final report state).

(** The completeness score that [validate] computes on the state it is
    given. *)
Definition score_on (state : State) : float :=
  completeness_score
    (snd (Structure.process (raw_extraction state) (date_extraction state)
                            (quantification state) (legislation_type state))).

(** What a node does to the state; [None] is an exception. *)
Definition exec (env : Env) (n : node) (state : State) : option State :=
  match n with
  | input => Some (process_input state)
  | search_node => Some (search_web env state)
  | detect_type => Some (detect_type_stage env state)
  | raw_extract => extract_raw env state
  | extract_dates => extract_dates_stage env state
  | extract_numbers => Some (extract_numbers_stage env state)
  | validate => Some (validate_stage state)
  | enhance => Some (enhance_stage state)
  | analyze_impact => analyze_impact_stage env state
  | system_changes_node => Some (analyze_system_changes env state)
  | validation_check => run_validation env state
  | dell_relevance => dell_relevance_check env state
  | review => Review.review env state
  | assemble => assemble_stage env state
  end.

(** The edges of [_build_workflow]; [None] is [END].  The only branch is
    taken on the state that [validate] returns. *)
Definition next (n : node) (state : State) : option node :=
  match n with
  | input => Some search_node
  | search_node => Some detect_type
  | detect_type => Some raw_extract
  | raw_extract => Some extract_dates
  | extract_dates => Some extract_numbers
  | extract_numbers => Some validate
  | validate =>
      match validation_results state with
      | Some v => if needs_enhancement v then Some enhance
                  else Some analyze_impact
      | None => Some analyze_impact
      end
  | enhance => Some analyze_impact
  | analyze_impact => Some system_changes_node
  | system_changes_node => Some validation_check
  | validation_check => Some dell_relevance
  | dell_relevance => Some review
  | review => Some assemble
  | assemble => None
  end.

(** How a run ends. *)
Inductive outcome :=
| Completed (final : State)
| Raised (at_node : node) (before : State)
| Unfinished.

(** The nodes executed from [n] on, in order, each with the state it was
    given, and the outcome. *)
Fixpoint run_from (env : Env) (fuel : nat) (n : node) (state : State)
  : list (node * State) * outcome :=
  match fuel with
  | O => ([], Unfinished)
  | S fuel' =>
      match exec env n state with
      | None => ([(n, state)], Raised n state)
      | Some state' =>
          match next n state' with
          | None => ([(n, state)], Completed state')
          | Some n' =>
              let '(trace, out) := run_from env fuel' n' state' in
              ((n, state) :: trace, out)
          end
      end
  end.

(** The names of the nodes of a trace. *)
Definition nodes_of (trace : list (node * State)) : list node :=
  List.map fst trace.

Definition node_eqb (a b : node) : bool :=
  match a, b with
  | input, input | search_node, search_node | detect_type, detect_type
  | raw_extract, raw_extract | extract_dates, extract_dates
  | extract_numbers, extract_numbers | validate, validate | enhance, enhance
  | analyze_impact, analyze_impact | system_changes_node, system_changes_node
  | validation_check, validation_check | dell_relevance, dell_relevance
  | review, review | assemble, assemble => true
  | _, _ => false
  end.

(** The state the node [n] was given, the first time it ran. *)
Fixpoint state_at (n : node) (trace : list (node * State)) : option State :=
  match trace with
  | [] => None
  | (n', s) :: tl => if node_eqb n' n then Some s else state_at n tl
  end.

(** The state a run starts from. *)
Definition initial_state (query : str) (url_list : list str) : State :=
  {| query := query; urls := url_list; web_results := [];
     legislation_type := U "default";
     raw_extraction := None; date_extraction := None;
     quantification := None; structured_data := None;
     validation_results := None; enhanced_data := None;
     impact_analysis := ∅; system_changes := None; dell_analysis := ∅;
     known_law_key := None; validation_status := None;
     final_analysis := []; workflow_complete := false |}.

(** [LegislacaoWorkflow.run]; [None] is the [ValueError] raised before any
    stage when neither a query nor a URL is given. The graph has fourteen
    nodes and no cycle, so fourteen steps always suffice. *)
Definition run (env : Env) (query : str) (url : str) (urls : list str)
  : option (list (node * State) * outcome) :=
  let url_list :=
    if negb (is_empty urls) then urls
    else if negb (eqb url []) then [url] else [] in
  if eqb query [] && is_empty url_list then None
  else
    let query :=
      if eqb query []
      then U "Analisar legislação: " ++ join (U ", ") url_list
      else query in
    Some (run_from env 14 input (initial_state query url_list)).

End Workflow.

(* ================================================================== *)
(** ** Canned collaborators *)
(* ================================================================== *)

(** An environment whose collaborators give fixed answers: the fetched
    sources, the raw extraction, the dates and the tax changes read from
    the service, and the answer to the escalation call. *)
Module Canned.
Import Py.

Definition env (docs : list WebResult) (answer : option str)
           (dates changes : list dict) (pcts : list Percentual)
           (escalation : option (list Validation.Validacao)) : Env :=
  {| HAS_KNOWLEDGE_BASE := true;
     HAS_VALIDATION_AGENT := true;
     current_year := 2025;
     fetch_multiple_urls := fun _ => docs;
     search := fun _ => docs;
     identify_legislation_type := fun _ _ => U "lei";
     generate_raw := fun _ _ => answer;
     _extract_via_llm := fun _ => dates;
     _extract_via_llm_reforma := fun _ => dates;
     _extract_regex_fallback := fun _ => [];
     quantify := fun _ =>
                   {| percentuais := pcts; llm_analysis := [];
                      total_encontrado := length pcts |};
     extract_impact_analysis := fun _ => Some ∅;
     extract_aliquota_changes := fun _ _ _ => changes;
     extract_compliance_risks := fun _ _ _ _ => [];
     generate_validation := fun _ _ => escalation;
     analyze_relevance := fun _ _ _ => Some ∅;
     assemble_report := fun _ => Some (U "RELATÓRIO") |}.

(** The record the extraction engine returns when it extracts nothing. *)
Definition nothing_extracted : list dict :=
  [ list_to_map
      [ ("tributo", U "Análise detalhada necessária");
        ("tipo_mudanca", U "Verificar legislação");
        ("descricao_completa",
         U "Mudanças não puderam ser extraídas automaticamente. Consulte a análise completa.") ] ].

Definition date (data contexto : string) : dict :=
  list_to_map [ ("data", U data); ("contexto", U contexto);
                ("tipo", U "inicio_vigencia"); ("relevancia", U "alta") ].

Definition change (tributo tipo_mudanca : string) : dict :=
  list_to_map [ ("tributo", U tributo); ("tipo_mudanca", U tipo_mudanca) ].

(** A state as the validation stage receives it: the text of the law, the
    extracted tax changes and the extracted dates. *)
Definition state_with (text : str) (changes dates : list dict) : State :=
  set_date_extraction
    (Some {| dates_text := []; vigencias := dates; count := length dates;
             dx_known_law_key := None |})
    (set_system_changes
       (Some {| aliquotas := changes; compliance_risks := None;
                sc_known_law_key := None |})
       (set_raw_extraction
          (Some {| raw_text := text; content_length := length text;
                   sources_count := 1; rx_legislation_type := U "lei" |})
          (Workflow.initial_state (U "lei") []))).

(** The page of Lei Complementar 214 as fetched: its heading only. *)
Definition lc214_page : WebResult :=
  {| wr_url := U "https://www.planalto.gov.br/ccivil_03/leis/lcp/lcp214.htm";
     wr_title := U "Lei Complementar nº 214";
     wr_content :=
       U "Lei Complementar nº 214, de 16 de janeiro de 2025. Institui o Imposto sobre Bens e Serviços (IBS) e a Contribuição Social sobre Bens e Serviços (CBS).";
     wr_is_official := true;
     wr_content_type := U "html" |}.

(** A text of [n] characters. *)
Definition text_of_length (n : nat) : str := List.repeat 0x61 n.

Definition one_percent : Percentual :=
  {| valor := 1.0%float; pc_contexto := U "1%"; pc_tipo := U "geral" |}.

(** Readings of a state and of a run. *)
Definition tributos (state : State) : list (option str) :=
  match system_changes state with
  | Some sc => List.map (fun a : dict => a !! "tributo") (aliquotas sc)
  | None => []
  end.

Definition tipos (state : State) : list (option str) :=
  match system_changes state with
  | Some sc => List.map (fun a : dict => a !! "tipo_mudanca") (aliquotas sc)
  | None => []
  end.

Definition datas (state : State) : list (option str) :=
  match date_extraction state with
  | Some dx => List.map (fun v : dict => v !! "data") (vigencias dx)
  | None => []
  end.

Definition final_of (r : option (list (Workflow.node * State) * Workflow.outcome))
  : option State :=
  match r with
  | Some (_, Workflow.Completed final) => Some final
  | _ => None
  end.

Definition trace_of (r : option (list (Workflow.node * State) * Workflow.outcome))
  : list (Workflow.node * State) :=
  match r with
  | Some (trace, _) => trace
  | None => []
  end.

End Canned.

(* ================================================================== *)
(** ** Relations used in the statements *)
(* ================================================================== *)

(** Two records that carry the same tax code. *)
Definition same_tributo (a a' : dict) : Prop := a' !! "tributo" = a !! "tributo".

(** A date record as the extraction builds it: with its date and context. *)
Definition dated (v : dict) : Prop :=
  is_Some (v !! "data") /\ is_Some (v !! "contexto").

(** A character without a meaning of its own in a pattern. *)
Definition plain (c : N) : bool :=
  negb (existsb (N.eqb c) (Py.U "\.^$*+?{}[]()|")).

(** A character of a date against a character of the text: a slash of the
    date stands for a slash or a hyphen. *)
Definition char_matches (d c : N) : bool :=
  if N.eqb d 0x2F then N.eqb c 0x2D || N.eqb c 0x2F else N.eqb c d.

(** The date at the start of the text, and somewhere in it. *)
Fixpoint date_at (data text : list N) : bool :=
  match data with
  | [] => true
  | d :: data' =>
      match text with
      | [] => false
      | c :: text' => char_matches d c && date_at data' text'
      end
  end.

Fixpoint date_occurs (data text : list N) : bool :=
  date_at data text
  || match text with [] => false | _ :: text' => date_occurs data text' end.

(** The first year of this century written in the date occurs in the
    text. *)
Definition year_occurs (data text : list N) : bool :=
  match Re.search_group0 false (Py.U "20\d{2}") data with
  | Some (Some year) => Py.contains year text
  | _ => false
  end.

(** The tax code and the type of change of a tax-change record, as the
    stages read them. *)
Definition tributo_of (aliq : dict) : list N := get aliq "tributo".
Definition tipo_of (aliq : dict) : list N := get aliq "tipo_mudanca".

(** The date of an effective-date record, as the stages read it. *)
Definition data_of (v : dict) : list N := get v "data".

(** A record that [_post_process_tributos] takes for the import duty or for
    an item of an enumeration: its tax code holds "II" and has five
    characters at most. *)
Definition short_ii (aliq : dict) : bool :=
  Py.contains (Py.U "II") (Py.upper (get aliq "tributo"))
  && (length (get aliq "tributo") <=? 5)%nat.

(** A date record that [_review_dates] always keeps: its date is a span
    of years, or its type is a duration or a permanence. *)
Definition spans_years (v : dict) : bool :=
  Py.contains (Py.U "ano") (Py.lower (get v "data"))
  || Py.eqb (get v "tipo") (Py.U "duracao_beneficio")
  || Py.eqb (get v "tipo") (Py.U "prazo_permanencia").

(** The date of a record shows a year of this century. *)
Definition shows_year (v : dict) : Prop :=
  exists year,
    Re.search_group0 false (Py.U "20\d{2}") (get v "data") = Some (Some year).

(** The order of the stages in the graph of [_build_workflow], with the
    optional enhancement. *)
Definition stage_order (with_enhance : bool) : list Workflow.node :=
  [ Workflow.input; Workflow.search_node; Workflow.detect_type;
    Workflow.raw_extract; Workflow.extract_dates; Workflow.extract_numbers;
    Workflow.validate ]
  ++ (if with_enhance then [Workflow.enhance] else [])
  ++ [ Workflow.analyze_impact; Workflow.system_changes_node;
       Workflow.validation_check; Workflow.dell_relevance; Workflow.review;
       Workflow.assemble ].

(** A text that no pattern can begin with: its first character is a
    repetition operator or a closing parenthesis. *)
Definition starts_with_operator (s : list N) : bool :=
  match s with
  | c :: _ => existsb (N.eqb c) (Py.U "*+?)")
  | [] => false
  end.

(** The tax that [_deduplicate_tributos] files a line under, if any. *)
Definition line_key (line : list N) : option (list N) :=
  default None (Review.tributo_key_of (Py.lower line)).

Definition has_key (key : option (list N)) (line : list N) : bool :=
  bool_decide (line_key line = key).

(** What the loop of [_deduplicate_tributos] keeps true of the keys it has
    seen and the lines it has kept: a key other than the combined one is
    seen exactly when a line is kept under it, one line at most is kept
    under such a key, and once the combined key is seen the two single
    keys are not. *)
Definition dedupe_inv (seen dedup : list (list N)) : Prop :=
  (forall k, k <> Py.U "pis_cofins" ->
             (k ∈ seen <-> List.filter (has_key (Some k)) dedup <> []))
  /\ (forall k, k <> Py.U "pis_cofins" ->
                (length (List.filter (has_key (Some k)) dedup) <= 1)%nat)
  /\ (Py.U "pis_cofins" ∈ seen ->
      ~ Py.U "pis" ∈ seen /\ ~ Py.U "cofins" ∈ seen).

(** A date with one opening parenthesis that is never closed: plain
    characters, the parenthesis, plain characters. *)
Definition opens_parenthesis (data : list N) : Prop :=
  exists before after,
    data = before ++ 0x28 :: after
    /\ forallb plain before = true /\ forallb plain after = true.

(* ================================================================== *)
(** ** Patterns without operators *)
(* ================================================================== *)

(** The patterns that the validation builds from a date: the characters of
    the date, a class for each slash, escaped characters and the two word
    boundaries.  A pattern of this kind compiles to a chain of atoms that
    each match in one way at most. *)
Module Chain.
Import Py.

Inductive token := TLit (c : N) | TSep | TEsc (c : N) | TWordB.

Definition escaped (c : N) : bool := existsb (N.eqb c) Re.special_chars.

(** The text of a token in the pattern, and what it compiles to. *)
Definition tok_src (t : token) : str :=
  match t with
  | TLit c => [c]
  | TSep => U "[-/]"
  | TEsc c => [0x5C; c]
  | TWordB => U "\b"
  end.

Definition tok_re (t : token) : Re.regex :=
  match t with
  | TLit c | TEsc c => Re.Lit c
  | TSep => Re.InSet false [Re.IChar 0x2D; Re.IChar 0x2F]
  | TWordB => Re.At Re.AtBoundary
  end.

Definition tok_ok (t : token) : bool :=
  match t with
  | TLit c => plain c
  | TEsc c => plain c && escaped c
  | TSep | TWordB => true
  end.

Definition source (ts : list token) : str := List.flat_map tok_src ts.

Definition sep_or_lit (c : N) : token := if N.eqb c 0x2F then TSep else TLit c.
Definition esc_or_lit (c : N) : token := if escaped c then TEsc c else TLit c.

(** What an atom may be followed by without being repeated or closed. *)
Definition head_ok (s : str) : bool :=
  match s with
  | [] => true
  | c :: _ => plain c || N.eqb c 0x5B || N.eqb c 0x5C
  end.

(** The sequence that [parse_seq] builds from a list of atoms. *)
Fixpoint chain (rs : list Re.regex) : Re.regex :=
  match rs with
  | [] => Re.Empty
  | [r] => r
  | r :: rs' => Re.Cat r (chain rs')
  end.

(** Atoms that match in one way at most, and the position they lead to. *)
Definition simple (r : Re.regex) : bool :=
  match r with
  | Re.Lit _ | Re.InSet _ _ | Re.At _ => true
  | _ => false
  end.

Definition step (r : Re.regex) (p : Re.pos) : option Re.pos :=
  match r with
  | Re.Lit x =>
      match Re.advance p with
      | Some (c, p') => if N.eqb c x then Some p' else None
      | None => None
      end
  | Re.InSet n items =>
      match Re.advance p with
      | Some (c, p') => if Re.set_matches false n items c then Some p' else None
      | None => None
      end
  | Re.At a => if Re.at_holds a p then Some p else None
  | _ => None
  end.

Fixpoint steps (rs : list Re.regex) (p : Re.pos) : option Re.pos :=
  match rs with
  | [] => Some p
  | r :: rs' => p' ← step r p; steps rs' p'
  end.

(** [g] holds of the text or of one of its suffixes. *)
Fixpoint occ (g : str -> bool) (s : str) : bool :=
  g s || match s with [] => false | _ :: s' => occ g s' end.

End Chain.

(* ================================================================== *)
(** * Properties *)
(* ================================================================== *)

(** Inversion of one monadic step. *)
Ltac bind_inv H :=
  match type of H with
  | (mbind _ ?x) = Some _ =>
      let E := fresh "E" in
      destruct x eqn:E; cbn [mbind option_bind] in H; [| discriminate H]
  end.

(** ** The merge engine *)

(** C3. The dates component of [merge_with_extracted_data] is the
    knowledge-base list of the key when fewer than three dates were
    extracted (none included), and the extracted list itself otherwise; so
    two extracted dates give the knowledge-base list and three are kept. *)
Theorem merge_dates_threshold :
  forall (extracted_vigencias extracted_changes : list dict)
         (key : option (list N)),
    fst (KB.merge_with_extracted_data extracted_vigencias extracted_changes key)
    = (if (length extracted_vigencias <? 3)%nat
       then KB.get_vigencias_for_legislation key
       else extracted_vigencias)
    /\ (forall a b : dict,
          fst (KB.merge_with_extracted_data [a; b] extracted_changes key)
          = KB.get_vigencias_for_legislation key)
    /\ (forall a b c : dict,
          fst (KB.merge_with_extracted_data [a; b; c] extracted_changes key)
          = [a; b; c]).
Proof.
  intros ev ec key. split; [| split; reflexivity].
  unfold KB.merge_with_extracted_data. cbn [fst].
  destruct ev as [| a [| b [| c tl]]]; reflexivity.
Qed.

(** The sufficiency test of the tax-change list, spelled out. *)
Lemma has_valid_changes_spec (extracted : list dict) :
  KB.has_valid_changes extracted = true
  <-> exists first tl, extracted = first :: tl
                       /\ first !! "tributo" <> Some KB.sentinel.
Proof.
  unfold KB.has_valid_changes. destruct extracted as [| first tl].
  - split; [discriminate | intros (? & ? & ? & _); discriminate].
  - rewrite negb_true_iff, bool_decide_eq_false. split.
    + intros H. exists first, tl. auto.
    + intros (f & t & Heq & H). injection Heq as -> ->. exact H.
Qed.

(** C4, the knowledge base of MPV 1318 holds no tax change: the stage keeps
    the failed extraction instead of substituting the empty list. *)
Lemma stage_fallback_keeps_failed_extraction :
  KB.has_valid_changes Canned.nothing_extracted = false
  /\ KB.get_system_changes_for_legislation (Some (Py.U "MPV_1318")) = []
  /\ SystemChangesStage.fallback true (Some (Py.U "MPV_1318"))
                                 Canned.nothing_extracted
     = Canned.nothing_extracted
  /\ SystemChangesStage.fallback true (Some (Py.U "MPV_1318"))
                                 Canned.nothing_extracted
     <> KB.get_system_changes_for_legislation (Some (Py.U "MPV_1318")).
Proof.
  assert (Hkeep : SystemChangesStage.fallback true (Some (Py.U "MPV_1318"))
                                              Canned.nothing_extracted
                  = Canned.nothing_extracted) by (vm_compute; reflexivity).
  split; [vm_compute; reflexivity |].
  split; [vm_compute; reflexivity |].
  split; [exact Hkeep |].
  rewrite Hkeep. intros H. apply (f_equal length) in H.
  vm_compute in H. discriminate H.
Qed.

(** C4, amended. [merge_with_extracted_data] keeps the extracted tax-change
    list exactly when it is non-empty and its first record's tax code is not
    the marker of a failed extraction, and otherwise returns the
    knowledge-base list of the key; the rule of the system-changes stage
    substitutes under the same test, but only when a known key is present
    and its knowledge-base list is non-empty. *)
Theorem merge_tax_changes_rule :
  forall (extracted_vigencias extracted : list dict) (key : option (list N))
         (has_knowledge_base : bool),
    (KB.has_valid_changes extracted = true
     <-> exists first tl, extracted = first :: tl
                          /\ first !! "tributo" <> Some KB.sentinel)
    /\ snd (KB.merge_with_extracted_data extracted_vigencias extracted key)
       = (if KB.has_valid_changes extracted then extracted
          else KB.get_system_changes_for_legislation key)
    /\ SystemChangesStage.fallback has_knowledge_base key extracted
       = (if KB.has_valid_changes extracted then extracted
          else if has_knowledge_base && bool_decide (is_Some key)
                  && negb (Py.is_empty (KB.get_system_changes_for_legislation key))
               then KB.get_system_changes_for_legislation key
               else extracted).
Proof.
  intros ev ec key hkb. split; [apply has_valid_changes_spec |]. split.
  - unfold KB.merge_with_extracted_data. cbn [snd].
    destruct (KB.has_valid_changes ec); reflexivity.
  - unfold SystemChangesStage.fallback.
    destruct hkb, (bool_decide (is_Some key)), (KB.has_valid_changes ec);
      cbn; try reflexivity;
      destruct (Py.is_empty (KB.get_system_changes_for_legislation key));
      reflexivity.
Qed.

(** ** The date-extraction stage *)

(** The summary lines are built whenever every record carries its date and
    its context. *)
Lemma date_lines_total (vigencias : list dict) :
  Forall dated vigencias ->
  is_Some (DateExtraction.date_lines vigencias).
Proof.
  induction 1 as [| v tl [[d Hd] [c Hc]] _ [ls IH]]; cbn.
  - eauto.
  - unfold DateExtraction.date_line. rewrite Hd, Hc. cbn. rewrite IH. cbn. eauto.
Qed.

(** C10. The output of the date-extraction stage, as it is stored in the
    shared state, holds at most eight dates, and its [count] is the length
    of that list, whatever the service, the knowledge base and the pattern
    fallback supplied. *)
Theorem date_extraction_cap :
  forall (env : Env) (state state' : State),
    Workflow.extract_dates_stage env state = Some state' ->
    exists dx,
      date_extraction state' = Some dx
      /\ DateExtraction.extract env (web_results state) (raw_extraction state)
         = Some dx
      /\ (length (vigencias dx) <= 8)%nat
      /\ count dx = length (vigencias dx).
Proof.
  intros env st st' H. unfold Workflow.extract_dates_stage in H.
  destruct (DateExtraction.extract env (web_results st) (raw_extraction st))
    as [dx |] eqn:E; [| discriminate].
  cbn in H. exists dx. split.
  - injection H as <-.
    cbn. destruct (dx_known_law_key dx), (known_law_key st); reflexivity.
  - split; [reflexivity |].
    unfold DateExtraction.extract in E. cbv zeta in E.
    bind_inv E. unfold DateExtraction.result in E. bind_inv E.
    injection E as <-. cbn [vigencias count]. split; [| reflexivity].
    rewrite length_firstn. lia.
Qed.

(** A run of the stage on one source, with three dates read from the
    service. *)
Lemma date_extraction_cap_witness :
  let env := Canned.env [] (Some (Py.U "texto")) 
                        [ Canned.date "01/01/2026" "a"; Canned.date "2027" "b";
                          Canned.date "2028" "c" ] [] [] None in
  let state := Workflow.initial_state (Py.U "lei") [] in
  exists state' dx,
    Workflow.extract_dates_stage env state = Some state'
    /\ date_extraction state' = Some dx
    /\ (length (vigencias dx) <= 8)%nat
    /\ count dx = length (vigencias dx).
Proof.
  intros env state.
  destruct (Workflow.extract_dates_stage env state) as [state' |] eqn:E;
    [| vm_compute in E; discriminate].
  destruct (date_extraction_cap env state state' E) as (dx & H1 & _ & H2 & H3).
  exists state', dx. auto.
Defined.

(** Removing the repeated dates returns a result on records that carry their
    date. *)
Lemma dedupe_total (vigencias : list dict) :
  Forall dated vigencias ->
  forall seen, exists kept,
    DateExtraction.dedupe seen vigencias = Some kept /\ Forall dated kept.
Proof.
  induction 1 as [| v tl [[d Hd] Hc] _ IH]; intros seen; cbn [DateExtraction.dedupe].
  - eauto.
  - rewrite Hd. cbn [mbind option_bind].
    destruct (bool_decide (d ∈ seen)); [apply IH |].
    destruct (IH (d :: seen)) as (kept & -> & Hk). cbn [mbind option_bind].
    eexists. split; [reflexivity |]. constructor; [| exact Hk].
    split; [eauto | exact Hc].
Qed.

(** The dates of the knowledge base carry their date and context. *)
Lemma knowledge_base_dates_dated (key : option (list N)) :
  Forall dated (KB.get_vigencias_for_legislation key).
Proof.
  destruct key as [k |]; [| constructor]. unfold KB.get_vigencias_for_legislation.
  unfold KB.KNOWLEDGE_BASE.
  destruct (decide (k = Py.U "LC_214")) as [-> | H1].
  - rewrite lookup_insert_eq. cbn [KB.e_vigencias KB.LC_214_DATA default].
    unfold KB.LC_214_vigencias.
    repeat (constructor; [split; vm_compute; eexists; reflexivity |]).
    constructor.
  - rewrite lookup_insert_ne by congruence.
    destruct (decide (k = Py.U "MPV_1318")) as [-> | H2].
    + rewrite lookup_insert_eq. constructor.
    + rewrite lookup_insert_ne by congruence. rewrite lookup_empty. constructor.
Qed.

(** X15. The date extraction returns a result whenever the records read from
    the service and from the pattern fallback carry their date and context,
    as the extraction builds them: no lookup of a record raises. *)
Lemma date_extraction_defined (env : Env) (web_results : list WebResult)
      (raw : option RawExtraction) :
  (forall c, Forall dated (_extract_via_llm env c)) ->
  (forall c, Forall dated (_extract_via_llm_reforma env c)) ->
  (forall c, Forall dated (_extract_regex_fallback env c)) ->
  is_Some (DateExtraction.extract env web_results raw).
Proof.
  intros Hllm Href Hfall. unfold DateExtraction.extract. cbv zeta.
  set (known := match web_results with [] => None | _ => _ end).
  set (combined := _ ++ _ ++ _).
  set (first := if bool_decide (known = Some (Py.U "LC_214"))
                then _extract_via_llm_reforma env combined
                else _extract_via_llm env combined).
  assert (Hfirst : Forall dated first)
    by (subst first; destruct (bool_decide _); [apply Href | apply Hllm]).
  assert (Hsecond :
            Forall dated (DateExtraction.knowledge_base_fallback
                            (HAS_KNOWLEDGE_BASE env) known first)).
  { unfold DateExtraction.knowledge_base_fallback.
    destruct (_ && _); [| exact Hfirst].
    destruct (_ || _); [| exact Hfirst].
    destruct (negb _); [apply knowledge_base_dates_dated | exact Hfirst]. }
  assert (Hthird : exists third,
             DateExtraction.regex_fallback
               (_extract_regex_fallback env combined)
               (DateExtraction.knowledge_base_fallback
                  (HAS_KNOWLEDGE_BASE env) known first) = Some third
             /\ Forall dated third).
  { unfold DateExtraction.regex_fallback. destruct (_ || _).
    - apply dedupe_total. apply Forall_app. split; [exact Hsecond | apply Hfall].
    - eauto. }
  destruct Hthird as (third & -> & Hthird). cbn [mbind option_bind].
  unfold DateExtraction.result.
  destruct (date_lines_total third Hthird) as [ls ->]. cbn [mbind option_bind].
  eauto.
Qed.

(** ** The validation engine *)

Lemma apply_correction_tributo (tributo tipo : list N) (aliq : dict) :
  Validation.apply_correction tributo tipo aliq !! "tributo" = aliq !! "tributo".
Proof.
  unfold Validation.apply_correction.
  rewrite !lookup_insert_ne by discriminate. reflexivity.
Qed.

Lemma same_tributo_refl (l : list dict) : Forall2 same_tributo l l.
Proof. induction l; constructor; [reflexivity | assumption]. Qed.

Lemma same_tributo_trans (l1 l2 l3 : list dict) :
  Forall2 same_tributo l1 l2 -> Forall2 same_tributo l2 l3 ->
  Forall2 same_tributo l1 l3.
Proof.
  intros H. revert l3. induction H as [| a b l1 l2 Hab _ IH]; intros l3 H3.
  - inversion H3. constructor.
  - inversion H3 as [| ? c ? l3' Hbc Hrest]; subst. constructor.
    + unfold same_tributo in *. congruence.
    + apply IH, Hrest.
Qed.

Lemma validate_aliquotas_cons (text : list N) (aliq : dict) (tl : list dict)
      (c : nat) (e : list (list N)) :
  Validation.validate_aliquotas text (aliq :: tl) c e
  = (let tributo := get aliq "tributo" in
     let tipo_mudanca := get aliq "tipo_mudanca" in
     tributo_valid ← Validation._validate_tributo tributo text;
     if negb tributo_valid then
       '(tl', c, e) ← Validation.validate_aliquotas
                        text tl c (e ++ [Validation.error_not_found tributo]);
       Some (aliq :: tl', c, e)
     else
       '(tipo_validated, tipo_correto) ←
         Validation._validate_change_type tributo tipo_mudanca text;
       if negb tipo_validated then
         match tipo_correto with
         | Some correto =>
             '(tl', c, e) ← Validation.validate_aliquotas text tl (S c) e;
             Some (Validation.apply_correction tributo correto aliq :: tl', c, e)
         | None =>
             '(tl', c, e) ← Validation.validate_aliquotas
                              text tl c
                              (e ++ [Validation.error_unconfirmed tributo tipo_mudanca]);
             Some (aliq :: tl', c, e)
         end
       else
         '(tl', c, e) ← Validation.validate_aliquotas text tl c e;
         Some (aliq :: tl', c, e)).
Proof. reflexivity. Qed.

(** The loop over the tax-change list keeps every record in its place; it
    only rewrites the three keys of a correction, and it logs an error for
    each record whose tax code the text does not show. *)
Lemma validate_aliquotas_keeps (text : list N) (l : list dict) :
  forall c e l' c' e',
    Validation.validate_aliquotas text l c e = Some (l', c', e') ->
    Forall2 same_tributo l l'
    /\ exists e2,
        e' = e ++ e2
        /\ forall a, a ∈ l ->
             Validation._validate_tributo (get a "tributo") text = Some false ->
             Validation.error_not_found (get a "tributo") ∈ e2 /\ a ∈ l'.
Proof.
  induction l as [| a tl IH]; intros c e l' c' e' H.
  - cbn in H. injection H as <- <- <-. split; [constructor |].
    exists []. rewrite app_nil_r. split; [reflexivity |].
    intros a Ha. inversion Ha.
  - rewrite validate_aliquotas_cons in H. cbv zeta in H.
    bind_inv H. destruct b; cbn [negb] in H.
    + (* the tax code is in the text *)
      bind_inv H. destruct p as [ok correto]. destruct ok; cbn [negb] in H.
      * bind_inv H. destruct p as [[tl' c1] e1]. injection H as <- <- <-.
        destruct (IH _ _ _ _ _ E1) as (F & e2 & -> & Herr).
        split; [constructor; [reflexivity | exact F] |].
        exists e2. split; [reflexivity |].
        intros x Hx Hv. apply elem_of_cons in Hx as [-> | Hx].
        -- congruence.
        -- destruct (Herr x Hx Hv). split; [assumption | now right].
      * destruct correto as [correto |].
        -- bind_inv H. destruct p as [[tl' c1] e1]. injection H as <- <- <-.
           destruct (IH _ _ _ _ _ E1) as (F & e2 & -> & Herr).
           split.
           { constructor; [apply apply_correction_tributo | exact F]. }
           exists e2. split; [reflexivity |].
           intros x Hx Hv. apply elem_of_cons in Hx as [-> | Hx].
           ++ congruence.
           ++ destruct (Herr x Hx Hv). split; [assumption | now right].
        -- bind_inv H. destruct p as [[tl' c1] e1]. injection H as <- <- <-.
           destruct (IH _ _ _ _ _ E1) as (F & e2 & -> & Herr).
           split; [constructor; [reflexivity | exact F] |].
           eexists. rewrite <- app_assoc. split; [reflexivity |].
           intros x Hx Hv. apply elem_of_cons in Hx as [-> | Hx].
           ++ congruence.
           ++ destruct (Herr x Hx Hv). split; [| now right].
              apply elem_of_app. now right.
    + (* the tax code is not in the text: an error, and the record stays *)
      bind_inv H. destruct p as [[tl' c1] e1]. injection H as <- <- <-.
      destruct (IH _ _ _ _ _ E0) as (F & e2 & -> & Herr).
      split; [constructor; [reflexivity | exact F] |].
      eexists. rewrite <- app_assoc. split; [reflexivity |].
      intros x Hx Hv. apply elem_of_cons in Hx as [-> | Hx].
      * split; [apply elem_of_app; left; apply list_elem_of_singleton; reflexivity
               | now left].
      * destruct (Herr x Hx Hv). split; [| now right].
        apply elem_of_app. now right.
Qed.

(** Projections of an updated state. *)
Ltac fields :=
  cbn [query urls web_results legislation_type raw_extraction date_extraction
       quantification structured_data validation_results enhanced_data
       impact_analysis system_changes dell_analysis known_law_key
       validation_status final_analysis workflow_complete
       set_web_results set_legislation_type set_raw_extraction
       set_date_extraction set_quantification set_structured_data
       set_validation_results set_enhanced_data set_impact_analysis
       set_system_changes set_dell_analysis set_known_law_key
       set_validation_status set_final set_aliquotas set_vigencias
       aliquotas compliance_risks sc_known_law_key
       vigencias dates_text count dx_known_law_key
       validated corrections_made errors confidence Validation.status_of
       fst snd] in *.

Lemma apply_llm_correction_keeps (tributo tipo : list N) (l : list dict) :
  forall n, Forall2 same_tributo l
                    (fst (Validation.apply_llm_correction tributo tipo l n)).
Proof.
  induction l as [| a tl IH]; intros n; cbn.
  - constructor.
  - destruct (bool_decide (a !! "tributo" = Some tributo)).
    + specialize (IH (S n)).
      destruct (Validation.apply_llm_correction tributo tipo tl (S n)).
      cbn in *. constructor; [apply apply_correction_tributo | exact IH].
    + specialize (IH n).
      destruct (Validation.apply_llm_correction tributo tipo tl n).
      cbn in *. constructor; [reflexivity | exact IH].
Qed.

Lemma apply_llm_corrections_keeps (corrections : list (list N * list N)) :
  forall (l : list dict) n,
    Forall2 same_tributo l
            (fst (Validation.apply_llm_corrections corrections l n)).
Proof.
  induction corrections as [| [t c] tl IH]; intros l n; cbn.
  - apply same_tributo_refl.
  - pose proof (apply_llm_correction_keeps t c l n) as H.
    destruct (Validation.apply_llm_correction t c l n) as [l1 n1]. cbn in H.
    eapply same_tributo_trans; [exact H | apply IH].
Qed.

(** The escalation step rewrites records in place. *)
Lemma escalate_keeps (generate : Validation.Generate) (text : list N)
      (e : list (list N)) (state : State) (c : nat) :
  match system_changes state with
  | Some sc =>
      exists sc',
        system_changes (fst (Validation.escalate generate text e state c)) = Some sc'
        /\ Forall2 same_tributo (aliquotas sc) (aliquotas sc')
  | None =>
      system_changes (fst (Validation.escalate generate text e state c)) = None
  end.
Proof.
  unfold Validation.escalate.
  destruct (negb (Py.is_empty e) && (length e <=? 3)%nat).
  - destruct (system_changes state) as [sc |] eqn:E.
    + pose proof (apply_llm_corrections_keeps
                    (Validation._validate_via_llm generate (aliquotas sc)
                                                  (Py.upto 8000 text))
                    (aliquotas sc) c) as H.
      destruct (Validation.apply_llm_corrections _ (aliquotas sc) c) as [l1 n1].
      fields. eauto.
    + fields. exact E.
  - destruct (system_changes state) as [sc |] eqn:E; fields.
    + rewrite E. exists sc. split; [reflexivity | apply same_tributo_refl].
    + exact E.
Qed.

(** What [validate] does, step by step. *)
Lemma validate_inv (generate : Validation.Generate) (state state' : State) :
  Validation.validate generate state = Some state' ->
  let text := Validation._get_original_text state in
  (text = [] /\ state' = state)
  \/ (text <> []
      /\ exists state1 c1 e state3,
          Validation.validate_changes (Py.lower text) state = Some (state1, c1, e)
          /\ Validation.validate_dates
               (Py.lower text)
               (fst (Validation.escalate generate text e state1 c1))
             = Some state3
          /\ state' = set_validation_status
                        (Some (Validation.status_of
                                 (snd (Validation.escalate generate text e state1 c1))
                                 e))
                        state3).
Proof.
  intros H text. unfold Validation.validate in H. cbv zeta in H. fold text in H.
  unfold Py.eqb in H.
  destruct (bool_decide (text = [])) eqn:Ht;
    [apply bool_decide_eq_true in Ht | apply bool_decide_eq_false in Ht].
  - left. split; [exact Ht | congruence].
  - right. split; [exact Ht |].
    bind_inv H. destruct p as [[state1 c1] e].
    destruct (Validation.escalate generate text e state1 c1) as [state2 c2] eqn:E2.
    bind_inv H. injection H as <-.
    exists state1, c1, e, s. rewrite E2. cbn [fst snd].
    repeat split; assumption || reflexivity.
Qed.

(** Validation keeps every record of the tax-change list in its place. *)
Lemma validate_keeps (generate : Validation.Generate) (state state' : State)
      (sc : SystemChanges) :
  Validation.validate generate state = Some state' ->
  system_changes state = Some sc ->
  exists sc',
    system_changes state' = Some sc'
    /\ Forall2 same_tributo (aliquotas sc) (aliquotas sc').
Proof.
  intros H Hsc. destruct (validate_inv _ _ _ H) as [[_ ->] | (_ & st1 & c1 & e & st3 & H1 & H3 & ->)].
  - exists sc. split; [exact Hsc | apply same_tributo_refl].
  - unfold Validation.validate_changes in H1. rewrite Hsc in H1.
    bind_inv H1. destruct p as [[l1 c] e1]. injection H1 as <- <- <-.
    destruct (validate_aliquotas_keeps _ _ _ _ _ _ _ E) as [F _].
    pose proof (escalate_keeps generate (Validation._get_original_text state) e1
                  (set_system_changes (Some (set_aliquotas l1 sc)) state) c) as K.
    fields. destruct K as (sc2 & K1 & K2).
    unfold Validation.validate_dates in H3.
    destruct (date_extraction _) as [dx |].
    + bind_inv H3. injection H3 as <-. fields. exists sc2. split; [exact K1 |].
      eapply same_tributo_trans; eassumption.
    + injection H3 as <-. fields. exists sc2. split; [exact K1 |].
      eapply same_tributo_trans; eassumption.
Qed.

(** After a validation that ran, the status lists an error for every record
    whose tax code the text does not show. *)
Lemma validate_flags (generate : Validation.Generate) (state state' : State)
      (sc : SystemChanges) :
  Validation.validate generate state = Some state' ->
  system_changes state = Some sc ->
  Validation._get_original_text state <> [] ->
  exists vs,
    validation_status state' = Some vs
    /\ validated vs = true
    /\ forall a, a ∈ aliquotas sc ->
         Validation._validate_tributo
           (get a "tributo") (Py.lower (Validation._get_original_text state))
         = Some false ->
         Validation.error_not_found (get a "tributo") ∈ errors vs
         /\ confidence vs = Py.U "media".
Proof.
  intros H Hsc Ht.
  destruct (validate_inv _ _ _ H) as [[Ht' _] | (_ & st1 & c1 & e & st3 & H1 & H3 & ->)];
    [contradiction |].
  unfold Validation.validate_changes in H1. rewrite Hsc in H1.
  bind_inv H1. destruct p as [[l1 c] e1]. injection H1 as <- <- <-.
  destruct (validate_aliquotas_keeps _ _ _ _ _ _ _ E) as (_ & e2 & -> & Herr).
  eexists. split; [reflexivity |]. split; [reflexivity |].
  intros a Ha Hv. destruct (Herr a Ha Hv) as [He _]. fields.
  rewrite app_nil_l in *. split; [exact He |].
  destruct e2; [inversion He | reflexivity].
Qed.

Lemma Forall2_same_tributo_elem (l l' : list dict) (a : dict) :
  Forall2 same_tributo l l' -> a ∈ l ->
  exists a', a' ∈ l' /\ a' !! "tributo" = a !! "tributo".
Proof.
  induction 1 as [| x y l l' Hxy _ IH]; intros Ha.
  - inversion Ha.
  - apply elem_of_cons in Ha as [-> | Ha].
    + exists y. split; [now left | exact Hxy].
    + destruct (IH Ha) as (a' & H1 & H2). exists a'. split; [now right | exact H2].
Qed.

(** C1, a run on the heading of Lei Complementar 214: the extraction fails,
    the knowledge base supplies the records of IBS, CBS and IS, and the text
    does not show the tax code IS.  The run completes, the validation stage
    executes, and the record of IS is in the final list, flagged by an
    error. *)
Lemma ungrounded_record_reaches_final_state :
  let env := Canned.env [Canned.lc214_page]
                        (Some (Py.U "A lei institui o IBS e a CBS."))
                        [] Canned.nothing_extracted [] None in
  let r := Workflow.run env [] (wr_url Canned.lc214_page) [] in
  Workflow.nodes_of (Canned.trace_of r)
  = [ Workflow.input; Workflow.search_node; Workflow.detect_type;
      Workflow.raw_extract; Workflow.extract_dates; Workflow.extract_numbers;
      Workflow.validate; Workflow.enhance; Workflow.analyze_impact;
      Workflow.system_changes_node; Workflow.validation_check;
      Workflow.dell_relevance; Workflow.review; Workflow.assemble ]
  /\ Canned.tributos <$> Canned.final_of r
     = Some [Some (Py.U "IBS"); Some (Py.U "CBS"); Some (Py.U "IS")]
  /\ Validation._get_original_text <$> Canned.final_of r
     = Some (wr_content Canned.lc214_page)
  /\ Validation._validate_tributo
       (Py.U "IS") (Py.lower (wr_content Canned.lc214_page)) = Some false
  /\ (errors <$> (Canned.final_of r ≫= validation_status))
     = Some [ Validation.error_unconfirmed (Py.U "IBS") (Py.U "NOVO TRIBUTO");
              Validation.error_unconfirmed (Py.U "CBS") (Py.U "NOVO TRIBUTO");
              Validation.error_not_found (Py.U "IS") ].
Proof.
  intros env r.
  split; [vm_compute; reflexivity |].
  split; [vm_compute; reflexivity |].
  split; [vm_compute; reflexivity |].
  split; vm_compute; reflexivity.
Qed.

(** C1, amended. Validation removes no record from the tax-change list:
    every record keeps its place and its tax code.  A record whose tax code
    the source text does not show is flagged, not dropped: when the text is
    available, the validation status lists the error of that tax code and
    the confidence is [media]. *)
Theorem validation_flags_and_keeps_records :
  forall (generate : Validation.Generate) (state state' : State)
         (sc : SystemChanges),
    Validation.validate generate state = Some state' ->
    system_changes state = Some sc ->
    exists sc',
      system_changes state' = Some sc'
      /\ Forall2 same_tributo (aliquotas sc) (aliquotas sc')
      /\ (Validation._get_original_text state <> [] ->
          exists vs,
            validation_status state' = Some vs
            /\ forall a,
                a ∈ aliquotas sc ->
                Validation._validate_tributo
                  (get a "tributo")
                  (Py.lower (Validation._get_original_text state))
                = Some false ->
                (exists a', a' ∈ aliquotas sc'
                            /\ a' !! "tributo" = a !! "tributo")
                /\ Validation.error_not_found (get a "tributo") ∈ errors vs
                /\ confidence vs = Py.U "media").
Proof.
  intros generate state state' sc H Hsc.
  destruct (validate_keeps _ _ _ _ H Hsc) as (sc' & Hsc' & F).
  exists sc'. split; [exact Hsc' |]. split; [exact F |].
  intros Ht. destruct (validate_flags _ _ _ _ H Hsc Ht) as (vs & Hvs & _ & Hflag).
  exists vs. split; [exact Hvs |].
  intros a Ha Hv. split; [exact (Forall2_same_tributo_elem _ _ _ F Ha) |].
  exact (Hflag a Ha Hv).
Qed.

(** The theorem at a state whose text mentions PIS and whose list holds a
    record of ICMS. *)
Lemma validation_flags_and_keeps_records_witness :
  let state := Canned.state_with (Py.U "Fica reduzida a zero a alíquota do PIS.")
                                 [Canned.change "ICMS" "ISENÇÃO"] [] in
  exists state' sc sc',
    Validation.validate (fun _ _ => None) state = Some state'
    /\ system_changes state = Some sc
    /\ system_changes state' = Some sc'
    /\ Forall2 same_tributo (aliquotas sc) (aliquotas sc').
Proof.
  intros state.
  destruct (Validation.validate (fun _ _ => None) state) as [state' |] eqn:E;
    [| vm_compute in E; discriminate E].
  destruct (validation_flags_and_keeps_records _ state state' _ E eq_refl)
    as (sc' & H1 & H2 & _).
  eexists state', _, sc'. repeat split; [exact H1 | exact H2].
Defined.




(** The stages after the validation leave its status as it is. *)
Lemma review_keeps_status (env : Env) (state state' : State) :
  Review.review env state = Some state' ->
  validation_status state' = validation_status state.
Proof.
  unfold Review.review. intros H.
  bind_inv H. bind_inv H.
  assert (H0 : validation_status s = validation_status state).
  { destruct (date_extraction state); [bind_inv E |]; injection E as <-; reflexivity. }
  assert (H1 : validation_status s0 = validation_status s).
  { destruct (system_changes s); [bind_inv E0 |]; injection E0 as <-; reflexivity. }
  destruct (bool_decide (impact_analysis s0 = ∅)).
  - injection H as <-. congruence.
  - bind_inv H. injection H as <-. fields. congruence.
Qed.

Lemma later_stages_keep_status (env : Env) (n : Workflow.node)
      (state state' : State) :
  n = Workflow.dell_relevance \/ n = Workflow.review \/ n = Workflow.assemble ->
  Workflow.exec env n state = Some state' ->
  validation_status state' = validation_status state.
Proof.
  intros [-> | [-> | ->]] H; cbn [Workflow.exec] in H.
  - unfold Workflow.dell_relevance_check in H. bind_inv H.
    injection H as <-. reflexivity.
  - eapply review_keeps_status, H.
  - unfold Workflow.assemble_stage in H. bind_inv H.
    injection H as <-. reflexivity.
Qed.

(** C9, a run without source: the service answers the raw extraction with
    an empty text, the validation stage finds no text to validate against,
    and the completed run carries no validation status. *)
Lemma run_without_text_has_no_status :
  let env := Canned.env [] (Some []) [] Canned.nothing_extracted [] None in
  let r := Workflow.run env (Py.U "lei 123") [] [] in
  Workflow.nodes_of (Canned.trace_of r)
  = [ Workflow.input; Workflow.search_node; Workflow.detect_type;
      Workflow.raw_extract; Workflow.extract_dates; Workflow.extract_numbers;
      Workflow.validate; Workflow.enhance; Workflow.analyze_impact;
      Workflow.system_changes_node; Workflow.validation_check;
      Workflow.dell_relevance; Workflow.review; Workflow.assemble ]
  /\ workflow_complete <$> Canned.final_of r = Some true
  /\ validation_status <$> Canned.final_of r = Some None.
Proof.
  intros env r.
  split; [vm_compute; reflexivity |].
  split; vm_compute; reflexivity.
Qed.

(** C9, amended. When the original text is available, the validation engine
    writes the validation status once: it holds the number of corrections
    made by the rules and by the escalation, the errors that the checks of
    the rules logged, and the confidence [alta] exactly when no error was
    logged and [media] otherwise; the later stages leave it as written.
    The list of errors is the one logged before the escalation: an error
    stays in it when the service then corrects its record.  When no
    original text is available the engine returns the state untouched and
    writes no status. *)
Theorem validation_status_written :
  forall (generate : Validation.Generate) (state state' : State),
    Validation.validate generate state = Some state' ->
    let text := Validation._get_original_text state in
    (text = [] -> state' = state)
    /\ (text <> [] ->
        exists vs state1 c1,
          validation_status state' = Some vs
          /\ validated vs = true
          /\ Validation.validate_changes (Py.lower text) state
             = Some (state1, c1, errors vs)
          /\ corrections_made vs
             = snd (Validation.escalate generate text (errors vs) state1 c1)
          /\ (confidence vs = Py.U "alta" <-> errors vs = [])
          /\ (confidence vs = Py.U "media" <-> errors vs <> []))
    /\ (forall env n later later',
          n = Workflow.dell_relevance \/ n = Workflow.review
          \/ n = Workflow.assemble ->
          Workflow.exec env n later = Some later' ->
          validation_status later' = validation_status later).
Proof.
  intros generate state state' H text.
  split; [| split].
  - intros Ht.
    destruct (validate_inv _ _ _ H) as [[_ ->] | (Hne & _)];
      [reflexivity | contradiction].
  - intros Hne.
    destruct (validate_inv _ _ _ H)
      as [[Ht _] | (_ & st1 & c1 & e & st3 & H1 & H3 & ->)]; [contradiction |].
    eexists _, st1, c1. split; [reflexivity |]. fields.
    split; [reflexivity |]. split; [exact H1 |]. split; [reflexivity |].
    destruct e as [| x e]; cbn [Py.is_empty].
    + split; split; intros; try reflexivity; try congruence.
      vm_compute in H0. discriminate H0.
    + split; split; intros; try reflexivity; try congruence.
      vm_compute in H0. discriminate H0.
  - intros env n later later'. apply later_stages_keep_status.
Qed.

(** The theorem at a state whose only record carries a tax code that the
    text does not show: the error is logged, the service corrects the
    record, and the error stays listed with the confidence [media]. *)
Lemma validation_status_written_witness :
  let text := Py.U "conforme incisos II, III, IV e V do art. 5º" in
  let state := Canned.state_with text [Canned.change "II" "REDUÇÃO"] [] in
  let generate : Validation.Generate :=
    fun _ _ =>
      Some [ {| Validation.v_tributo := Some (Py.U "II");
                Validation.v_tipo_correto := Py.U "ISENÇÃO";
                Validation.v_correcao_necessaria := true |} ] in
  exists state' vs,
    Validation.validate generate state = Some state'
    /\ validation_status state' = Some vs
    /\ errors vs = [Validation.error_not_found (Py.U "II")]
    /\ corrections_made vs = 1%nat
    /\ confidence vs = Py.U "media"
    /\ (List.map tipo_of ∘ aliquotas) <$> system_changes state'
       = Some [Py.U "ISENÇÃO"].
Proof.
  intros text state generate.
  destruct (Validation.validate generate state) as [state' |] eqn:E;
    [| vm_compute in E; discriminate E].
  destruct (validation_status_written _ state state' E) as (_ & H & _).
  destruct H as (vs & st1 & c1 & H1 & _ & Hlog & Hcount & _ & Hmedia).
  - vm_compute. discriminate.
  - assert (He : errors vs = [Validation.error_not_found (Py.U "II")]).
    { vm_compute in Hlog. injection Hlog as _ _ Hl.
      vm_compute. symmetry. exact Hl. }
    exists state', vs. split; [reflexivity |]. split; [exact H1 |].
    split; [exact He |].
    split.
    { assert (K : (fun s => corrections_made <$> validation_status s)
                    <$> Validation.validate generate state
                  = Some (Some 1%nat)) by (vm_compute; reflexivity).
      rewrite E in K. cbn [fmap option_fmap option_map] in K.
      rewrite H1 in K. cbn in K. congruence. }
    split; [apply Hmedia; rewrite He; discriminate |].
    assert (K : (fun s => (List.map tipo_of ∘ aliquotas) <$> system_changes s)
                  <$> Validation.validate generate state
                = Some (Some [Py.U "ISENÇÃO"])) by (vm_compute; reflexivity).
    rewrite E in K. cbn [fmap option_fmap option_map] in K. congruence.
Defined.

(** *** Reconciliation of the type of change *)

(** Every pattern of the type table compiles. *)
Lemma change_type_patterns_compile :
  Forall (fun kp : list N * list (list N) =>
            Forall (fun p => is_Some (Re.compile p)) kp.2)
         Validation.change_type_patterns.
Proof.
  unfold Validation.change_type_patterns.
  repeat (constructor;
          [cbn [snd];
           repeat (constructor; [vm_compute; eexists; reflexivity |]);
           constructor |]).
  constructor.
Qed.

(** The table has one entry per type. *)
Lemma change_type_patterns_assoc :
  Forall (fun kp : list N * list (list N) =>
            Validation.assoc Validation.change_type_patterns kp.1 = Some kp.2)
         Validation.change_type_patterns.
Proof.
  unfold Validation.change_type_patterns.
  repeat (constructor; [vm_compute; reflexivity |]).
  constructor.
Qed.

Lemma search_any_total (patterns : list (list N)) (text : list N) :
  Forall (fun p => is_Some (Re.compile p)) patterns ->
  is_Some (Validation.search_any patterns text).
Proof.
  induction 1 as [| p ps [r Hr] _ IH]; cbn [Validation.search_any].
  - eauto.
  - unfold Re.search. rewrite Hr. cbn [mbind option_bind].
    destruct (bool_decide _); [eauto | exact IH].
Qed.

Lemma first_type_some (table : list (list N * list (list N))) (c k : list N) :
  Validation.first_type table c = Some (Some k) ->
  Exists (fun kp => kp.1 = k /\ Validation.search_any kp.2 c = Some true) table.
Proof.
  induction table as [| [k0 pats] tl IH]; cbn [Validation.first_type]; intros H.
  - discriminate H.
  - bind_inv H. destruct b.
    + injection H as <-. apply Exists_cons. left. split; [reflexivity | exact E].
    + apply Exists_cons. right. apply IH, H.
Qed.

Lemma first_type_none (table : list (list N * list (list N))) (c : list N) :
  Validation.first_type table c = Some None ->
  Forall (fun kp => Validation.search_any kp.2 c = Some false) table.
Proof.
  induction table as [| [k0 pats] tl IH]; cbn [Validation.first_type]; intros H.
  - constructor.
  - bind_inv H. destruct b; [discriminate H |].
    constructor; [exact E | apply IH, H].
Qed.

Lemma first_type_total (table : list (list N * list (list N))) (c : list N) :
  Forall (fun kp => Forall (fun p => is_Some (Re.compile p)) kp.2) table ->
  is_Some (Validation.first_type table c).
Proof.
  induction 1 as [| [k0 pats] tl Hp _ IH]; cbn [Validation.first_type].
  - eauto.
  - destruct (search_any_total pats c Hp) as [b Hb]. rewrite Hb.
    cbn [mbind option_bind]. destruct b; [eauto | exact IH].
Qed.

Lemma first_type_in_cons (c : list N) (cs : list (list N)) :
  Validation.first_type_in (c :: cs)
  = (t ← Validation.first_type Validation.change_type_patterns c;
     match t with
     | Some k => Some (Some k)
     | None => Validation.first_type_in cs
     end).
Proof. reflexivity. Qed.

Lemma first_type_in_total (contexts : list (list N)) :
  is_Some (Validation.first_type_in contexts).
Proof.
  induction contexts as [| c cs IH].
  - cbn. eauto.
  - rewrite first_type_in_cons.
    destruct (first_type_total _ c change_type_patterns_compile) as [t Ht].
    rewrite Ht. cbn [mbind option_bind]. destruct t; [eauto | exact IH].
Qed.

Lemma first_type_in_some (contexts : list (list N)) (k : list N) :
  Validation.first_type_in contexts = Some (Some k) ->
  Exists (fun c => Validation.first_type Validation.change_type_patterns c
                   = Some (Some k)) contexts.
Proof.
  induction contexts as [| c cs IH]; intros H.
  - discriminate H.
  - rewrite first_type_in_cons in H. bind_inv H. destruct o as [k' |].
    + injection H as <-. apply Exists_cons. left. exact E.
    + apply Exists_cons. right. apply IH, H.
Qed.

Lemma first_type_in_none (contexts : list (list N)) :
  Validation.first_type_in contexts = Some None ->
  Forall (fun c => Validation.first_type Validation.change_type_patterns c
                   = Some None) contexts.
Proof.
  induction contexts as [| c cs IH]; intros H.
  - constructor.
  - rewrite first_type_in_cons in H. bind_inv H. destruct o as [k' |].
    + discriminate H.
    + constructor; [exact E | apply IH, H].
Qed.

(** A type whose patterns occur in no window is not the type found. *)
Lemma found_type_is_shown (contexts : list (list N)) (found : list N) :
  Validation.first_type_in contexts = Some (Some found) ->
  Exists (fun c => Validation.type_shown found c = Some true) contexts.
Proof.
  intros H. apply first_type_in_some in H.
  apply Exists_exists in H as (c & Hc & H). apply Exists_exists. exists c.
  split; [exact Hc |].
  apply first_type_some in H. apply Exists_exists in H as ([k pats] & Hin & Hk & Hs).
  cbn [fst snd] in *. subst k. unfold Validation.type_shown.
  pose proof change_type_patterns_assoc as A.
  rewrite Forall_forall in A. specialize (A _ Hin). cbn [fst snd] in A.
  rewrite A. exact Hs.
Qed.

Lemma not_shown_not_found (contexts : list (list N)) (tipo found : list N) :
  Forall (fun c => Validation.type_shown tipo c = Some false) contexts ->
  Validation.first_type_in contexts = Some (Some found) ->
  found <> tipo.
Proof.
  intros Hown Hfound ->. apply found_type_is_shown in Hfound.
  apply Exists_exists in Hfound as (c & Hc & H).
  rewrite Forall_forall in Hown. rewrite (Hown c Hc) in H. discriminate H.
Qed.

Lemma apply_correction_fields (tributo tipo : list N) (aliq : dict) :
  Validation.apply_correction tributo tipo aliq !! "tipo_mudanca" = Some tipo
  /\ Validation.apply_correction tributo tipo aliq !! "descricao_completa"
     = Some (tributo ++ Py.U ": " ++ tipo)
  /\ Validation.apply_correction tributo tipo aliq !! "situacao_nova"
     = Some (Validation._get_situacao_nova tipo tributo).
Proof.
  unfold Validation.apply_correction. repeat split.
  - rewrite !lookup_insert_ne by discriminate. apply lookup_insert_eq.
  - rewrite lookup_insert_ne by discriminate. apply lookup_insert_eq.
  - apply lookup_insert_eq.
Qed.

(** C7, first the phrase of the claim alone, then a type of change outside
    the table: PIS is marked ISENÇÃO and the text only says "fica suspensa",
    which no pattern of SUSPENSÃO matches; IBS is marked NOVO TRIBUTO and the
    text shows a pattern of CRÉDITO.  Neither record is rewritten and no
    correction is counted. *)
Lemma phrase_alone_is_not_reconciled :
  let text := Py.U "fica suspensa a exigência da Contribuição para o PIS" in
  let after :=
    Validation.validate (fun _ _ => None)
                        (Canned.state_with text [Canned.change "PIS" "ISENÇÃO"] []) in
  let text' := Py.U "O IBS dá direito a crédito amplo." in
  let after' :=
    Validation.validate (fun _ _ => None)
                        (Canned.state_with text' [Canned.change "IBS" "NOVO TRIBUTO"] []) in
  (Validation.type_shown (Py.U "SUSPENSÃO") (Py.lower text) = Some false
   /\ Canned.tipos <$> after = Some [Some (Py.U "ISENÇÃO")]
   /\ corrections_made <$> (after ≫= validation_status) = Some 0%nat)
  /\ (Validation.type_shown (Py.U "CRÉDITO") (Py.lower text') = Some true
      /\ Canned.tipos <$> after' = Some [Some (Py.U "NOVO TRIBUTO")]
      /\ corrections_made <$> (after' ≫= validation_status) = Some 0%nat).
Proof.
  intros text after text' after'.
  split; (split; [vm_compute; reflexivity |]);
    (split; vm_compute; reflexivity).
Qed.

(** C7, amended. Take a record whose tax code is grounded and whose type
    of change names a type of the pattern table (with its second half, for
    the composite of suspension and zero rate).  If no pattern of the
    assigned type occurs in any window around the mentions of the tax, and
    a pattern of some type does, then the type found (the first in table
    order, in the first window that shows one) differs from the assigned
    one, the record's [tipo_mudanca] is overwritten with it, its
    [descricao_completa] and [situacao_nova] are regenerated from the
    template table, and one correction is counted. *)
Theorem type_reconciliation :
  forall (text : list N) (aliq : dict) (to_check : list N)
         (secondary : option (list N)) (contexts : list (list N)),
    Validation._validate_tributo (get aliq "tributo") text = Some true ->
    Validation.types_to_check (get aliq "tipo_mudanca")
    = (Some to_check, secondary) ->
    Validation.tributo_contexts (get aliq "tributo") text = Some contexts ->
    Forall (fun c => Validation.type_shown to_check c = Some false) contexts ->
    (forall s, secondary = Some s ->
               Forall (fun c => Validation.type_shown s c = Some false) contexts) ->
    Exists (fun c => Exists (fun kp : list N * list (list N) =>
                               Validation.search_any kp.2 c = Some true)
                            Validation.change_type_patterns) contexts ->
    exists found,
      Validation.first_type_in contexts = Some (Some found)
      /\ found <> to_check
      /\ Exists (fun c => Validation.type_shown found c = Some true) contexts
      /\ (forall tl c e tl' c' e',
             Validation.validate_aliquotas text tl (S c) e = Some (tl', c', e') ->
             Validation.validate_aliquotas text (aliq :: tl) c e
             = Some (Validation.apply_correction (get aliq "tributo") found aliq
                       :: tl', c', e'))
      /\ Validation.validate_aliquotas text [aliq] 0 []
         = Some ([Validation.apply_correction (get aliq "tributo") found aliq],
                 1%nat, [])
      /\ Validation.apply_correction (get aliq "tributo") found aliq
           !! "tipo_mudanca" = Some found
      /\ Validation.apply_correction (get aliq "tributo") found aliq
           !! "descricao_completa"
         = Some (get aliq "tributo" ++ Py.U ": " ++ found)
      /\ Validation.apply_correction (get aliq "tributo") found aliq
           !! "situacao_nova"
         = Some (Validation._get_situacao_nova found (get aliq "tributo")).
Proof.
  intros text aliq to_check secondary contexts Hground Htype Hctx Hown Hsec Hother.
  destruct (first_type_in_total contexts) as [r Hr].
  destruct r as [found |].
  2:{ exfalso. apply first_type_in_none in Hr.
      apply Exists_exists in Hother as (c & Hc & Hex).
      rewrite Forall_forall in Hr. specialize (Hr c Hc).
      apply first_type_none in Hr.
      apply Exists_exists in Hex as (kp & Hkp & Hs).
      rewrite Forall_forall in Hr. rewrite (Hr kp Hkp) in Hs. discriminate Hs. }
  assert (Hne : found <> to_check) by (eapply not_shown_not_found; eassumption).
  assert (Hchange :
            Validation._validate_change_type
              (get aliq "tributo") (get aliq "tipo_mudanca") text
            = Some (false, Some found)).
  { unfold Validation._validate_change_type. rewrite Htype, Hctx.
    cbn [mbind option_bind]. rewrite Hr. cbn [mbind option_bind].
    unfold Py.eqb. rewrite bool_decide_eq_false_2 by congruence.
    destruct secondary as [s |]; [| reflexivity].
    rewrite bool_decide_eq_false_2; [reflexivity |].
    intros ->. eapply not_shown_not_found; [apply Hsec | exact Hr |]; reflexivity. }
  assert (Hstep :
            forall tl c e tl' c' e',
              Validation.validate_aliquotas text tl (S c) e = Some (tl', c', e') ->
              Validation.validate_aliquotas text (aliq :: tl) c e
              = Some (Validation.apply_correction (get aliq "tributo") found aliq
                        :: tl', c', e')).
  { intros tl c e tl' c' e' Htl. rewrite validate_aliquotas_cons. cbv zeta.
    rewrite Hground. cbn [mbind option_bind negb]. rewrite Hchange.
    cbn [mbind option_bind negb]. rewrite Htl. reflexivity. }
  exists found. split; [exact Hr |]. split; [exact Hne |].
  split; [apply found_type_is_shown, Hr |]. split; [exact Hstep |].
  split; [apply Hstep; reflexivity |].
  apply apply_correction_fields.
Qed.

(** The theorem at the text "Fica suspensa a exigência da Contribuição para
    o PIS. A suspensão converte-se em alíquota zero." and the record of PIS
    marked ISENÇÃO: the type becomes SUSPENSÃO and one correction is
    counted. *)
Lemma type_reconciliation_witness :
  let text :=
    Py.lower (Py.U "Fica suspensa a exigência da Contribuição para o PIS. A suspensão converte-se em alíquota zero.") in
  let aliq := Canned.change "PIS" "ISENÇÃO" in
  Validation.validate_aliquotas text [aliq] 0 []
  = Some ([Validation.apply_correction (Py.U "PIS") (Py.U "SUSPENSÃO") aliq],
          1%nat, [])
  /\ Validation.apply_correction (Py.U "PIS") (Py.U "SUSPENSÃO") aliq
       !! "tipo_mudanca" = Some (Py.U "SUSPENSÃO").
Proof.
  intros text aliq.
  assert (Htrib : get aliq "tributo" = Py.U "PIS") by (vm_compute; reflexivity).
  match eval vm_compute in (Validation.tributo_contexts (Py.U "PIS") text) with
  | Some ?cs => pose (contexts := cs)
  end.
  assert (Hctx : Validation.tributo_contexts (get aliq "tributo") text
                 = Some contexts) by (vm_compute; reflexivity).
  destruct (type_reconciliation text aliq (Py.U "ISENÇÃO") None contexts)
    as (found & Hfound & _ & _ & _ & Hrun & Htipo & _).
  - vm_compute; reflexivity.
  - vm_compute; reflexivity.
  - exact Hctx.
  - repeat (constructor; [vm_compute; reflexivity |]). constructor.
  - intros s Hs. discriminate Hs.
  - apply Exists_cons_hd. apply Exists_cons_hd. vm_compute; reflexivity.
  - assert (Hf : Validation.first_type_in contexts = Some (Some (Py.U "SUSPENSÃO")))
      by (vm_compute; reflexivity).
    rewrite Hf in Hfound. injection Hfound as <-.
    rewrite Htrib in Hrun, Htipo. split; [exact Hrun | exact Htipo].
Defined.

(** ** The orchestrator *)

(** The cases of a run: which call raised, if any, and which way the
    branch went. *)
Ltac run_cases H :=
  repeat (match type of H with
          | context [if PrimFloat.ltb ?a ?b then _ else _] =>
              let E := fresh "B" in destruct (PrimFloat.ltb a b) eqn:E
          | context [match ?x with Some _ => _ | None => _ end] =>
              let E := fresh "E" in destruct x eqn:E
          end;
          cbv beta iota in H;
          cbn [Workflow.exec Workflow.next] in H);
  injection H as <- <-.

Ltac node_in :=
  cbn [Workflow.nodes_of List.map fst List.In];
  repeat match goal with
         | |- _ \/ _ => first [left; reflexivity | right]
         end.

Ltac node_not_in :=
  cbn [Workflow.nodes_of List.map fst List.In];
  intros Hin;
  repeat match type of Hin with
         | _ \/ _ => destruct Hin as [Hin | Hin]; [discriminate Hin |]
         end;
  try contradiction; try discriminate Hin.

Ltac find_state Hin :=
  cbn [List.In] in Hin;
  repeat match type of Hin with
         | _ \/ _ => destruct Hin as [Hin | Hin];
                     [first [discriminate Hin | injection Hin as <-] |]
         end;
  try contradiction.

Lemma is_some_of_bool {A} (o : option A) :
  match o with Some _ => true | None => false end = true ->
  exists x, o = Some x.
Proof. destruct o; [eauto | discriminate]. Qed.

Lemma node_eqb_eq (a b : Workflow.node) : Workflow.node_eqb a b = true -> a = b.
Proof. destruct a, b; (reflexivity || discriminate). Qed.

Lemma state_at_in (n : Workflow.node) (trace : list (Workflow.node * State))
      (s : State) :
  Workflow.state_at n trace = Some s -> In (n, s) trace.
Proof.
  induction trace as [| [n' s'] tl IH]; cbn [Workflow.state_at]; intros H.
  - discriminate H.
  - destruct (Workflow.node_eqb n' n) eqn:E.
    + injection H as ->. apply node_eqb_eq in E as ->. now left.
    + right. apply IH, H.
Qed.

(** The branch, for a run from the entry node on any state. *)
Lemma branch_from_input (env : Env) (state0 : State)
      (trace : list (Workflow.node * State)) (out : Workflow.outcome) :
  Workflow.run_from env 14 Workflow.input state0 = (trace, out) ->
  (In Workflow.enhance (Workflow.nodes_of trace)
   <-> exists s, In (Workflow.validate, s) trace
                 /\ PrimFloat.ltb (Workflow.score_on s) 0.70%float = true)
  /\ (forall s,
         In (Workflow.validate, s) trace ->
         (In Workflow.enhance (Workflow.nodes_of trace)
          <-> PrimFloat.ltb (Workflow.score_on s) 0.70%float = true)
         /\ exists pre post,
             Workflow.nodes_of trace
             = pre ++ Workflow.validate
                   :: (if PrimFloat.ltb (Workflow.score_on s) 0.70%float
                       then [Workflow.enhance; Workflow.analyze_impact]
                       else [Workflow.analyze_impact]) ++ post).
Proof.
  intros H.
  cbn [Workflow.run_from Workflow.exec Workflow.next Workflow.validate_stage
       Structure.process validation_results set_validation_results
       set_structured_data needs_enhancement] in H.
  run_cases H.
  all: split;
    [ split;
      [ first
          [ solve [node_not_in]
          | intros _; eexists; split; [do 6 right; left; reflexivity |];
            unfold Workflow.score_on;
            cbn [Structure.process snd completeness_score]; assumption ]
      | intros (sv & Hin & Hs); find_state Hin;
        first
          [ solve [node_in]
          | unfold Workflow.score_on in Hs;
            cbn [Structure.process snd completeness_score] in Hs; congruence ] ]
    | intros sv Hin; find_state Hin;
      unfold Workflow.score_on;
      cbn [Structure.process snd completeness_score];
      match goal with
      | B : PrimFloat.ltb _ _ = _ |- _ => rewrite B
      end;
      (split;
       [ split; [first [intros _; reflexivity | solve [node_not_in]]
                | first [discriminate | solve [intros _; node_in]]]
       | eexists [_; _; _; _; _; _], _;
         cbn [Workflow.nodes_of List.map fst app]; reflexivity ]) ].
Qed.

(** C5. In every run, the enhancement stage executes if and only if the
    structure-validation stage ran and the completeness score it computed is
    strictly below 0.70: the nodes that follow [validate] are [enhance] and
    then [analyze_impact] when the score is below the threshold, and
    [analyze_impact] directly otherwise.  With the score 0.85 the run goes
    from the completeness validation to the impact analysis and never
    executes the enhancement; with 0.55 it executes it before the impact
    analysis. *)
Theorem enhancement_branch :
  forall (env : Env) (query url : list N) (urls : list (list N))
         (trace : list (Workflow.node * State)) (out : Workflow.outcome),
    Workflow.run env query url urls = Some (trace, out) ->
    (In Workflow.enhance (Workflow.nodes_of trace)
     <-> exists s, In (Workflow.validate, s) trace
                   /\ PrimFloat.ltb (Workflow.score_on s) 0.70%float = true)
    /\ (forall s,
           In (Workflow.validate, s) trace ->
           (In Workflow.enhance (Workflow.nodes_of trace)
            <-> PrimFloat.ltb (Workflow.score_on s) 0.70%float = true)
           /\ (exists pre post,
                  Workflow.nodes_of trace
                  = pre ++ Workflow.validate
                        :: (if PrimFloat.ltb (Workflow.score_on s) 0.70%float
                            then [Workflow.enhance; Workflow.analyze_impact]
                            else [Workflow.analyze_impact]) ++ post)
           /\ (Workflow.score_on s = 0.85%float ->
               ~ In Workflow.enhance (Workflow.nodes_of trace)
               /\ exists pre post,
                   Workflow.nodes_of trace
                   = pre ++ [Workflow.validate; Workflow.analyze_impact] ++ post)
           /\ (Workflow.score_on s = 0.55%float ->
               exists pre post,
                 Workflow.nodes_of trace
                 = pre ++ [Workflow.validate; Workflow.enhance;
                           Workflow.analyze_impact] ++ post)).
Proof.
  intros env query url urls trace out H.
  unfold Workflow.run in H.
  match type of H with
  | (if ?b then None else _) = Some _ => destruct b; [discriminate H |]
  end.
  injection H as H.
  destruct (branch_from_input _ _ _ _ H) as [Hiff Hat].
  split; [exact Hiff |].
  intros s Hin. destruct (Hat s Hin) as [Hiff' Hshape].
  split; [exact Hiff' |]. split; [exact Hshape |]. split.
  - intros E. rewrite E in Hiff', Hshape.
    change (PrimFloat.ltb 0.85%float 0.70%float) with false in Hiff', Hshape.
    split; [rewrite Hiff'; discriminate | exact Hshape].
  - intros E. rewrite E in Hshape.
    change (PrimFloat.ltb 0.55%float 0.70%float) with true in Hshape.
    exact Hshape.
Qed.

(** The theorem at two runs: a raw extraction of 550 characters with a date
    and a percentage scores 0.85, one of 350 characters with a date and no
    percentage scores 0.55. *)
Lemma enhancement_branch_witness :
  let env85 := Canned.env [] (Some (Canned.text_of_length 550))
                          [Canned.date "2026" "x"] Canned.nothing_extracted
                          [Canned.one_percent] None in
  let env55 := Canned.env [] (Some (Canned.text_of_length 350))
                          [Canned.date "2026" "x"] Canned.nothing_extracted
                          [] None in
  let r85 := Workflow.run env85 (Py.U "lei 123") [] [] in
  let r55 := Workflow.run env55 (Py.U "lei 123") [] [] in
  ~ In Workflow.enhance (Workflow.nodes_of (Canned.trace_of r85))
  /\ In Workflow.enhance (Workflow.nodes_of (Canned.trace_of r55)).
Proof.
  intros env85 env55 r85 r55.
  destruct (is_some_of_bool r85) as [[trace85 out85] E85];
    [vm_compute; reflexivity |].
  destruct (is_some_of_bool r55) as [[trace55 out55] E55];
    [vm_compute; reflexivity |].
  destruct (is_some_of_bool (Workflow.state_at Workflow.validate
                                               (Canned.trace_of r85)))
    as [s85 Es85]; [vm_compute; reflexivity |].
  destruct (is_some_of_bool (Workflow.state_at Workflow.validate
                                               (Canned.trace_of r55)))
    as [s55 Es55]; [vm_compute; reflexivity |].
  assert (H85 : Workflow.score_on <$> Workflow.state_at Workflow.validate
                                        (Canned.trace_of r85) = Some 0.85%float)
    by (vm_compute; reflexivity).
  assert (H55 : Workflow.score_on <$> Workflow.state_at Workflow.validate
                                        (Canned.trace_of r55) = Some 0.55%float)
    by (vm_compute; reflexivity).
  rewrite Es85 in H85. rewrite Es55 in H55.
  injection H85 as H85. injection H55 as H55.
  rewrite E85 in Es85 |- *. rewrite E55 in Es55 |- *.
  cbn [Canned.trace_of] in *.
  apply state_at_in in Es85, Es55.
  destruct (enhancement_branch _ _ _ _ _ _ E85) as [_ A85].
  destruct (enhancement_branch _ _ _ _ _ _ E55) as [_ A55].
  destruct (A85 s85 Es85) as (_ & _ & N85 & _).
  destruct (A55 s55 Es55) as (I55 & _ & _ & _).
  split.
  - exact (proj1 (N85 H85)).
  - apply I55. rewrite H55. reflexivity.
Defined.

Lemma detect_type_on_empty (env : Env) (s : State) :
  web_results s = [] ->
  Workflow.detect_type_stage env s = set_legislation_type (Py.U "default") s.
Proof. intros H. unfold Workflow.detect_type_stage. rewrite H. reflexivity. Qed.

(** A run from the entry node on any state, when the search stage hands
    over no source. *)
Lemma empty_search_from_input (env : Env) (state0 : State)
      (trace : list (Workflow.node * State)) (out : Workflow.outcome)
      (s : State) :
  Workflow.run_from env 14 Workflow.input state0 = (trace, out) ->
  In (Workflow.detect_type, s) trace ->
  web_results s = [] ->
  (exists s',
      In (Workflow.raw_extract, s') trace
      /\ web_results s' = []
      /\ legislation_type s' = Py.U "default")
  /\ match out with
     | Workflow.Completed final => workflow_complete final = true
     | Workflow.Raised n before =>
         Workflow.exec env n before = None
         /\ In n [ Workflow.raw_extract; Workflow.extract_dates;
                   Workflow.analyze_impact; Workflow.validation_check;
                   Workflow.dell_relevance; Workflow.review; Workflow.assemble ]
     | Workflow.Unfinished => False
     end.
Proof.
  intros H Hin Hempty.
  cbn [Workflow.run_from Workflow.exec Workflow.next Workflow.validate_stage
       Structure.process validation_results set_validation_results
       set_structured_data needs_enhancement] in H.
  run_cases H; find_state Hin.
  all: split;
    [ eexists; split; [do 3 right; left; reflexivity |];
      rewrite (detect_type_on_empty _ _ Hempty);
      split; [exact Hempty | reflexivity]
    | first
        [ (* the run completed *)
          match goal with
          | E : Workflow.assemble_stage _ _ = Some _ |- _ =>
              unfold Workflow.assemble_stage in E; bind_inv E;
              injection E as <-; reflexivity
          end
        | (* a stage raised *)
          split; [cbn [Workflow.exec]; assumption | node_in ] ] ].
Qed.

(** C6, a run whose search returns nothing: the raw extraction executes on
    the empty list of sources, every later stage executes, and the run ends
    with a report. *)
Lemma run_without_sources_completes :
  let env := Canned.env [] (Some (Py.U "Art. 1º Fica instituído o regime."))
                        [] Canned.nothing_extracted [] None in
  let r := Workflow.run env (Py.U "lei 123") [] [] in
  Workflow.nodes_of (Canned.trace_of r)
  = [ Workflow.input; Workflow.search_node; Workflow.detect_type;
      Workflow.raw_extract; Workflow.extract_dates; Workflow.extract_numbers;
      Workflow.validate; Workflow.enhance; Workflow.analyze_impact;
      Workflow.system_changes_node; Workflow.validation_check;
      Workflow.dell_relevance; Workflow.review; Workflow.assemble ]
  /\ web_results <$> Workflow.state_at Workflow.raw_extract (Canned.trace_of r)
     = Some []
  /\ workflow_complete <$> Canned.final_of r = Some true
  /\ final_analysis <$> Canned.final_of r = Some (Py.U "RELATÓRIO").
Proof.
  intros env r.
  split; [vm_compute; reflexivity |].
  split; [vm_compute; reflexivity |].
  split; vm_compute; reflexivity.
Qed.

(** C6, amended. A search that produces no source document does not abort
    the run: the type detection falls back to the type [default] and the
    raw extraction executes on the empty list of sources.  Such a run ends
    before its report only at a stage that raises, which is one of the raw
    extraction, the date extraction, the impact analysis, the validation
    check, the relevance check, the review and the assembly, whether the
    exception comes from a collaborator or from the code of the stage; it
    never ends at the search or at the type detection, and otherwise it
    completes. *)
Theorem empty_search_is_not_fatal :
  forall (env : Env) (query url : list N) (urls : list (list N))
         (trace : list (Workflow.node * State)) (out : Workflow.outcome)
         (s : State),
    Workflow.run env query url urls = Some (trace, out) ->
    In (Workflow.detect_type, s) trace ->
    web_results s = [] ->
    (exists s',
        In (Workflow.raw_extract, s') trace
        /\ web_results s' = []
        /\ legislation_type s' = Py.U "default")
    /\ match out with
       | Workflow.Completed final => workflow_complete final = true
       | Workflow.Raised n before =>
           Workflow.exec env n before = None
           /\ In n [ Workflow.raw_extract; Workflow.extract_dates;
                     Workflow.analyze_impact; Workflow.validation_check;
                     Workflow.dell_relevance; Workflow.review;
                     Workflow.assemble ]
       | Workflow.Unfinished => False
       end.
Proof.
  intros env query url urls trace out s H Hin Hempty.
  unfold Workflow.run in H.
  match type of H with
  | (if ?b then None else _) = Some _ => destruct b; [discriminate H |]
  end.
  injection H as H.
  exact (empty_search_from_input _ _ _ _ _ H Hin Hempty).
Qed.

(** The theorem at the run whose search returns nothing. *)
Lemma empty_search_is_not_fatal_witness :
  let env := Canned.env [] (Some (Py.U "Art. 1º Fica instituído o regime."))
                        [] Canned.nothing_extracted [] None in
  let r := Workflow.run env (Py.U "lei 123") [] [] in
  exists s',
    In (Workflow.raw_extract, s') (Canned.trace_of r)
    /\ web_results s' = []
    /\ legislation_type s' = Py.U "default".
Proof.
  intros env r.
  destruct (is_some_of_bool r) as [[trace out] E]; [vm_compute; reflexivity |].
  destruct (is_some_of_bool (Workflow.state_at Workflow.detect_type
                                               (Canned.trace_of r)))
    as [s Es]; [vm_compute; reflexivity |].
  assert (Hempty : web_results <$> Workflow.state_at Workflow.detect_type
                                     (Canned.trace_of r) = Some [])
    by (vm_compute; reflexivity).
  rewrite Es in Hempty. injection Hempty as Hempty.
  rewrite E in Es |- *. cbn [Canned.trace_of] in *.
  apply state_at_in in Es.
  exact (proj1 (empty_search_is_not_fatal _ _ _ _ _ _ _ E Es Hempty)).
Defined.

(** ** The effective dates *)

(** C8, a date written with dots.  The date "31.12.26" is no period in
    years, occurs nowhere in the text and holds no four-digit year, yet it
    is kept: the engine searches the text for the date as a pattern, in
    which a dot stands for any character, so that it matches inside the
    number "31812926"; the escaped pattern tried next does not match, and
    neither does the date escaped as the sibling search escapes it. *)
Theorem dotted_date_survives_validation :
  let vig := Canned.date "31.12.26" "Prazo final" in
  let text := Py.U "protocolo nº 31812926, art. 3º" in
  Validation._validate_vigencias [vig] text = Some [vig]
  /\ get vig "data" = Py.U "31.12.26"
  /\ Py.lower text = text
  /\ Py.contains (Py.U "ano") (Py.lower (get vig "data")) = false
  /\ Py.contains (get vig "data") text = false
  /\ Re.search_group0 false (Py.U "20\d{2}") (get vig "data") = Some None
  /\ Re.search_group0 false (Py.U "\d{4}") (get vig "data") = Some None
  /\ Re.search false (Py.replace (Py.U "/") (Py.U "[-/]") (get vig "data")) text
     = Some true
  /\ Re.search false (Validation.word_pattern (get vig "data")) text
     = Some false
  /\ Re.search false (Re.escape (get vig "data")) text = Some false.
Proof.
  intros vig text.
  assert (Hkept : Validation.vigencia_kept vig text = Some true)
    by (vm_compute; reflexivity).
  split.
  - cbn [Validation._validate_vigencias]. rewrite Hkept. reflexivity.
  - repeat split; vm_compute; reflexivity.
Qed.

(** The loop over the dates keeps the records of its input, in their
    order and unchanged, and keeps every period in years. *)
Lemma validate_vigencias_filters (vigencias validated : list dict)
      (text : list N) :
  Validation._validate_vigencias vigencias text = Some validated ->
  sublist validated vigencias
  /\ (forall v, v ∈ validated <->
                v ∈ vigencias /\ Validation.vigencia_kept v text = Some true)
  /\ (forall v, v ∈ vigencias ->
                Py.contains (Py.U "ano") (Py.lower (get v "data")) = true ->
                v ∈ validated).
Proof.
  revert validated. induction vigencias as [| v tl IH]; intros validated H.
  - cbn in H. injection H as <-. split; [constructor |].
    split; [| intros v Hv; inversion Hv].
    intros v. split; [intros Hv; inversion Hv | intros [Hv _]; inversion Hv].
  - cbn [Validation._validate_vigencias] in H. bind_inv H. bind_inv H.
    destruct (IH _ eq_refl) as (Hsub & Hiff & Hano). injection H as <-.
    assert (Hb : Validation.vigencia_kept v text = Some b) by exact E.
    destruct b.
    + split; [constructor; exact Hsub |]. split.
      * intros x. rewrite !elem_of_cons, Hiff. split.
        -- intros [-> | [Hx Hk]]; [split; [now left | exact Hb] | split; [now right | exact Hk]].
        -- intros [[-> | Hx] Hk]; [now left | right; split; assumption].
      * intros x Hx Hc. apply elem_of_cons in Hx as [-> | Hx]; [now left |].
        right. apply Hano; assumption.
    + split; [apply sublist_cons; exact Hsub |]. split.
      * intros x. rewrite elem_of_cons, Hiff. split.
        -- intros [Hx Hk]. split; [now right | exact Hk].
        -- intros [[-> | Hx] Hk]; [congruence | split; assumption].
      * intros x Hx Hc. apply elem_of_cons in Hx as [-> | Hx].
        -- exfalso. unfold Validation.vigencia_kept in Hb. rewrite Hc in Hb.
           discriminate Hb.
        -- apply Hano; assumption.
Qed.

(** *** Dates without pattern characters *)

(** Case analysis on the low seven bits of a character. *)
Ltac by_bits c :=
  destruct c as [| c]; [try reflexivity; try discriminate |];
  do 7 (try (destruct c as [c | c |])); try reflexivity; try discriminate.

Module PlainDates.
Import Py Chain.

(** A plain character is parsed as itself. *)
Lemma parse_atom_plain (c : N) (f : nat) (rest : str) :
  plain c = true ->
  Re.parse_atom (S f) (c :: rest) = Some (Re.Lit c, rest).
Proof. intros H. by_bits c. Qed.

(** Each token is parsed as its atom. *)
Lemma parse_atom_tok (t : token) (f : nat) (rest : str) :
  tok_ok t = true ->
  Re.parse_atom (S f) (tok_src t ++ rest) = Some (tok_re t, rest).
Proof.
  destruct t as [c | | c |]; cbn [tok_ok tok_src tok_re]; intros H.
  - apply parse_atom_plain, H.
  - reflexivity.
  - apply andb_true_iff in H as [_ H]. by_bits c.
  - reflexivity.
Qed.

Lemma parse_quantifier_head (a : Re.regex) (s : str) :
  head_ok s = true -> Re.parse_quantifier a s = Some (a, s).
Proof.
  destruct s as [| c s]; [reflexivity |]. cbn [head_ok]. intros H. by_bits c.
Qed.

Lemma tok_src_head (t : token) (rest : str) :
  tok_ok t = true -> head_ok (tok_src t ++ rest) = true.
Proof.
  destruct t as [c | | c |]; cbn [tok_ok tok_src]; intros H;
    try reflexivity.
  cbn. rewrite H. reflexivity.
Qed.

Lemma source_head (ts : list token) :
  forallb tok_ok ts = true -> head_ok (source ts) = true.
Proof.
  destruct ts as [| t ts]; [reflexivity |]. cbn [forallb source List.flat_map].
  intros H. apply andb_true_iff in H as [H _]. apply tok_src_head, H.
Qed.

Lemma tok_src_nonempty (t : token) (rest : str) :
  exists c s, tok_src t ++ rest = c :: s
              /\ (N.eqb c 0x7C || N.eqb c 0x29 = true -> tok_ok t = false).
Proof.
  destruct t as [c | | c |]; cbn [tok_src tok_ok].
  - exists c, rest. split; [reflexivity |]. intros H. by_bits c.
  - eexists _, _. split; [reflexivity |]. discriminate.
  - eexists _, _. split; [reflexivity |]. discriminate.
  - eexists _, _. split; [reflexivity |]. discriminate.
Qed.

Lemma chain_cons (t : token) (ts : list token) :
  match chain (List.map tok_re ts) with
  | Re.Empty => tok_re t
  | r => Re.Cat (tok_re t) r
  end = chain (List.map tok_re (t :: ts)).
Proof.
  destruct ts as [| t' ts]; [reflexivity |].
  cbn [List.map chain].
  destruct ts as [| t'' ts]; [destruct t'; reflexivity | reflexivity].
Qed.

(** A sequence of tokens is parsed as the chain of their atoms. *)
Lemma parse_seq_tokens (ts : list token) :
  forallb tok_ok ts = true ->
  forall f, (length ts < f)%nat ->
    Re.parse_seq f (source ts) = Some (chain (List.map tok_re ts), []).
Proof.
  induction ts as [| t ts IH]; intros Hok f Hf.
  - destruct f as [| f]; [lia |]. reflexivity.
  - cbn [forallb] in Hok. apply andb_true_iff in Hok as [Ht Hts].
    destruct f as [| [| f]]; [cbn in Hf; lia | cbn in Hf; lia |].
    cbn [source List.flat_map].
    destruct (tok_src_nonempty t (List.flat_map tok_src ts)) as (c & s & E & Hc).
    assert (Hc' : N.eqb c 0x7C || N.eqb c 0x29 = false).
    { destruct (N.eqb c 0x7C || N.eqb c 0x29); [| reflexivity].
      rewrite Hc in Ht by reflexivity. discriminate Ht. }
    change (Re.parse_seq (S (S f)) (tok_src t ++ List.flat_map tok_src ts))
      with (match tok_src t ++ List.flat_map tok_src ts with
            | [] => Some (Re.Empty, [])
            | c :: _ =>
                if N.eqb c 0x7C || N.eqb c 0x29
                then Some (Re.Empty, tok_src t ++ List.flat_map tok_src ts)
                else
                  match Re.parse_atom (S f) (tok_src t ++ List.flat_map tok_src ts) with
                  | None => None
                  | Some (a, s1) =>
                      match Re.parse_quantifier a s1 with
                      | None => None
                      | Some (q, s2) =>
                          match Re.parse_seq (S f) s2 with
                          | Some (Re.Empty, s3) => Some (q, s3)
                          | Some (r, s3) => Some (Re.Cat q r, s3)
                          | None => None
                          end
                      end
                  end
            end).
    rewrite (parse_atom_tok t f _ Ht).
    rewrite E, Hc'. 
    rewrite (parse_quantifier_head _ _ (source_head ts Hts)).
    fold (source ts). rewrite (IH Hts (S f)) by (cbn in Hf; lia).
    rewrite <- (chain_cons t ts).
    destruct (chain (List.map tok_re ts)); reflexivity.
Qed.

Lemma source_length (ts : list token) : (length ts <= length (source ts))%nat.
Proof.
  induction ts as [| t ts IH]; [reflexivity |].
  cbn [source List.flat_map]. rewrite length_app. fold (source ts).
  assert (1 <= length (tok_src t))%nat by (destruct t; vm_compute; lia).
  cbn [length]. lia.
Qed.

(** [re.compile] accepts a pattern of tokens and returns their chain. *)
Lemma compile_tokens (ts : list token) :
  forallb tok_ok ts = true ->
  Re.compile (source ts) = Some (chain (List.map tok_re ts)).
Proof.
  intros Hok. unfold Re.compile.
  pose proof (source_length ts) as Hlen.
  remember (4 * length (source ts) + 8)%nat as fuel eqn:Hfuel.
  destruct fuel as [| f]; [lia |].
  change (Re.parse_alt (S f) (source ts))
    with (match Re.parse_seq f (source ts) with
          | Some (r, 0x7C :: s1) =>
              match Re.parse_alt f s1 with
              | Some (r2, s2) => Some (Re.Or r r2, s2)
              | None => None
              end
          | other => other
          end).
  rewrite (parse_seq_tokens ts Hok) by lia. reflexivity.
Qed.

(** Matching an atom is taking its step. *)
Lemma m_simple (r : Re.regex) (p : Re.pos) (k : Re.pos -> option Re.pos) :
  simple r = true -> Re.m false r p k = step r p ≫= k.
Proof.
  destruct r as [| x | | n items | | | | | a]; try discriminate; intros _;
    cbn [Re.m step Re.lit_matches].
  - destruct (Re.advance p) as [[c p'] |]; [| reflexivity].
    destruct (N.eqb c x); reflexivity.
  - destruct (Re.advance p) as [[c p'] |]; [| reflexivity].
    destruct (Re.set_matches false n items c); reflexivity.
  - destruct (Re.at_holds a p); reflexivity.
Qed.

(** Matching a chain is taking the steps of its atoms in order. *)
Lemma m_chain (rs : list Re.regex) :
  forallb simple rs = true ->
  forall p k, Re.m false (chain rs) p k = steps rs p ≫= k.
Proof.
  induction rs as [| r rs IH]; intros H p k; [reflexivity |].
  cbn [forallb] in H. apply andb_true_iff in H as [Hr Hrs].
  destruct rs as [| r' rs'].
  - cbn [chain steps]. rewrite (m_simple r p k Hr).
    destruct (step r p); reflexivity.
  - change (chain (r :: r' :: rs')) with (Re.Cat r (chain (r' :: rs'))).
    cbn [Re.m]. rewrite (m_simple r p _ Hr).
    change (steps (r :: r' :: rs') p) with (p' ← step r p; steps (r' :: rs') p').
    destruct (step r p) as [p' |]; [| reflexivity].
    cbn [mbind option_bind]. apply (IH Hrs).
Qed.

Lemma tok_re_simple (ts : list token) :
  forallb simple (List.map tok_re ts) = true.
Proof. induction ts as [| [] ts IH]; [reflexivity | exact IH ..]. Qed.

(** A search succeeds exactly when the pattern matches at a suffix of the
    subject. *)
Lemma scan_occ (r : Re.regex) (g : str -> bool) :
  (forall p, match Re.m false r p (fun q => Some q) with
             | Some _ => true | None => false end = g (Re.rest p)) ->
  forall fuel p, (length (Re.rest p) < fuel)%nat ->
    match Re.scan false r fuel false p with
    | Some _ => true | None => false end = occ g (Re.rest p).
Proof.
  intros Hg fuel. induction fuel as [| fuel IH]; intros p Hlen; [lia |].
  cbn [Re.scan andb]. specialize (Hg p).
  destruct (Re.m false r p (fun q => Some q)) as [q |].
  - destruct (Re.rest p); cbn [occ]; rewrite <- Hg; reflexivity.
  - destruct p as [pv rs i]. cbn [Re.rest] in *. unfold Re.advance. cbn [Re.rest].
    destruct rs as [| c rs]; cbn [occ]; rewrite <- Hg; [reflexivity |].
    cbn [orb]. rewrite IH by (cbn [Re.rest length] in *; lia). reflexivity.
Qed.

(** What a match shows of the subject, the search found in a suffix. *)
Lemma scan_found (r : Re.regex) (g : str -> bool) :
  (forall p q, Re.m false r p (fun q => Some q) = Some q -> g (Re.rest p) = true) ->
  forall fuel p a q,
    Re.scan false r fuel false p = Some (a, q) -> occ g (Re.rest p) = true.
Proof.
  intros Hg fuel. induction fuel as [| fuel IH]; intros p a q H; [discriminate H |].
  cbn [Re.scan andb] in H.
  destruct (Re.m false r p (fun q => Some q)) as [q' |] eqn:E.
  - apply Hg in E. destruct (Re.rest p); cbn [occ]; rewrite E; reflexivity.
  - destruct p as [pv rs i]. unfold Re.advance in H. cbn [Re.rest] in *.
    destruct rs as [| c rs]; [discriminate H |].
    apply IH in H. cbn [Re.rest] in H. cbn [occ]. rewrite H.
    apply orb_true_r.
Qed.

Lemma replace_go_single (x : N) (new s : str) :
  forall fuel, (length s <= fuel)%nat ->
    replace_go fuel [x] new s
    = List.flat_map (fun c => if N.eqb x c then new else [c]) s.
Proof.
  induction s as [| c s IH]; intros fuel H.
  - destruct fuel; reflexivity.
  - destruct fuel as [| fuel]; [cbn in H; lia |].
    cbn [replace_go strip_prefix List.flat_map].
    destruct (N.eqb x c).
    + rewrite IH by (cbn in H; lia). reflexivity.
    + rewrite IH by (cbn in H; lia). reflexivity.
Qed.

(** [data.replace('/', '[-/]')], token by token. *)
Lemma replace_slash (data : str) :
  replace (U "/") (U "[-/]") data = source (List.map sep_or_lit data).
Proof.
  change (U "/") with [0x2F]. unfold replace.
  rewrite replace_go_single by reflexivity.
  unfold source. induction data as [| c data IH]; [reflexivity |].
  cbn [List.map List.flat_map]. rewrite IH. f_equal.
  unfold sep_or_lit. rewrite (N.eqb_sym 0x2F c).
  destruct (N.eqb c 0x2F); reflexivity.
Qed.

(** [re.escape(data)], token by token. *)
Lemma escape_tokens (data : str) :
  Re.escape data = source (List.map esc_or_lit data).
Proof.
  unfold Re.escape, source. induction data as [| c data IH]; [reflexivity |].
  cbn [List.map List.flat_map]. rewrite IH. f_equal.
  unfold esc_or_lit, escaped. destruct (existsb (N.eqb c) Re.special_chars); reflexivity.
Qed.

Lemma sep_or_lit_ok (data : str) :
  forallb plain data = true -> forallb tok_ok (List.map sep_or_lit data) = true.
Proof.
  induction data as [| c data IH]; [reflexivity |]. cbn [forallb List.map].
  intros H. apply andb_true_iff in H as [Hc H]. rewrite (IH H), andb_true_r.
  unfold sep_or_lit. destruct (N.eqb c 0x2F); [reflexivity | exact Hc].
Qed.

Lemma esc_or_lit_ok (data : str) :
  forallb plain data = true -> forallb tok_ok (List.map esc_or_lit data) = true.
Proof.
  induction data as [| c data IH]; [reflexivity |]. cbn [forallb List.map].
  intros H. apply andb_true_iff in H as [Hc H]. rewrite (IH H), andb_true_r.
  unfold esc_or_lit. destruct (escaped c) eqn:E; cbn [tok_ok]; [| exact Hc].
  rewrite Hc, E. reflexivity.
Qed.

Lemma step_sep_or_lit (d : N) (p : Re.pos) :
  step (tok_re (sep_or_lit d)) p
  = match Re.advance p with
    | Some (c, p') => if char_matches d c then Some p' else None
    | None => None
    end.
Proof.
  unfold sep_or_lit, char_matches.
  destruct (N.eqb d 0x2F); cbn [tok_re step]; [| reflexivity].
  destruct (Re.advance p) as [[c p'] |]; [| reflexivity].
  unfold Re.set_matches, Re.case_variants.
  cbn [existsb Re.item_matches xorb]. rewrite !orb_false_r. reflexivity.
Qed.

Lemma steps_date (data : str) :
  forall p,
    match steps (List.map tok_re (List.map sep_or_lit data)) p with
    | Some _ => true | None => false end = date_at data (Re.rest p).
Proof.
  induction data as [| d data IH]; intros p; [reflexivity |].
  cbn [List.map steps date_at]. rewrite step_sep_or_lit.
  destruct p as [pv rs i]. unfold Re.advance. cbn [Re.rest].
  destruct rs as [| c rs]; [reflexivity |].
  destruct (char_matches d c); [| reflexivity].
  cbn [mbind option_bind andb]. apply IH.
Qed.

Lemma occ_date (data text : str) : occ (date_at data) text = date_occurs data text.
Proof. induction text as [| c text IH]; cbn; [| rewrite IH]; reflexivity. Qed.

Lemma m_chain_some (rs : list Re.regex) (p : Re.pos) :
  forallb simple rs = true ->
  Re.m false (chain rs) p (fun q => Some q) = steps rs p.
Proof.
  intros H. rewrite (m_chain rs H). destruct (steps rs p); reflexivity.
Qed.

(** The date as the engine searches it first: the characters of the date in
    the text, a slash standing for a slash or a hyphen. *)
Lemma search_plain_date (data text : str) :
  forallb plain data = true ->
  Re.search false (replace (U "/") (U "[-/]") data) text
  = Some (date_occurs data text).
Proof.
  intros H. unfold Re.search. rewrite replace_slash.
  rewrite (compile_tokens _ (sep_or_lit_ok data H)).
  f_equal. unfold Re.search_span.
  assert (Hm : forall p,
             match Re.m false (chain (List.map tok_re (List.map sep_or_lit data)))
                        p (fun q => Some q) with
             | Some _ => true | None => false end = date_at data (Re.rest p)).
  { intros p. rewrite (m_chain_some _ p (tok_re_simple _)). apply steps_date. }
  pose proof (scan_occ _ _ Hm (S (length text)) (Re.start_of text)) as Hscan.
  cbn [Re.start_of Re.rest] in Hscan. rewrite occ_date in Hscan.
  rewrite <- Hscan by lia.
  destruct (Re.scan _ _ _ _ _) as [[a q] |].
  - apply bool_decide_eq_true_2. eauto.
  - apply bool_decide_eq_false_2. intros [x Hx]. discriminate Hx.
Qed.

Lemma tok_re_esc_or_lit (c : N) : tok_re (esc_or_lit c) = Re.Lit c.
Proof. unfold esc_or_lit. destruct (escaped c); reflexivity. Qed.

Lemma char_matches_same (d : N) : char_matches d d = true.
Proof.
  unfold char_matches. destruct (N.eqb d 0x2F) eqn:E.
  - apply N.eqb_eq in E as ->. reflexivity.
  - apply N.eqb_refl.
Qed.

Lemma steps_verbatim (data : str) (tail : list Re.regex) :
  forall p q,
    steps (List.map tok_re (List.map esc_or_lit data) ++ tail) p = Some q ->
    date_at data (Re.rest p) = true.
Proof.
  induction data as [| d data IH]; intros p q H; [reflexivity |].
  cbn [List.map app steps] in H. rewrite tok_re_esc_or_lit in H.
  cbn [step] in H. destruct p as [pv rs i]. unfold Re.advance in H.
  cbn [Re.rest] in *. destruct rs as [| c rs]; [discriminate H |].
  destruct (N.eqb c d) eqn:E; [| discriminate H].
  apply N.eqb_eq in E as ->. cbn [mbind option_bind] in H.
  apply IH in H. cbn [Re.rest] in H. cbn [date_at].
  rewrite char_matches_same, H. reflexivity.
Qed.

Lemma word_pattern_tokens (data : str) :
  Validation.word_pattern data
  = source (TWordB :: List.map esc_or_lit data ++ [TWordB]).
Proof.
  unfold Validation.word_pattern, source. cbn [List.flat_map].
  rewrite flat_map_app, escape_tokens. cbn [List.flat_map tok_src].
  rewrite app_nil_r. reflexivity.
Qed.

(** The date as the engine searches it next, escaped and as a whole word:
    where that is found, the date is in the text. *)
Lemma search_word_date (data text : str) :
  forallb plain data = true ->
  exists b, Re.search false (Validation.word_pattern data) text = Some b
            /\ (b = true -> date_occurs data text = true).
Proof.
  intros H. unfold Re.search. rewrite word_pattern_tokens.
  rewrite compile_tokens.
  2:{ cbn [forallb tok_ok andb]. rewrite forallb_app, (esc_or_lit_ok data H).
      reflexivity. }
  eexists. split; [reflexivity |]. intros Hb.
  apply bool_decide_eq_true_1 in Hb as [[a b] Hspan].
  unfold Re.search_span in Hspan.
  destruct (Re.scan _ _ _ _ _) as [[a' q] |] eqn:Hscan; [| discriminate Hspan].
  rewrite <- occ_date.
  refine (scan_found _ (date_at data) _ _ _ _ _ Hscan).
  intros p q' Hm. rewrite m_chain_some in Hm by apply tok_re_simple.
  cbn [List.map steps tok_re step] in Hm.
  destruct (Re.at_holds Re.AtBoundary p); [| discriminate Hm].
  cbn [mbind option_bind] in Hm. rewrite List.map_app in Hm.
  eapply steps_verbatim, Hm.
Qed.

(** An effective date without pattern characters is kept exactly when it
    is a period in years, when it occurs in the text (a slash standing for
    a slash or a hyphen), or when its first year of this century does. *)
Lemma plain_date_kept (vig : dict) (text : str) :
  forallb plain (get vig "data") = true ->
  Validation.vigencia_kept vig text
  = Some (contains (U "ano") (lower (get vig "data"))
          || date_occurs (get vig "data") text
          || year_occurs (get vig "data") text).
Proof.
  intros H. unfold Validation.vigencia_kept. cbv zeta.
  destruct (contains (U "ano") (lower (get vig "data"))); [reflexivity |].
  rewrite (search_plain_date _ text H). cbn [mbind option_bind orb].
  destruct (date_occurs (get vig "data") text) eqn:Hocc; [reflexivity |].
  destruct (search_word_date _ text H) as (b & -> & Hb).
  cbn [mbind option_bind orb].
  destruct b; [rewrite Hb in Hocc by reflexivity; discriminate Hocc |].
  unfold year_occurs, Re.search_group0.
  destruct (Re.compile (U "20\d{2}")) as [r |] eqn:Hc;
    [| vm_compute in Hc; discriminate Hc].
  cbn [mbind option_bind].
  destruct (Re.search_span false r (get vig "data")) as [[a b] |]; reflexivity.
Qed.

(** X24. On dates without pattern characters the filter of the effective
    dates returns a result: it keeps the periods in years, the dates that
    the text shows (with a slash of the date standing for a slash or a
    hyphen) and the dates whose year the text shows, and removes the
    others. *)
Lemma plain_dates_validated (vigencias : list dict) (text : str) :
  Forall (fun vig => forallb plain (get vig "data") = true) vigencias ->
  Validation._validate_vigencias vigencias text
  = Some (List.filter
            (fun vig => contains (U "ano") (lower (get vig "data"))
                        || date_occurs (get vig "data") text
                        || year_occurs (get vig "data") text)
            vigencias).
Proof.
  induction 1 as [| vig tl Hv _ IH]; [reflexivity |].
  cbn [Validation._validate_vigencias List.filter].
  rewrite (plain_date_kept vig text Hv), IH. cbn [mbind option_bind].
  reflexivity.
Qed.

End PlainDates.

(* ================================================================== *)
(** * Further properties *)
(* ================================================================== *)

(** ** The knowledge base *)

Lemma lower_upto (n : nat) (s : list N) :
  Py.upto n (Py.lower (Py.upto n s)) = Py.upto n (Py.lower s).
Proof.
  unfold Py.upto, Py.lower. rewrite <- !firstn_map.
  rewrite firstn_firstn, Nat.min_id. reflexivity.
Qed.

(** X1. The detector reads the first 5000 characters of the content and
    nothing else of it, and does not read the title. *)
Theorem detect_reads_first_5000 (url content title title' : list N) :
  KB.detect_known_legislation url content title
  = KB.detect_known_legislation url (Py.upto 5000 content) title'.
Proof.
  unfold KB.detect_known_legislation. generalize 5000%nat. intros n.
  cbv zeta. rewrite (lower_upto n content). reflexivity.
Qed.

Lemma knowledge_base_keys :
  is_Some (KB.KNOWLEDGE_BASE !! Py.U "LC_214")
  /\ is_Some (KB.KNOWLEDGE_BASE !! Py.U "MPV_1318").
Proof.
  unfold KB.KNOWLEDGE_BASE. split.
  - rewrite lookup_insert_eq. eauto.
  - rewrite lookup_insert_ne by (vm_compute; discriminate).
    rewrite lookup_insert_eq. eauto.
Qed.

(** X2. Every key the detector returns has its entry in the knowledge
    base, and the markers of Lei Complementar 214 win over those of MPV
    1318. *)
Theorem detected_key_is_known (url content title key : list N) :
  KB.detect_known_legislation url content title = Some key ->
  is_Some (KB.KNOWLEDGE_BASE !! key)
  /\ (key = Py.U "LC_214" \/ key = Py.U "MPV_1318")
  /\ (Py.contains (Py.U "lcp214") (Py.lower url) = true -> key = Py.U "LC_214").
Proof.
  unfold KB.detect_known_legislation. generalize 5000%nat. intros n. cbv zeta.
  destruct (Py.contains (Py.U "lcp214") (Py.lower url)) eqn:Hu.
  - cbn [orb]. intros H. injection H as <-.
    split; [apply knowledge_base_keys |]. split; [now left | reflexivity].
  - cbn [orb].
    match goal with
    | |- (if ?b then _ else _) = _ -> _ => destruct b
    end.
    + intros H. injection H as <-.
      split; [apply knowledge_base_keys |]. split; [now left | discriminate].
    + match goal with
      | |- (if ?b then _ else _) = _ -> _ => destruct b
      end; [| discriminate].
      intros H. injection H as <-.
      split; [apply knowledge_base_keys |]. split; [now right | discriminate].
Qed.

Lemma detected_key_is_known_witness :
  is_Some (KB.KNOWLEDGE_BASE
             !! Py.U "LC_214").
Proof.
  exact (proj1 (detected_key_is_known
                  (wr_url Canned.lc214_page) (wr_content Canned.lc214_page)
                  (wr_title Canned.lc214_page) (Py.U "LC_214")
                  ltac:(vm_compute; reflexivity))).
Defined.

(** ** The validation engine: the text it validates against *)

Lemma longest_spec (others : list (list N)) :
  forall best,
    (length best <= length (Validation.longest best others))%nat
    /\ Forall (fun x => (length x <= length (Validation.longest best others))%nat)
              others
    /\ (Validation.longest best others = best
        \/ Validation.longest best others ∈ others).
Proof.
  induction others as [| x tl IH]; intros best; cbn [Validation.longest].
  - split; [lia |]. split; [constructor | now left].
  - destruct (length best <? length x)%nat eqn:E.
    + apply Nat.ltb_lt in E. destruct (IH x) as (H1 & H2 & H3).
      split; [lia |]. split; [constructor; assumption |].
      right. destruct H3 as [-> | H3]; [now left | now right].
    + apply Nat.ltb_ge in E. destruct (IH best) as (H1 & H2 & H3).
      split; [exact H1 |]. split; [constructor; [lia | exact H2] |].
      destruct H3 as [H3 | H3]; [now left | right; now right].
Qed.

(** X3. The text that the validation engine validates against is the
    longest of the raw extraction, the raw extraction of the structured
    data and the contents of the fetched sources: it is at least as long as
    each of them, and it is empty only when all of them are. *)
Theorem original_text_is_longest (state : State) :
  let text := Validation._get_original_text state in
  (forall r, raw_extraction state = Some r ->
             (length (raw_text r) <= length text)%nat)
  /\ (forall sd r, structured_data state = Some sd ->
                   sd_raw_extraction sd = Some r ->
                   (length (raw_text r) <= length text)%nat)
  /\ (forall wr, wr ∈ web_results state ->
                 (length (wr_content wr) <= length text)%nat)
  /\ (text = [] ->
      (forall r, raw_extraction state = Some r -> raw_text r = [])
      /\ forall wr, wr ∈ web_results state -> wr_content wr = []).
Proof.
  intros text. unfold Validation._get_original_text in text.
  match eval unfold text in text with
  | Validation.longest ?b ?o => destruct (longest_spec o b) as (H1 & H2 & _)
  end.
  fold text in H1, H2.
  assert (Hraw : forall r, raw_extraction state = Some r ->
                           (length (raw_text r) <= length text)%nat).
  { intros r Hr. rewrite Hr in H1. exact H1. }
  assert (Hweb : forall wr, wr ∈ web_results state ->
                            (length (wr_content wr) <= length text)%nat).
  { intros wr Hwr. apply Forall_cons in H2 as [_ H2].
    destruct (wr_content wr) as [| c s] eqn:Ec; [cbn; lia |].
    rewrite Forall_forall in H2. rewrite <- Ec. apply H2.
    apply list_elem_of_In, filter_In. split; [| rewrite Ec; reflexivity].
    apply in_map, list_elem_of_In, Hwr. }
  split; [exact Hraw |]. split.
  - intros sd r Hsd Hr. apply Forall_cons in H2 as [H2 _].
    rewrite Hsd, Hr in H2. exact H2.
  - split; [exact Hweb |]. intros Ht. split.
    + intros r Hr. specialize (Hraw r Hr). rewrite Ht in Hraw.
      destruct (raw_text r); [reflexivity | cbn in Hraw; lia].
    + intros wr Hwr. specialize (Hweb wr Hwr). rewrite Ht in Hweb.
      destruct (wr_content wr); [reflexivity | cbn in Hweb; lia].
Qed.

(** ** The validation engine: what it changes and what it leaves *)

Lemma validate_vigencias_sublist (vigencias validated : list dict) (text : list N) :
  Validation._validate_vigencias vigencias text = Some validated ->
  sublist validated vigencias.
Proof.
  revert validated. induction vigencias as [| v tl IH]; intros validated H.
  - cbn in H. injection H as <-. constructor.
  - cbn [Validation._validate_vigencias] in H. bind_inv H. bind_inv H.
    injection H as <-. destruct b.
    + constructor. apply IH. reflexivity.
    + apply sublist_cons. apply IH. reflexivity.
Qed.

(** What the escalation step leaves of the tax-change dictionary. *)
Lemma escalate_frame (generate : Validation.Generate) (text : list N)
      (e : list (list N)) (state : State) (c : nat) :
  let state' := fst (Validation.escalate generate text e state c) in
  set_system_changes (system_changes state) state' = state
  /\ match system_changes state, system_changes state' with
     | Some sc, Some sc' =>
         compliance_risks sc' = compliance_risks sc
         /\ sc_known_law_key sc' = sc_known_law_key sc
     | None, None => True
     | _, _ => False
     end.
Proof.
  unfold Validation.escalate.
  destruct (negb (Py.is_empty e) && (length e <=? 3)%nat).
  - destruct (system_changes state) as [sc |] eqn:E.
    + destruct (Validation.apply_llm_corrections _ (aliquotas sc) c) as [l1 n1].
      cbn [fst]. split; [| cbn; auto].
      destruct state; cbn in *. rewrite E. reflexivity.
    + cbn [fst]. rewrite E. split; [| exact I].
      destruct state; cbn in *. rewrite E. reflexivity.
  - cbn [fst]. destruct (system_changes state) as [sc |] eqn:E.
    + split; [| auto]. destruct state; cbn in *. rewrite E. reflexivity.
    + split; [| exact I]. destruct state; cbn in *. rewrite E. reflexivity.
Qed.

(** X4. Validation writes three places of the state and nothing else: the
    tax-change list, the list of effective dates and the validation status.
    The keys below, the other keys of the tax-change dictionary, and the
    [count] and [dates_text] of the date dictionary stay as they were; the
    dates kept are a subsequence of the dates given, so [count] is not
    recomputed when dates are removed.  (The structured and the enhanced
    data are not listed: in a run they hold the date dictionary itself.) *)
Theorem validation_leaves_the_rest :
  forall (generate : Validation.Generate) (state state' : State),
    Validation.validate generate state = Some state' ->
    (query state' = query state
     /\ urls state' = urls state
     /\ web_results state' = web_results state
     /\ legislation_type state' = legislation_type state
     /\ raw_extraction state' = raw_extraction state
     /\ quantification state' = quantification state
     /\ validation_results state' = validation_results state
     /\ impact_analysis state' = impact_analysis state
     /\ dell_analysis state' = dell_analysis state
     /\ known_law_key state' = known_law_key state
     /\ final_analysis state' = final_analysis state
     /\ workflow_complete state' = workflow_complete state)
    /\ match system_changes state, system_changes state' with
       | Some sc, Some sc' =>
           compliance_risks sc' = compliance_risks sc
           /\ sc_known_law_key sc' = sc_known_law_key sc
           /\ length (aliquotas sc') = length (aliquotas sc)
       | None, None => True
       | _, _ => False
       end
    /\ match date_extraction state, date_extraction state' with
       | Some dx, Some dx' =>
           dates_text dx' = dates_text dx
           /\ count dx' = count dx
           /\ dx_known_law_key dx' = dx_known_law_key dx
           /\ sublist (vigencias dx') (vigencias dx)
       | None, None => True
       | _, _ => False
       end.
Proof.
  intros generate state state' H.
  destruct (validate_inv _ _ _ H)
    as [[_ ->] | (_ & st1 & c1 & e & st3 & H1 & H3 & ->)].
  - split; [repeat split |]. split.
    + destruct (system_changes state); auto.
    + destruct (date_extraction state); auto.
  - set (text := Validation._get_original_text state) in *.
    pose proof (escalate_frame generate text e st1 c1) as [F1 F2].
    cbv zeta in F1, F2.
    set (st2 := fst (Validation.escalate generate text e st1 c1)) in *.
    assert (K : match system_changes state, system_changes st2 with
                | Some sc, Some sc' =>
                    compliance_risks sc' = compliance_risks sc
                    /\ sc_known_law_key sc' = sc_known_law_key sc
                    /\ length (aliquotas sc') = length (aliquotas sc)
                | None, None => True
                | _, _ => False
                end).
    { destruct (system_changes state) as [sc |] eqn:Esc.
      - destruct (validate_keeps _ _ _ _ H Esc) as (sc' & Hsc' & F).
        unfold Validation.validate_dates in H3.
        assert (Hs3 : system_changes st3 = system_changes st2).
        { destruct (date_extraction st2); [bind_inv H3 |];
            injection H3 as <-; reflexivity. }
        fields. rewrite Hs3 in Hsc'. rewrite Hsc'.
        unfold Validation.validate_changes in H1. rewrite Esc in H1.
        bind_inv H1. destruct p as [[l1 c] e1]. injection H1 as <- <- <-.
        fields. rewrite Hsc' in F2. destruct F2 as [G1 G2].
        split; [exact G1 |]. split; [exact G2 |].
        symmetry. eapply Forall2_length, F.
      - unfold Validation.validate_changes in H1. rewrite Esc in H1.
        injection H1 as <- <- <-. rewrite Esc in F2.
        destruct (system_changes st2); [contradiction | exact I]. }
    assert (R : set_system_changes (system_changes state) st1 = state).
    { unfold Validation.validate_changes in H1.
      destruct (system_changes state) as [sc |] eqn:Esc.
      - bind_inv H1. destruct p as [[l1 c] e1]. injection H1 as <- <- <-.
        destruct state; cbn in *. rewrite Esc. reflexivity.
      - injection H1 as <- <- <-. destruct state; cbn in *. rewrite Esc.
        reflexivity. }
    assert (R2 : set_system_changes (system_changes state) st2 = state).
    { rewrite <- R at 2. rewrite <- F1. destruct st2; reflexivity. }
    unfold Validation.validate_dates in H3.
    destruct (date_extraction st2) as [dx |] eqn:Edx.
    + bind_inv H3. injection H3 as <-. fields.
      apply validate_vigencias_sublist in E.
      rewrite <- R2. fields. rewrite Edx.
      split; [repeat split |]. split.
      * rewrite <- R2 in K. fields. exact K.
      * cbn. auto.
    + injection H3 as <-. fields. rewrite <- R2. fields. rewrite Edx.
      split; [repeat split |]. split; [| exact I].
      rewrite <- R2 in K. fields. exact K.
Qed.

(** The theorem at a state whose only date is not in the text: the date is
    removed and [count] still says one. *)
Lemma validation_leaves_the_rest_witness :
  let state := Canned.state_with (Py.U "Fica reduzida a zero a alíquota do PIS.")
                                 [] [Canned.date "01/01/2030" "Prazo"] in
  exists state' dx',
    Validation.validate (fun _ _ => None) state = Some state'
    /\ date_extraction state' = Some dx'
    /\ vigencias dx' = []
    /\ count dx' = 1%nat.
Proof.
  intros state.
  destruct (Validation.validate (fun _ _ => None) state) as [state' |] eqn:E;
    [| vm_compute in E; discriminate E].
  pose proof (validation_leaves_the_rest _ state state' E) as (_ & _ & H).
  assert (Hv : Canned.datas <$> Validation.validate (fun _ _ => None) state
               = Some []) by (vm_compute; reflexivity).
  rewrite E in Hv. cbn [fmap option_fmap option_map] in Hv. injection Hv as Hv.
  unfold Canned.datas in Hv.
  change (date_extraction state) with
    (Some {| dates_text := []; vigencias := [Canned.date "01/01/2030" "Prazo"];
             count := 1; dx_known_law_key := None |}) in H.
  destruct (date_extraction state') as [dx' |] eqn:Edx; [| contradiction].
  destruct H as (_ & Hc & _ & _). exists state', dx'.
  split; [reflexivity |]. split; [exact Edx |].
  split; [| exact Hc]. destruct (vigencias dx'); [reflexivity | discriminate Hv].
Defined.

(** X5. The text-generation service is consulted only when the rules found
    one to three errors: with no error, or with more than three, the result
    of the validation does not depend on the service, and the corrections
    counted are those of the rules. *)
Theorem service_consulted_only_on_few_errors :
  forall (generate generate' : Validation.Generate) (state state1 : State)
         (corrections : nat) (errors_found : list (list N)),
    Validation.validate_changes
      (Py.lower (Validation._get_original_text state)) state
    = Some (state1, corrections, errors_found) ->
    errors_found = [] \/ (3 < length errors_found)%nat ->
    Validation.validate generate state = Validation.validate generate' state
    /\ forall state' vs,
        Validation.validate generate state = Some state' ->
        validation_status state' = Some vs ->
        Validation._get_original_text state <> [] ->
        corrections_made vs = corrections.
Proof.
  intros g g' state st1 c e H1 He.
  assert (Hesc : forall g0, Validation.escalate
                              g0 (Validation._get_original_text state) e st1 c
                            = (st1, c)).
  { intros g0. unfold Validation.escalate.
    destruct He as [-> | He]; [reflexivity |].
    apply Nat.leb_gt in He. rewrite He, andb_false_r. reflexivity. }
  split.
  - unfold Validation.validate. cbv zeta.
    destruct (Py.eqb (Validation._get_original_text state) []); [reflexivity |].
    rewrite H1. cbn [mbind option_bind]. rewrite !Hesc. reflexivity.
  - intros state' vs Hv Hvs Hne.
    destruct (validate_inv _ _ _ Hv)
      as [[Ht _] | (_ & st1' & c1 & e' & st3 & H1' & H3 & ->)]; [contradiction |].
    rewrite H1 in H1'. injection H1' as <- <- <-.
    rewrite Hesc in Hvs. fields. injection Hvs as <-. reflexivity.
Qed.

(** The theorem at a state whose single record is confirmed by the text. *)
Lemma service_consulted_only_on_few_errors_witness :
  let state := Canned.state_with (Py.U "Fica reduzida a zero a alíquota do PIS.")
                                 [Canned.change "PIS" "ALÍQUOTA 0%"] [] in
  Validation.validate (fun _ _ => None) state
  = Validation.validate
      (fun _ _ => Some [ {| Validation.v_tributo := Some (Py.U "PIS");
                            Validation.v_tipo_correto := Py.U "ISENÇÃO";
                            Validation.v_correcao_necessaria := true |} ])
      state.
Proof.
  intros state.
  destruct (Validation.validate_changes
              (Py.lower (Validation._get_original_text state)) state)
    as [[[st1 c] e] |] eqn:E; [| vm_compute in E; discriminate E].
  assert (He : snd <$> Validation.validate_changes
                         (Py.lower (Validation._get_original_text state)) state
               = Some []) by (vm_compute; reflexivity).
  rewrite E in He. cbn in He. injection He as ->.
  exact (proj1 (service_consulted_only_on_few_errors _ _ _ _ _ _ E
                  (or_introl eq_refl))).
Defined.

(** X6. Each record of the tax-change list gives at most one correction or
    one error: the loop keeps the length of the list, and the corrections
    and the errors it adds are together no more than the records. *)
Theorem one_verdict_per_record :
  forall (text : list N) (l l' : list dict) (c c' : nat)
         (e e' : list (list N)),
    Validation.validate_aliquotas text l c e = Some (l', c', e') ->
    length l' = length l
    /\ exists corrected logged,
        c' = (c + corrected)%nat
        /\ e' = e ++ logged
        /\ (corrected + length logged <= length l)%nat.
Proof.
  intros text l. induction l as [| a tl IH]; intros l' c c' e e' H.
  - cbn in H. injection H as <- <- <-. split; [reflexivity |].
    exists 0%nat, []. rewrite app_nil_r. split; [lia | split; [reflexivity | cbn; lia]].
  - rewrite validate_aliquotas_cons in H. cbv zeta in H.
    bind_inv H. destruct b; cbn [negb] in H.
    + bind_inv H. destruct p as [ok correto]. destruct ok; cbn [negb] in H.
      * bind_inv H. destruct p as [[tl' c1] e1]. injection H as <- <- <-.
        destruct (IH _ _ _ _ _ E1) as (Hl & k & lg & -> & -> & Hk).
        split; [cbn; lia |]. exists k, lg. repeat split; cbn; lia.
      * destruct correto as [correto |].
        -- bind_inv H. destruct p as [[tl' c1] e1]. injection H as <- <- <-.
           destruct (IH _ _ _ _ _ E1) as (Hl & k & lg & -> & -> & Hk).
           split; [cbn; lia |]. exists (S k), lg. repeat split; cbn; lia.
        -- bind_inv H. destruct p as [[tl' c1] e1]. injection H as <- <- <-.
           destruct (IH _ _ _ _ _ E1) as (Hl & k & lg & -> & -> & Hk).
           split; [cbn; lia |]. eexists k, (_ :: lg).
           rewrite <- app_assoc. repeat split; cbn; lia.
    + bind_inv H. destruct p as [[tl' c1] e1]. injection H as <- <- <-.
      destruct (IH _ _ _ _ _ E0) as (Hl & k & lg & -> & -> & Hk).
      split; [cbn; lia |]. eexists k, (_ :: lg).
      rewrite <- app_assoc. repeat split; cbn; lia.
Qed.

Lemma one_verdict_per_record_witness :
  let text := Py.lower (Py.U "Fica reduzida a zero a alíquota do PIS.") in
  exists l' c' e',
    Validation.validate_aliquotas
      text [Canned.change "PIS" "ISENÇÃO"; Canned.change "ICMS" "ISENÇÃO"] 0 []
    = Some (l', c', e')
    /\ length l' = 2%nat.
Proof.
  intros text.
  destruct (is_some_of_bool
              (Validation.validate_aliquotas
                 text [Canned.change "PIS" "ISENÇÃO"; Canned.change "ICMS" "ISENÇÃO"]
                 0 [])) as [[[l' c'] e'] E]; [vm_compute; reflexivity |].
  exists l', c', e'. split; [exact E |].
  exact (proj1 (one_verdict_per_record _ _ _ _ _ _ _ E)).
Defined.

(** X7. A record whose type of change names no type of the pattern table
    (and is not the composite of suspension and zero rate) is never
    reconciled by the rules: when its tax code is grounded it stays as it
    is, one error is logged for it and no correction is counted.  This is
    the case of the types NOVO TRIBUTO, which the knowledge base gives to
    its records, and of ALTERAÇÃO. *)
Theorem type_outside_table_is_never_reconciled :
  forall (text : list N) (aliq : dict),
    fst (Validation.types_to_check (get aliq "tipo_mudanca")) = None ->
    Validation._validate_tributo (get aliq "tributo") text = Some true ->
    Validation._validate_change_type
      (get aliq "tributo") (get aliq "tipo_mudanca") text = Some (false, None)
    /\ Validation.validate_aliquotas text [aliq] 0 []
       = Some ([aliq], 0%nat,
               [Validation.error_unconfirmed (get aliq "tributo")
                                             (get aliq "tipo_mudanca")]).
Proof.
  intros text aliq Htype Hground.
  assert (Hchange : Validation._validate_change_type
                      (get aliq "tributo") (get aliq "tipo_mudanca") text
                    = Some (false, None)).
  { unfold Validation._validate_change_type.
    destruct (Validation.types_to_check (get aliq "tipo_mudanca")) as [t s].
    cbn [fst] in Htype. subst t. reflexivity. }
  split; [exact Hchange |].
  rewrite validate_aliquotas_cons. cbv zeta.
  rewrite Hground. cbn [mbind option_bind negb]. rewrite Hchange. reflexivity.
Qed.

(** The types of the knowledge base and of the extraction that name no type
    of the table. *)
Lemma types_outside_table :
  Forall (fun tipo => fst (Validation.types_to_check (Py.U tipo)) = None)
         ["NOVO TRIBUTO"; "ALTERAÇÃO"; "Verificar legislação"; ""].
Proof. repeat (constructor; [vm_compute; reflexivity |]). constructor. Qed.

(** The theorem at the record of CBS that the knowledge base gives, on a
    text that mentions CBS. *)
Lemma type_outside_table_is_never_reconciled_witness :
  let text := Py.lower (Py.U "A lei institui o IBS e a CBS.") in
  let aliq := Canned.change "CBS" "NOVO TRIBUTO" in
  Validation.validate_aliquotas text [aliq] 0 []
  = Some ([aliq], 0%nat,
          [Validation.error_unconfirmed (get aliq "tributo")
                                        (get aliq "tipo_mudanca")]).
Proof.
  intros text aliq.
  apply (type_outside_table_is_never_reconciled text aliq);
    vm_compute; reflexivity.
Defined.

(** ** The validation engine: the escalation to the service *)

Lemma corrections_of_needed (vs : list Validation.Validacao)
      (kept : list (list N * list N)) :
  Validation.corrections_of vs = Some kept ->
  forall t c, (t, c) ∈ kept ->
    exists v, v ∈ vs
              /\ Validation.v_tributo v = Some t
              /\ Validation.v_tipo_correto v = c
              /\ Validation.v_correcao_necessaria v = true
              /\ c <> [].
Proof.
  revert kept. induction vs as [| v tl IH]; intros kept H t c Hin.
  - cbn in H. injection H as <-. inversion Hin.
  - cbn [Validation.corrections_of] in H.
    destruct (Validation.needed v) eqn:Hn.
    + bind_inv H. bind_inv H. injection H as <-.
      apply elem_of_cons in Hin as [Heq | Hin].
      * injection Heq as -> ->. exists v. split; [now left |].
        unfold Validation.needed in Hn. apply andb_true_iff in Hn as [Hn1 Hn2].
        split; [exact E |]. split; [reflexivity |]. split; [exact Hn1 |].
        intros Hc. rewrite Hc in Hn2. discriminate Hn2.
      * destruct (IH _ eq_refl t c Hin) as (v' & Hv' & R).
        exists v'. split; [now right | exact R].
    + destruct (IH _ H t c Hin) as (v' & Hv' & R).
      exists v'. split; [now right | exact R].
Qed.

(** X8. The corrections taken from the service are those of its entries
    that ask for a correction and name a type; without a record that carries
    both a tax code and a type of change the service is not called and no
    correction is taken. *)
Theorem corrections_come_from_the_answer :
  forall (generate : Validation.Generate) (aliquotas : list dict)
         (original_text : list N),
    (forall t c,
        (t, c) ∈ Validation._validate_via_llm generate aliquotas original_text ->
        exists lines vs v,
          generate lines (Py.upto 6000 original_text) = Some vs
          /\ v ∈ vs
          /\ Validation.v_tributo v = Some t
          /\ Validation.v_tipo_correto v = c
          /\ Validation.v_correcao_necessaria v = true
          /\ c <> [])
    /\ (Forall (fun aliq => get aliq "tributo" = []
                            \/ get aliq "tipo_mudanca" = []) aliquotas ->
        Validation._validate_via_llm generate aliquotas original_text = []).
Proof.
  intros generate aliquotas text. split.
  - intros t c Hin. unfold Validation._validate_via_llm in Hin.
    destruct aliquotas as [| a tl]; [inversion Hin |].
    destruct (List.map _ _) as [| l ls] eqn:El; [inversion Hin |].
    destruct (generate (l :: ls) (Py.upto 6000 text)) as [vs |] eqn:Eg;
      [| inversion Hin].
    destruct (Validation.corrections_of vs) as [kept |] eqn:Ek;
      [| inversion Hin].
    cbn [default] in Hin.
    destruct (corrections_of_needed vs kept Ek t c Hin) as (v & R).
    exists (l :: ls), vs, v. split; [exact Eg | exact R].
  - intros Hall. unfold Validation._validate_via_llm.
    destruct aliquotas as [| a tl]; [reflexivity |].
    replace (List.filter _ (a :: tl)) with (@nil dict); [reflexivity |].
    symmetry. induction Hall as [| x l Hx _ IH]; [reflexivity |].
    cbn [List.filter]. unfold Py.eqb.
    destruct Hx as [-> | ->]; cbn; rewrite ?andb_false_r; exact IH.
Qed.

Lemma apply_llm_correction_absent (tributo tipo : list N) (l : list dict) :
  Forall (fun aliq => aliq !! "tributo" <> Some tributo) l ->
  forall n, Validation.apply_llm_correction tributo tipo l n = (l, n).
Proof.
  induction 1 as [| a tl Ha _ IH]; intros n; [reflexivity |].
  cbn [Validation.apply_llm_correction].
  rewrite bool_decide_eq_false_2 by exact Ha. rewrite IH. reflexivity.
Qed.

Lemma apply_llm_correction_map (tributo tipo : list N) (l : list dict) :
  forall n,
    Validation.apply_llm_correction tributo tipo l n
    = (List.map
         (fun aliq =>
            if bool_decide (aliq !! "tributo" = Some tributo)
            then Validation.apply_correction tributo tipo aliq
            else aliq) l,
       (n + length (List.filter
                      (fun aliq => bool_decide (aliq !! "tributo" = Some tributo))
                      l))%nat).
Proof.
  induction l as [| a tl IH]; intros n; cbn [Validation.apply_llm_correction].
  - cbn. f_equal. lia.
  - cbn [List.map List.filter].
    destruct (bool_decide (a !! "tributo" = Some tributo)).
    + rewrite IH. cbn [length]. f_equal. lia.
    + rewrite IH. reflexivity.
Qed.

Lemma apply_correction_keeps_others (tributo tipo : list N) (aliq : dict)
      (key : string) :
  key <> "tipo_mudanca" -> key <> "descricao_completa" ->
  key <> "situacao_nova" ->
  Validation.apply_correction tributo tipo aliq !! key = aliq !! key.
Proof.
  intros H1 H2 H3. unfold Validation.apply_correction.
  rewrite !lookup_insert_ne by congruence. reflexivity.
Qed.

(** X9. A correction of the service is applied to every record of its tax
    code, and to no other record: the type of change of such a record
    becomes the type of the correction, its description the tax code, a
    colon and the type, its new situation the sentence that goes with the
    type, and its other keys stay.  The correction is counted once for each
    record it rewrites; a correction that names a tax code absent from the
    list changes nothing. *)
Theorem correction_counts_its_records :
  forall (tributo tipo : list N) (l : list dict) (n : nat),
    Validation.apply_llm_correction tributo tipo l n
    = (List.map
         (fun aliq =>
            if bool_decide (aliq !! "tributo" = Some tributo)
            then Validation.apply_correction tributo tipo aliq
            else aliq) l,
       (n + length (List.filter
                      (fun aliq => bool_decide (aliq !! "tributo" = Some tributo))
                      l))%nat)
    /\ (forall aliq : dict,
           Validation.apply_correction tributo tipo aliq !! "tipo_mudanca"
           = Some tipo
           /\ Validation.apply_correction tributo tipo aliq !! "descricao_completa"
              = Some (tributo ++ Py.U ": " ++ tipo)
           /\ Validation.apply_correction tributo tipo aliq !! "situacao_nova"
              = Some (Validation._get_situacao_nova tipo tributo)
           /\ (forall key : string,
                  key <> "tipo_mudanca" -> key <> "descricao_completa" ->
                  key <> "situacao_nova" ->
                  Validation.apply_correction tributo tipo aliq !! key
                  = aliq !! key))
    /\ (Forall (fun aliq => aliq !! "tributo" <> Some tributo) l ->
        Validation.apply_llm_correction tributo tipo l n = (l, n)).
Proof.
  intros tributo tipo l n. split; [| split].
  - apply apply_llm_correction_map.
  - intros aliq.
    destruct (apply_correction_fields tributo tipo aliq) as (H1 & H2 & H3).
    split; [exact H1 |]. split; [exact H2 |]. split; [exact H3 |].
    intros key. apply apply_correction_keeps_others.
  - intros H. apply apply_llm_correction_absent, H.
Qed.

(** ** The system-changes stage *)

Lemma post_process_cons (aliq : dict) (tl : list dict) :
  SystemChangesStage.post_process_aliquotas (aliq :: tl)
  = if short_ii aliq then
      let contexto_completo :=
        Py.lower (get aliq "descricao_completa") ++ Py.U " "
          ++ Py.lower (get aliq "condicoes") ++ Py.U " "
          ++ Py.lower (get aliq "situacao_nova") in
      if negb (Py.contains_any SystemChangesStage.import_markers contexto_completo)
         || Py.contains_any SystemChangesStage.inciso_markers contexto_completo
      then SystemChangesStage.post_process_aliquotas tl
      else <["tributo" := Py.U "II (Imposto de Importação)"]> aliq
             :: SystemChangesStage.post_process_aliquotas tl
    else aliq :: SystemChangesStage.post_process_aliquotas tl.
Proof. reflexivity. Qed.

Lemma renamed_is_not_short (aliq : dict) :
  short_ii (<["tributo" := Py.U "II (Imposto de Importação)"]> aliq) = false.
Proof.
  unfold short_ii. unfold get at 2. rewrite lookup_insert_eq. cbn [default].
  apply andb_false_iff. right. vm_compute. reflexivity.
Qed.

Lemma post_process_no_short (l : list dict) :
  Forall (fun aliq => short_ii aliq = false)
         (SystemChangesStage.post_process_aliquotas l).
Proof.
  induction l as [| a tl IH]; [constructor |].
  rewrite post_process_cons. destruct (short_ii a) eqn:E.
  - cbv zeta. destruct (_ || _); [exact IH |].
    constructor; [apply renamed_is_not_short | exact IH].
  - constructor; [exact E | exact IH].
Qed.

Lemma post_process_fixed (l : list dict) :
  Forall (fun aliq => short_ii aliq = false) l ->
  SystemChangesStage.post_process_aliquotas l = l.
Proof.
  induction 1 as [| a tl Ha _ IH]; [reflexivity |].
  rewrite post_process_cons, Ha, IH. reflexivity.
Qed.

(** X10. After the post-processing of the tax codes no record is left whose
    tax code holds "II" in five characters or fewer: such a record is
    removed, or renamed "II (Imposto de Importação)" when its texts show an
    import and no mark of an enumeration.  The other records pass unchanged,
    in their order, and a second pass changes nothing. *)
Theorem post_process_settles_ii :
  forall l : list dict,
    Forall (fun aliq => short_ii aliq = false)
           (SystemChangesStage.post_process_aliquotas l)
    /\ sublist (List.filter (fun aliq => negb (short_ii aliq)) l)
               (SystemChangesStage.post_process_aliquotas l)
    /\ (length (SystemChangesStage.post_process_aliquotas l) <= length l)%nat
    /\ SystemChangesStage.post_process_aliquotas
         (SystemChangesStage.post_process_aliquotas l)
       = SystemChangesStage.post_process_aliquotas l.
Proof.
  intros l. split; [apply post_process_no_short |]. split; [| split].
  - induction l as [| a tl IH]; [constructor |].
    rewrite post_process_cons. cbn [List.filter].
    destruct (short_ii a); cbn [negb].
    + cbv zeta. destruct (_ || _); [exact IH | apply sublist_cons, IH].
    + constructor. exact IH.
  - induction l as [| a tl IH]; [reflexivity |].
    rewrite post_process_cons. destruct (short_ii a).
    + cbv zeta. destruct (_ || _); cbn [length]; lia.
    + cbn [length]. lia.
  - apply post_process_fixed, post_process_no_short.
Qed.

Lemma kb_changes_lc214 :
  KB.get_system_changes_for_legislation (Some (Py.U "LC_214"))
  = KB.LC_214_system_changes.
Proof.
  unfold KB.get_system_changes_for_legislation, KB.KNOWLEDGE_BASE.
  rewrite lookup_insert_eq. reflexivity.
Qed.

(** X11. For Lei Complementar 214, when the knowledge base is available,
    hands out a list that is not empty, and the extraction of the tax
    changes failed (it gave nothing, or the record that stands for a failed
    extraction), the tax-change list of the stage is the list that the
    knowledge base hands out, passed through the post-processing of the tax
    codes, whatever else the service answered: the very records handed out,
    in their order, when none of them carries a short code with "II".  The
    law key is handed on. *)
Theorem stage_uses_knowledge_base_for_lc214 :
  forall (env : Env) (structured_data : StructuredData) (impact : dict),
    HAS_KNOWLEDGE_BASE env = true ->
    KB.has_valid_changes
      (extract_aliquota_changes env true structured_data impact) = false ->
    let kb_changes :=
      KB.get_system_changes_for_legislation (Some (Py.U "LC_214")) in
    let changes :=
      SystemChangesStage.identify_changes env structured_data impact
                                          (Some (Py.U "LC_214")) in
    kb_changes <> [] ->
    aliquotas changes = SystemChangesStage.post_process_aliquotas kb_changes
    /\ (Forall (fun aliq => short_ii aliq = false) kb_changes ->
        aliquotas changes = kb_changes)
    /\ sc_known_law_key changes = Some (Py.U "LC_214").
Proof.
  intros env sd ia Hkb Hfail kb_changes changes Hne.
  assert (H : aliquotas changes
              = SystemChangesStage.post_process_aliquotas kb_changes).
  { subst changes kb_changes. unfold SystemChangesStage.identify_changes.
    cbv zeta. cbn [aliquotas].
    rewrite bool_decide_eq_true_2 by reflexivity.
    unfold SystemChangesStage.fallback. rewrite Hkb, Hfail.
    rewrite bool_decide_eq_true_2 by eauto. cbn [andb negb].
    revert Hne.
    generalize (KB.get_system_changes_for_legislation (Some (Py.U "LC_214"))).
    intros l Hne. destruct l as [| a l]; [contradiction | reflexivity]. }
  split; [exact H |]. split; [| reflexivity].
  intros Hshort. rewrite H. apply post_process_fixed, Hshort.
Qed.

(** The stage on a failed extraction of Lei Complementar 214, with the
    table as the module defines it. *)
Lemma stage_uses_knowledge_base_for_lc214_witness :
  let env := Canned.env [] None [] Canned.nothing_extracted [] None in
  aliquotas
    (SystemChangesStage.identify_changes env Structure.empty_data ∅
                                         (Some (Py.U "LC_214")))
  = KB.get_system_changes_for_legislation (Some (Py.U "LC_214")).
Proof.
  intros env.
  refine (proj1 (proj2 (stage_uses_knowledge_base_for_lc214
                          env Structure.empty_data ∅ _ _ _)) _).
  - reflexivity.
  - vm_compute. reflexivity.
  - rewrite kb_changes_lc214. discriminate.
  - rewrite kb_changes_lc214.
    repeat (constructor; [vm_compute; reflexivity |]). constructor.
Defined.

(** ** The date-extraction stage: its fallbacks *)

Lemma kb_vigencias_lc214 :
  KB.get_vigencias_for_legislation (Some (Py.U "LC_214")) = KB.LC_214_vigencias.
Proof.
  unfold KB.get_vigencias_for_legislation, KB.KNOWLEDGE_BASE.
  rewrite lookup_insert_eq. reflexivity.
Qed.

(** X12. For a law detected as Lei Complementar 214, as long as the
    knowledge base hands out at least three dates for it, every result of
    the stage holds between three and eight dates, and when the service
    gave fewer than three it holds the first eight records that the
    knowledge base hands out, as they stand. *)
Theorem lc214_dates_between_3_and_8 :
  forall (env : Env) (web_results : list WebResult)
         (raw : option RawExtraction) (dx : DateExtraction),
    DateExtraction.extract env web_results raw = Some dx ->
    dx_known_law_key dx = Some (Py.U "LC_214") ->
    let kb_vigencias :=
      KB.get_vigencias_for_legislation (Some (Py.U "LC_214")) in
    (3 <= length kb_vigencias)%nat ->
    (3 <= count dx <= 8)%nat
    /\ count dx = length (vigencias dx)
    /\ ((forall content,
            (length (_extract_via_llm_reforma env content) < 3)%nat) ->
        vigencias dx = firstn 8 kb_vigencias).
Proof.
  intros env wr raw dx H Hkey kb_vigencias Hlen.
  unfold DateExtraction.extract in H. cbv zeta in H.
  set (known := match wr with [] => None | _ => _ end) in H.
  set (combined := _ ++ _ ++ _) in H.
  bind_inv H. unfold DateExtraction.result in H. bind_inv H.
  injection H as <-. cbn [dx_known_law_key count vigencias] in *.
  rewrite Hkey in E.
  assert (Hkb : HAS_KNOWLEDGE_BASE env = true).
  { subst known. destruct wr as [| first tl]; [discriminate Hkey |].
    destruct (HAS_KNOWLEDGE_BASE env); [reflexivity | discriminate Hkey]. }
  rewrite bool_decide_eq_true_2 in E by reflexivity.
  unfold DateExtraction.knowledge_base_fallback in E.
  rewrite Hkb, bool_decide_eq_true_2 in E by eauto. cbn [andb] in E.
  fold kb_vigencias in E. clearbody kb_vigencias.
  assert (Hk : Py.is_empty kb_vigencias = false)
    by (destruct kb_vigencias; [cbn in Hlen; lia | reflexivity]).
  rewrite Hk in E. cbn [negb] in E.
  set (first := _extract_via_llm_reforma env combined) in E.
  assert (Hl : (3 <= length l)%nat
               /\ ((length first < 3)%nat -> l = kb_vigencias)).
  { unfold DateExtraction.regex_fallback in E.
    destruct (Py.is_empty first || (length first <? 3)%nat) eqn:Ef.
    - rewrite Hk in E.
      replace (length kb_vigencias <? 2)%nat with false in E
        by (symmetry; apply Nat.ltb_ge; lia).
      injection E as <-. split; [exact Hlen | reflexivity].
    - apply orb_false_iff in Ef as [Ef1 Ef2]. apply Nat.ltb_ge in Ef2.
      rewrite Ef1 in E.
      replace (length first <? 2)%nat with false in E
        by (symmetry; apply Nat.ltb_ge; lia).
      injection E as <-. split; [exact Ef2 | lia]. }
  destruct Hl as [Hl3 Hkbl]. rewrite length_firstn. split; [lia |].
  split; [reflexivity |].
  intros Hfew. rewrite (Hkbl (Hfew combined)). reflexivity.
Qed.

(** The stage on the page of Lei Complementar 214 when the service gives one
    date: the six dates of the table as the module defines it. *)
Lemma lc214_dates_between_3_and_8_witness :
  let env := Canned.env [Canned.lc214_page] (Some (Py.U "texto"))
                        [Canned.date "2026" "a"] [] [] None in
  exists dx,
    DateExtraction.extract env [Canned.lc214_page] None = Some dx
    /\ (3 <= count dx <= 8)%nat
    /\ vigencias dx
       = firstn 8 (KB.get_vigencias_for_legislation (Some (Py.U "LC_214"))).
Proof.
  intros env.
  destruct (is_some_of_bool (DateExtraction.extract env [Canned.lc214_page] None))
    as [dx E]; [vm_compute; reflexivity |].
  exists dx. split; [exact E |].
  assert (K : dx_known_law_key
                <$> DateExtraction.extract env [Canned.lc214_page] None
              = Some (Some (Py.U "LC_214"))) by (vm_compute; reflexivity).
  rewrite E in K. injection K as K.
  assert (Hlen : (3 <= length (KB.get_vigencias_for_legislation
                                 (Some (Py.U "LC_214"))))%nat)
    by (rewrite kb_vigencias_lc214; cbn; lia).
  destruct (lc214_dates_between_3_and_8 _ _ _ _ E K Hlen) as (H1 & _ & H3).
  split; [exact H1 |]. apply H3. intros content. cbn. lia.
Defined.

Lemma dedupe_spec (vigencias : list dict) :
  forall seen kept,
    DateExtraction.dedupe seen vigencias = Some kept ->
    sublist kept vigencias
    /\ NoDup (List.map data_of kept)
    /\ Forall (fun v => data_of v ∉ seen) kept.
Proof.
  induction vigencias as [| v tl IH]; intros seen kept H.
  - cbn in H. injection H as <-. split; [constructor |].
    split; constructor.
  - cbn [DateExtraction.dedupe] in H. bind_inv H.
    destruct (bool_decide (l ∈ seen)) eqn:Es.
    + destruct (IH _ _ H) as (H1 & H2 & H3).
      split; [apply sublist_cons, H1 | split; assumption].
    + bind_inv H. injection H as <-.
      apply bool_decide_eq_false in Es.
      destruct (IH _ _ E0) as (H1 & H2 & H3).
      assert (Hd : data_of v = l) by (unfold data_of, get; rewrite E; reflexivity).
      split; [constructor; exact H1 |]. split.
      * cbn [List.map]. rewrite Hd. constructor; [| exact H2].
        intros Hin. apply list_elem_of_In, in_map_iff in Hin as (x & Hx & Hxin).
        rewrite Forall_forall in H3. apply (H3 x); [apply list_elem_of_In, Hxin |].
        rewrite Hx. now left.
      * constructor; [rewrite Hd; exact Es |].
        eapply Forall_impl; [exact H3 |]. intros x Hx Hin. apply Hx. now right.
Qed.

(** X13. The pattern fallback is taken only with fewer than two dates: with
    two or more the dates are returned as they are.  When it is taken, the
    dates found by the patterns are appended and each date is kept once, at
    its first occurrence. *)
Theorem regex_fallback_keeps_each_date_once :
  forall (found vigencias out : list dict),
    DateExtraction.regex_fallback found vigencias = Some out ->
    ((2 <= length vigencias)%nat -> out = vigencias)
    /\ ((length vigencias < 2)%nat ->
        sublist out (vigencias ++ found)
        /\ NoDup (List.map data_of out)
        /\ (forall v tl, vigencias ++ found = v :: tl ->
                         exists tl', out = v :: tl')).
Proof.
  intros found vigencias out H. unfold DateExtraction.regex_fallback in H.
  split.
  - intros Hlen. destruct vigencias as [| a [| b tl]]; cbn in Hlen; try lia.
    cbn in H. injection H as <-. reflexivity.
  - intros Hlen.
    replace (Py.is_empty vigencias || (length vigencias <? 2)%nat) with true in H
      by (symmetry; apply orb_true_iff; right; apply Nat.ltb_lt, Hlen).
    destruct (dedupe_spec _ _ _ H) as (H1 & H2 & _).
    split; [exact H1 |]. split; [exact H2 |].
    intros v tl Heq. rewrite Heq in H. cbn [DateExtraction.dedupe] in H.
    bind_inv H. rewrite bool_decide_eq_false_2 in H by (intros Hin; inversion Hin).
    bind_inv H. injection H as <-. eauto.
Qed.

Lemma regex_fallback_keeps_each_date_once_witness :
  exists out,
    DateExtraction.regex_fallback
      [Canned.date "2026" "b"; Canned.date "2027" "c"] [Canned.date "2026" "a"]
    = Some out
    /\ NoDup (List.map data_of out).
Proof.
  destruct (is_some_of_bool
              (DateExtraction.regex_fallback
                 [Canned.date "2026" "b"; Canned.date "2027" "c"]
                 [Canned.date "2026" "a"])) as [out E]; [vm_compute; reflexivity |].
  exists out. split; [exact E |].
  refine (proj1 (proj2 (proj2 (regex_fallback_keeps_each_date_once _ _ _ E) _))).
  cbn. lia.
Defined.

Lemma join_length_two (a b : list N) :
  length (Py.join [10; 10] [a; b]) = (length a + 2 + length b)%nat.
Proof. cbn [Py.join]. rewrite !length_app. cbn [length]. lia. Qed.

(** X14. The content handed to the date extraction is taken from the first
    two sources only, 5000 characters of each at most: the later sources do
    not count, and the content is never longer than 10002 characters. *)
Theorem consolidated_content_is_bounded :
  forall web_results : list WebResult,
    DateExtraction._consolidate_content web_results
    = DateExtraction._consolidate_content (firstn 2 web_results)
    /\ (length (DateExtraction._consolidate_content web_results)
        <= 5000 + 2 + 5000)%nat.
Proof.
  intros wr. unfold DateExtraction._consolidate_content. split.
  - rewrite firstn_firstn. reflexivity.
  - generalize 5000%nat. intros n.
    assert (Hn : forall r, (length (Py.upto n (wr_content r)) <= n)%nat)
      by (intros r; apply firstn_le_length).
    destruct wr as [| a [| b tl]]; cbn [firstn List.filter List.map].
    + cbn. lia.
    + pose proof (Hn a). clear Hn.
      destruct (negb _); cbn [List.map Py.join length]; lia.
    + pose proof (Hn a). pose proof (Hn b). clear Hn.
      change (firstn 0 tl) with (@nil WebResult). cbn [List.filter List.map].
      destruct (negb (Py.eqb (wr_content a) [])),
               (negb (Py.eqb (wr_content b) []));
        cbn [List.map]; rewrite ?join_length_two; cbn [Py.join length]; lia.
Qed.

(** The canned records carry their date and context. *)
Lemma canned_date_dated (data contexto : string) :
  dated (Canned.date data contexto).
Proof.
  unfold dated, Canned.date. cbn [list_to_map foldr fst snd]. 
  split.
  - rewrite lookup_insert_eq. eauto.
  - rewrite lookup_insert_ne by discriminate. rewrite lookup_insert_eq. eauto.
Qed.
(** The extraction at an environment whose service reads one date. *)
Lemma date_extraction_defined_witness :
  is_Some (DateExtraction.extract
             (Canned.env [] (Some (Py.U "texto"))
                         [Canned.date "01/01/2026" "a"] [] [] None)
             [] None).
Proof.
  apply date_extraction_defined; intros c.
  - change (Forall dated [Canned.date "01/01/2026" "a"]).
    constructor; [apply canned_date_dated | constructor].
  - change (Forall dated [Canned.date "01/01/2026" "a"]).
    constructor; [apply canned_date_dated | constructor].
  - change (Forall dated (@nil dict)). constructor.
Defined.

(** ** The review stage: the tax-change list *)

Lemma clean_fields_other (keys : list string) (k : string) :
  k ∉ keys ->
  forall aliq aliq',
    Review.clean_fields keys aliq = Some aliq' -> aliq' !! k = aliq !! k.
Proof.
  induction keys as [| key tl IH]; intros Hk aliq aliq' H.
  - cbn in H. injection H as <-. reflexivity.
  - assert (Hne : key <> k) by (intros ->; apply Hk; now left).
    assert (Htl : k ∉ tl) by (intros Hin; apply Hk; now right).
    cbn [Review.clean_fields] in H.
    destruct (aliq !! key) as [text |]; [| exact (IH Htl _ _ H)].
    destruct (Py.eqb text []); [exact (IH Htl _ _ H) |].
    bind_inv H. rewrite (IH Htl _ _ H).
    apply lookup_insert_ne. exact Hne.
Qed.

Lemma clean_fields_codes (aliq aliq' : dict) :
  Review.clean_fields Review.cleaned_keys aliq = Some aliq' ->
  tributo_of aliq' = tributo_of aliq /\ tipo_of aliq' = tipo_of aliq.
Proof.
  intros H. unfold tributo_of, tipo_of, get. split.
  - rewrite (clean_fields_other Review.cleaned_keys "tributo"
               ltac:(vm_compute; intros Hin; inversion Hin as [| ? ? ? H1]; subst;
                     repeat match goal with
                            | H : _ ∈ _ :: _ |- _ => inversion H; subst; clear H
                            | H : _ ∈ [] |- _ => inversion H
                            end) _ _ H).
    reflexivity.
  - rewrite (clean_fields_other Review.cleaned_keys "tipo_mudanca"
               ltac:(vm_compute; intros Hin; inversion Hin as [| ? ? ? H1]; subst;
                     repeat match goal with
                            | H : _ ∈ _ :: _ |- _ => inversion H; subst; clear H
                            | H : _ ∈ [] |- _ => inversion H
                            end) _ _ H).
    reflexivity.
Qed.

Lemma review_aliquotas_spec (aliquotas : list dict) :
  forall seen out,
    Review.review_aliquotas aliquotas seen = Some out ->
    NoDup (List.map tributo_of out)
    /\ Forall (fun aliq => tributo_of aliq ∉ seen) out
    /\ Forall (fun aliq => tipo_of aliq <> []
                           /\ tipo_of aliq <> Py.U "Análise manual necessária")
              out
    /\ sublist (List.map tributo_of out) (List.map tributo_of aliquotas).
Proof.
  induction aliquotas as [| a tl IH]; intros seen out H.
  - cbn in H. injection H as <-. repeat split; constructor.
  - cbn [Review.review_aliquotas] in H. cbv zeta in H.
    fold (tributo_of a) in H. fold (tipo_of a) in H.
    destruct (bool_decide (tributo_of a ∈ seen)) eqn:Es.
    + destruct (IH _ _ H) as (H1 & H2 & H3 & H4).
      repeat split; try assumption. cbn [List.map]. apply sublist_cons, H4.
    + apply bool_decide_eq_false in Es.
      destruct (Py.eqb (tipo_of a) [] || Py.eqb (tipo_of a) _) eqn:Et.
      * destruct (IH _ _ H) as (H1 & H2 & H3 & H4).
        repeat split; try assumption. cbn [List.map]. apply sublist_cons, H4.
      * bind_inv H. bind_inv H. injection H as <-.
        destruct (clean_fields_codes _ _ E) as [Hc1 Hc2].
        destruct (IH _ _ E0) as (H1 & H2 & H3 & H4).
        apply orb_false_iff in Et as [Et1 Et2].
        unfold Py.eqb in Et1, Et2.
        apply bool_decide_eq_false in Et1, Et2.
        split; [| split; [| split]].
        -- cbn [List.map]. rewrite Hc1. constructor; [| exact H1].
           intros Hin. apply list_elem_of_In, in_map_iff in Hin as (x & Hx & Hxin).
           rewrite Forall_forall in H2.
           apply (H2 x); [apply list_elem_of_In, Hxin |]. rewrite Hx. now left.
        -- constructor; [rewrite Hc1; exact Es |].
           eapply Forall_impl; [exact H2 |]. intros x Hx Hin. apply Hx. now right.
        -- constructor; [rewrite Hc2; split; assumption | exact H3].
        -- cbn [List.map]. rewrite Hc1. constructor. exact H4.
Qed.

Lemma unique_spec (l : list (list N)) :
  forall seen,
    NoDup (Review.unique seen l)
    /\ Forall (fun x => x ∉ seen) (Review.unique seen l)
    /\ sublist (Review.unique seen l) l.
Proof.
  induction l as [| x tl IH]; intros seen; cbn [Review.unique].
  - repeat split; constructor.
  - destruct (bool_decide (x ∈ seen)) eqn:Es.
    + destruct (IH seen) as (H1 & H2 & H3).
      repeat split; try assumption. apply sublist_cons, H3.
    + apply bool_decide_eq_false in Es. destruct (IH (x :: seen)) as (H1 & H2 & H3).
      split; [| split].
      * constructor; [| exact H1]. intros Hin. rewrite Forall_forall in H2.
        apply (H2 x Hin). now left.
      * constructor; [exact Es |]. eapply Forall_impl; [exact H2 |].
        intros y Hy Hin. apply Hy. now right.
      * constructor. exact H3.
Qed.

Lemma clean_risks_long (risks cleaned : list (list N)) :
  Review.clean_risks risks = Some cleaned ->
  Forall (fun r => (20 < length r)%nat) cleaned.
Proof.
  revert cleaned. induction risks as [| r tl IH]; intros cleaned H.
  - cbn in H. injection H as <-. constructor.
  - cbn [Review.clean_risks] in H. bind_inv H. bind_inv H. injection H as <-.
    destruct (20 <? length l)%nat eqn:E1.
    + constructor; [apply Nat.ltb_lt, E1 | apply IH; reflexivity].
    + apply IH. reflexivity.
Qed.

(** X16. After the review of a non-empty tax-change list, no two records
    carry the same tax code (the first of each is kept), every record has a
    type of change other than "Análise manual necessária", the tax codes
    are a subsequence of those given, and the law key is kept; the
    compliance risks are six at most, pairwise distinct and each longer than
    twenty characters. *)
Theorem review_keeps_one_record_per_tax :
  forall (sc sc' : SystemChanges),
    Review._review_system_changes sc = Some sc' ->
    aliquotas sc <> [] ->
    NoDup (List.map tributo_of (aliquotas sc'))
    /\ Forall (fun aliq => tipo_of aliq <> []
                           /\ tipo_of aliq <> Py.U "Análise manual necessária")
              (aliquotas sc')
    /\ sublist (List.map tributo_of (aliquotas sc'))
               (List.map tributo_of (aliquotas sc))
    /\ sc_known_law_key sc' = sc_known_law_key sc
    /\ forall risks,
        compliance_risks sc' = Some risks ->
        (length risks <= 6)%nat
        /\ NoDup risks
        /\ Forall (fun r => (20 < length r)%nat) risks.
Proof.
  intros sc sc' H Hne. unfold Review._review_system_changes in H.
  destruct (aliquotas sc) as [| a tl] eqn:Ea; [contradiction |].
  bind_inv H. bind_inv H. injection H as <-. cbn [aliquotas sc_known_law_key compliance_risks].
  destruct (review_aliquotas_spec _ _ _ E) as (H1 & _ & H3 & H4).
  split; [exact H1 |]. split; [exact H3 |]. split; [exact H4 |].
  split; [reflexivity |].
  intros risks Hr. subst o.
  destruct (compliance_risks sc) as [rs |]; [| discriminate E0].
  bind_inv E0. injection E0 as <-.
  destruct (unique_spec l0 []) as (U1 & _ & U3).
  pose proof (clean_risks_long _ _ E1) as Hlong.
  split; [rewrite length_firstn; lia |]. split.
  - eapply sublist_NoDup; [exact U1 | apply sublist_take].
  - apply Forall_take. rewrite Forall_forall in Hlong |- *.
    intros x Hx. apply Hlong. eapply elem_of_sublist; [exact Hx | exact U3].
Qed.

Lemma review_keeps_one_record_per_tax_witness :
  let sc := {| aliquotas := [ Canned.change "PIS" "ISENÇÃO";
                              Canned.change "PIS" "REDUÇÃO";
                              Canned.change "IPI" "" ];
               compliance_risks := None; sc_known_law_key := None |} in
  exists sc',
    Review._review_system_changes sc = Some sc'
    /\ NoDup (List.map tributo_of (aliquotas sc')).
Proof.
  intros sc.
  destruct (is_some_of_bool (Review._review_system_changes sc)) as [sc' E];
    [vm_compute; reflexivity |].
  exists sc'. split; [exact E |].
  refine (proj1 (review_keeps_one_record_per_tax sc sc' E _)).
  discriminate.
Defined.

(** ** The review stage: texts cut short *)

Lemma lstrip_nil (s : list N) :
  Py.lstrip s = [] <-> forallb Py.isspace s = true.
Proof.
  induction s as [| c s IH]; cbn [Py.lstrip forallb]; [tauto |].
  destruct (Py.isspace c); cbn [andb]; [exact IH |].
  split; discriminate.
Qed.

Lemma lstrip_head (s : list N) (c : N) (s' : list N) :
  Py.lstrip s = c :: s' -> Py.isspace c = false.
Proof.
  induction s as [| x s IH]; cbn [Py.lstrip]; [discriminate |].
  destruct (Py.isspace x) eqn:E; [exact IH |].
  intros H. injection H as <- _. exact E.
Qed.

Lemma forallb_rev {A} (f : A -> bool) (l : list A) :
  forallb f (rev l) = forallb f l.
Proof.
  induction l as [| x l IH]; [reflexivity |].
  cbn [rev forallb]. rewrite forallb_app, IH. cbn [forallb].
  rewrite andb_true_r. apply andb_comm.
Qed.

Lemma strip_nil (s : list N) :
  Py.strip s = [] <-> forallb Py.isspace s = true.
Proof.
  unfold Py.strip, Py.rstrip. rewrite <- lstrip_nil. split.
  - intros H. apply (f_equal (@rev N)) in H. rewrite rev_involutive in H.
    cbn [rev] in H. apply lstrip_nil in H. rewrite forallb_rev in H.
    destruct (Py.lstrip s) as [| c s'] eqn:E; [reflexivity |].
    apply lstrip_head in E. cbn [forallb] in H. rewrite E in H. discriminate.
  - intros ->. reflexivity.
Qed.

Lemma last_char_none (s : list N) : Py.last_char s = None <-> s = [].
Proof.
  unfold Py.last_char. split; [| intros ->; reflexivity].
  destruct s as [| c s]; [reflexivity |]. intros H. exfalso.
  revert c H. induction s as [| x s IH]; intros c H; [discriminate |].
  exact (IH x H).
Qed.

Lemma rfind_go_spec (c : N) (s : list N) :
  forall i last k,
    Py.rfind_go c s i last = Some k ->
    last = Some k \/ (i <= k < i + length s)%nat.
Proof.
  induction s as [| x s IH]; intros i last k; cbn [Py.rfind_go length].
  - intros ->. now left.
  - intros H. apply IH in H as [H | H]; [| right; lia].
    destruct (x =? c)%N; [| now left].
    injection H as <-. right. lia.
Qed.

Lemma rfind_bound (c : N) (s : list N) (k : nat) :
  Py.rfind c s = Some k -> (k < length s)%nat.
Proof.
  unfold Py.rfind. intros H. apply rfind_go_spec in H as [H | H];
    [discriminate | lia].
Qed.

Lemma before_last_space_prefix (s : list N) :
  Py.before_last_space s = Py.upto (length (Py.before_last_space s)) s
  /\ (length (Py.before_last_space s) <= length s)%nat.
Proof.
  unfold Py.before_last_space, Py.upto.
  destruct (Py.rfind 32 s) as [i |] eqn:E.
  - apply rfind_bound in E. rewrite length_firstn.
    rewrite Nat.min_l by lia. split; [reflexivity | lia].
  - rewrite firstn_all. split; [reflexivity | lia].
Qed.

(** X17. [_fix_truncated_text] raises on one kind of text only: a text
    longer than the limit that holds nothing but white space.  A text within
    the limit is returned as it is; a longer one is returned as it is, or
    cut after one of its first [max_length] characters, or cut there and
    closed with an ellipsis after more than fifty characters. *)
Theorem fix_truncated_text_spec (text : list N) (max_length : nat) :
  (Review._fix_truncated_text text max_length = None
   <-> (max_length < length text)%nat /\ forallb Py.isspace text = true)
  /\ ((length text <= max_length)%nat ->
      Review._fix_truncated_text text max_length = Some text)
  /\ forall out,
      Review._fix_truncated_text text max_length = Some out ->
      out = text
      \/ exists k,
          (k <= max_length)%nat /\ (k < length text)%nat
          /\ (out = Py.upto k text
              \/ out = Py.upto k text ++ Py.U "..." /\ (50 < k)%nat).
Proof.
  unfold Review._fix_truncated_text.
  destruct (Py.eqb text []) eqn:Enil.
  { apply bool_decide_eq_true in Enil. subst text. cbn [length forallb].
    split; [split; [discriminate | intros [H _]; lia] |].
    split; [reflexivity |]. intros out H. injection H as <-. now left. }
  destruct (length text <=? max_length)%nat eqn:Elen.
  { apply Nat.leb_le in Elen.
    split; [split; [discriminate | intros [H _]; lia] |].
    split; [reflexivity |]. intros out H. injection H as <-. now left. }
  apply Nat.leb_gt in Elen.
  destruct (Py.last_char (Py.strip text)) as [final |] eqn:Elast.
  2:{ apply last_char_none, strip_nil in Elast. cbn [mbind option_bind].
      split; [split; [intros _; split; [lia | exact Elast] | reflexivity] |].
      split; [lia | discriminate]. }
  assert (Hns : forallb Py.isspace text <> true).
  { intros H. apply strip_nil in H. rewrite H in Elast. discriminate. }
  cbn [mbind option_bind].
  remember (Py.upto max_length text) as head eqn:Hhd.
  assert (Hhead : length head = max_length).
  { rewrite Hhd. unfold Py.upto. rewrite length_firstn. lia. }
  assert (Hpre : forall k, (k <= max_length)%nat ->
                           Py.upto k head = Py.upto k text).
  { intros k Hk. rewrite Hhd. unfold Py.upto. rewrite firstn_firstn.
    rewrite Nat.min_l by exact Hk. reflexivity. }
  assert (Hcut : forall out,
             (if (50 <? length (Py.before_last_space head))%nat
              then Some (Py.before_last_space head ++ Py.U "...")
              else Some text) = Some out ->
             out = text
             \/ exists k,
                 (k <= max_length)%nat /\ (k < length text)%nat
                 /\ (out = Py.upto k text
                     \/ out = Py.upto k text ++ Py.U "..." /\ (50 < k)%nat)).
  { intros out H.
    destruct (50 <? length (Py.before_last_space head))%nat eqn:E50;
      injection H as <-; [| now left].
    apply Nat.ltb_lt in E50. right.
    destruct (before_last_space_prefix head) as [Hp Hl].
    exists (length (Py.before_last_space head)).
    assert (Hk : (length (Py.before_last_space head) <= max_length)%nat)
      by (rewrite <- Hhead; exact Hl).
    split; [exact Hk |]. split; [exact (Nat.le_lt_trans _ _ _ Hk Elen) |].
    right. split; [| exact E50].
    rewrite Hp at 1. rewrite (Hpre _ Hk). reflexivity. }
  split.
  { split; [| intros [_ H]; contradiction].
    destruct (existsb _ _); [discriminate |].
    match goal with
    | |- match ?lp with _ => _ end = None -> _ => destruct lp as [i |]
    end;
      repeat match goal with
             | |- context [if ?b then _ else _] => destruct b
             end; discriminate. }
  split; [lia |].
  intros out. destruct (existsb _ _).
  { intros H. injection H as <-. now left. }
  match goal with
  | |- match ?lp with _ => _ end = Some _ -> _ =>
      destruct lp as [i |] eqn:Ep
  end; [| apply Hcut].
  destruct (max_length * 7 <? i * 10)%nat; [| apply Hcut].
  intros H. injection H as <-.
  assert (Hi : (i < max_length)%nat).
  { rewrite <- Hhead.
    destruct (Py.rfind 46 head) as [a |] eqn:Ea;
      destruct (Py.rfind 33 head) as [b |] eqn:Eb;
      destruct (Py.rfind 63 head) as [c |] eqn:Ec;
      try apply rfind_bound in Ea; try apply rfind_bound in Eb;
      try apply rfind_bound in Ec;
      cbn in Ep; try discriminate; injection Ep as <-; lia. }
  right. exists (S i). split; [lia |]. split; [lia |]. left. reflexivity.
Qed.

(** ** The review stage: the effective dates *)

Lemma data_of_insert (k : string) (x : list N) (v : dict) :
  k <> "data" -> data_of (<[k := x]> v) = data_of v.
Proof.
  intros Hk. unfold data_of, get. rewrite lookup_insert_ne by exact Hk.
  reflexivity.
Qed.

Lemma review_dates_loop_step (year_now : nat) (v : dict) (tl cleaned : list dict) :
  Review.review_dates_loop year_now (v :: tl) cleaned
  = if spans_years v
    then Review.review_dates_loop
           year_now tl
           (cleaned ++ [if Py.eqb (get v "tipo") []
                        then <["tipo" := Py.U "duracao_beneficio"]> v else v])
    else
      year_match ← Re.search_group0 false (Py.U "20\d{2}") (get v "data");
      match year_match with
      | None => Review.review_dates_loop year_now tl cleaned
      | Some year_text =>
          if (Py.int_of year_text <? N.of_nat year_now)%N then
            if Py.contains_any Review.legal_reference_markers
                               (Py.lower (get v "contexto"))
            then
              let cleaned :=
                cleaned ++ [<["contexto" :=
                                Py.U "📜 Referência legal: "
                                     ++ Py.upto 150 (get v "contexto")]> v] in
              if (Review.max_dates_allowed <=? length cleaned)%nat
              then Some cleaned
              else Review.review_dates_loop year_now tl cleaned
            else Review.review_dates_loop year_now tl cleaned
          else
            is_historical ← Review.search_any_cs Review.historical_patterns
                                                 (Py.lower (get v "contexto"));
            if is_historical
               && negb (Py.contains_any
                          [ Py.U "mpv"; Py.U "1.318"; Py.U "1318"; Py.U "redata";
                            Py.str_of_nat year_now; Py.U "2025" ]
                          (Py.lower (get v "contexto")))
            then Review.review_dates_loop year_now tl cleaned
            else
              let contexto_clean :=
                Py.join (Py.U " ") (Py.split_ws (get v "contexto")) in
              let v1 := <["contexto" := Py.upto 180 contexto_clean]> v in
              let v2 :=
                if Py.eqb (get v1 "tipo") []
                then <["tipo" :=
                         Review._infer_vigencia_type (get v "data")
                                                     contexto_clean]> v1
                else v1 in
              let cleaned := cleaned ++ [v2] in
              if (Review.max_dates_allowed <=? length cleaned)%nat
              then Some cleaned
              else Review.review_dates_loop year_now tl cleaned
      end.
Proof. reflexivity. Qed.

Lemma spans_years_typed (v : dict) :
  spans_years v = true ->
  spans_years (if Py.eqb (get v "tipo") []
               then <["tipo" := Py.U "duracao_beneficio"]> v else v) = true.
Proof.
  intros H. destruct (Py.eqb (get v "tipo") []); [| exact H].
  unfold spans_years, get. rewrite lookup_insert_eq. cbn [default].
  replace (Py.eqb (Py.U "duracao_beneficio") (Py.U "duracao_beneficio"))
    with true by (symmetry; apply bool_decide_eq_true; reflexivity).
  rewrite orb_true_r. reflexivity.
Qed.

Lemma review_dates_loop_spec (year_now : nat) (vigencias : list dict) :
  forall cleaned out,
    Review.review_dates_loop year_now vigencias cleaned = Some out ->
    exists kept,
      out = cleaned ++ kept
      /\ sublist (List.map data_of kept) (List.map data_of vigencias)
      /\ Forall (fun v => spans_years v = true \/ shows_year v) kept
      /\ (length out
          <= Nat.max (S (length cleaned)) Review.max_dates_allowed
             + length (List.filter spans_years vigencias))%nat.
Proof.
  induction vigencias as [| v tl IH]; intros cleaned out H.
  { cbn in H. injection H as <-. exists []. rewrite app_nil_r.
    split; [reflexivity |]. split; [constructor |]. split; [constructor |].
    cbn. lia. }
  rewrite review_dates_loop_step in H. cbn [List.filter List.map].
  assert (Hskip : forall out,
             Review.review_dates_loop year_now tl cleaned = Some out ->
             exists kept,
               out = cleaned ++ kept
               /\ sublist (List.map data_of kept)
                          (data_of v :: List.map data_of tl)
               /\ Forall (fun v => spans_years v = true \/ shows_year v) kept
               /\ (length out
                   <= Nat.max (S (length cleaned)) Review.max_dates_allowed
                      + length (List.filter spans_years tl))%nat).
  { intros o Ho. destruct (IH _ _ Ho) as (kept & -> & Hs & Hf & Hl).
    exists kept. split; [reflexivity |].
    split; [apply sublist_cons, Hs |]. split; [exact Hf | exact Hl]. }
  assert (Hkeep : forall v' out,
             (if (Review.max_dates_allowed <=? length (cleaned ++ [v']))%nat
              then Some (cleaned ++ [v'])
              else Review.review_dates_loop year_now tl (cleaned ++ [v']))
             = Some out ->
             data_of v' = data_of v ->
             shows_year v' ->
             exists kept,
               out = cleaned ++ kept
               /\ sublist (List.map data_of kept)
                          (data_of v :: List.map data_of tl)
               /\ Forall (fun v => spans_years v = true \/ shows_year v) kept
               /\ (length out
                   <= Nat.max (S (length cleaned)) Review.max_dates_allowed
                      + length (List.filter spans_years tl))%nat).
  { intros v' o Ho Hd Hy.
    destruct (Review.max_dates_allowed <=? length (cleaned ++ [v']))%nat eqn:E.
    - injection Ho as <-. exists [v']. split; [reflexivity |].
      split.
      + cbn [List.map]. rewrite Hd. apply sublist_skip, sublist_nil_l.
      + split; [constructor; [now right | constructor] |].
        rewrite length_app. cbn [length]. lia.
    - apply Nat.leb_gt in E. rewrite length_app in E. cbn [length] in E.
      destruct (IH _ _ Ho) as (kept & -> & Hs & Hf & Hl).
      exists (v' :: kept). split; [rewrite <- app_assoc; reflexivity |].
      split; [cbn [List.map]; rewrite Hd; apply sublist_skip, Hs |].
      split; [constructor; [now right | exact Hf] |].
      rewrite length_app in Hl. cbn [length] in Hl.
      rewrite !length_app in *. cbn [length] in *.
      unfold Review.max_dates_allowed in *. lia. }
  destruct (spans_years v) eqn:Esp.
  - destruct (IH _ _ H) as (kept & -> & Hs & Hf & Hl).
    eexists (_ :: kept). split; [rewrite <- app_assoc; reflexivity |].
    split.
    + cbn [List.map].
      replace (data_of (if Py.eqb (get v "tipo") []
                        then <["tipo" := Py.U "duracao_beneficio"]> v else v))
        with (data_of v)
        by (destruct (Py.eqb _ _); [rewrite data_of_insert by discriminate |];
            reflexivity).
      apply sublist_skip, Hs.
    + split; [constructor; [left; apply spans_years_typed, Esp | exact Hf] |].
      rewrite !length_app in *. cbn [length] in *.
      unfold Review.max_dates_allowed in *. lia.
  - destruct (Re.search_group0 false (Py.U "20\d{2}") (get v "data"))
      as [[year_text |] |] eqn:Hx; cbn [mbind option_bind] in H;
      [| apply Hskip; exact H | discriminate].
    destruct (_ <? _)%N.
    + destruct (Py.contains_any _ _); [| apply Hskip; exact H].
      cbv zeta in H. eapply Hkeep; [exact H | |].
      * apply data_of_insert. discriminate.
      * exists year_text. unfold get. rewrite lookup_insert_ne by discriminate.
        exact Hx.
    + destruct (Review.search_any_cs _ _) as [is_historical |];
        cbn [mbind option_bind] in H; [| discriminate].
      destruct (_ && _); [apply Hskip; exact H |].
      cbv zeta in H. eapply Hkeep; [exact H | |].
      * destruct (Py.eqb _ _);
          rewrite ?data_of_insert by discriminate; reflexivity.
      * exists year_text. unfold get.
        destruct (Py.eqb _ _);
          rewrite ?lookup_insert_ne by discriminate; exact Hx.
Qed.

(** X18. The review of a non-empty list of effective dates returns the
    dates of a subsequence of it, each kept record being a span of years or
    showing a year of this century, and recomputes [count].  The cap of six
    records is tested only after a record of the second kind is kept, so
    the list may be longer than six by the number of spans of years given. *)
Theorem review_dates_spec :
  forall (year_now : nat) (dx dx' : DateExtraction),
    Review._review_dates year_now dx = Some dx' ->
    vigencias dx <> [] ->
    count dx' = length (vigencias dx')
    /\ sublist (List.map data_of (vigencias dx'))
               (List.map data_of (vigencias dx))
    /\ Forall (fun v => spans_years v = true \/ shows_year v) (vigencias dx')
    /\ (length (vigencias dx')
        <= 6 + length (List.filter spans_years (vigencias dx)))%nat
    /\ dx_known_law_key dx' = dx_known_law_key dx
    /\ (vigencias dx' = [] -> dates_text dx' = dates_text dx).
Proof.
  intros year_now dx dx' H Hne. unfold Review._review_dates in H.
  destruct (vigencias dx) as [| v tl] eqn:Ev; [contradiction |].
  destruct (Review.review_dates_loop year_now (v :: tl) []) as [cleaned |] eqn:E;
    cbn [mbind option_bind] in H; [| discriminate].
  apply review_dates_loop_spec in E as (kept & -> & Hs & Hf & Hl).
  cbn [app length] in Hl. unfold Review.max_dates_allowed in Hl.
  cbn [app] in H.
  destruct kept as [| k kept'].
  - cbn [Py.is_empty mbind option_bind] in H. injection H as <-.
    cbn [vigencias count dx_known_law_key dates_text length].
    repeat split; try assumption; try reflexivity; lia.
  - cbn [Py.is_empty] in H.
    destruct (DateExtraction.date_lines (k :: kept')) as [ls |];
      cbn [mbind option_bind] in H; [| discriminate].
    injection H as <-.
    cbn [vigencias count dx_known_law_key dates_text].
    repeat split; try assumption; try reflexivity; try discriminate; lia.
Qed.

(** The review of four dates: a span of years, a date of 2027, a date
    without a year of this century, and a date whose year 2030 ends in
    Arabic-Indic digits. *)
Lemma review_dates_spec_witness :
  let dx := {| dates_text := []; count := 0; dx_known_law_key := None;
               vigencias := [ Canned.date "5 anos" "prazo de permanência";
                              Canned.date "01/01/2027" "entra em vigor";
                              Canned.date "15/03/1998" "sem relação";
                              Canned.date "01/01/20٣٠" "prazo final" ] |} in
  exists dx',
    Review._review_dates 2025 dx = Some dx'
    /\ count dx' = length (vigencias dx')
    /\ List.map data_of (vigencias dx')
       = [Py.U "5 anos"; Py.U "01/01/2027"; Py.U "01/01/20٣٠"].
Proof.
  intros dx.
  destruct (is_some_of_bool (Review._review_dates 2025 dx)) as [dx' E];
    [vm_compute; reflexivity |].
  exists dx'. split; [exact E |].
  split; [refine (proj1 (review_dates_spec 2025 dx dx' E _)); discriminate |].
  assert (K : (List.map data_of ∘ vigencias) <$> Review._review_dates 2025 dx
              = Some [Py.U "5 anos"; Py.U "01/01/2027"; Py.U "01/01/20٣٠"])
    by (vm_compute; reflexivity).
  rewrite E in K. injection K as K. exact K.
Defined.

Lemma year_pattern_compiles : is_Some (Re.compile (Py.U "20\d{2}")).
Proof. vm_compute. eexists. reflexivity. Qed.

Lemma historical_patterns_compile :
  Forall (fun p => is_Some (Re.compile p)) Review.historical_patterns.
Proof.
  unfold Review.historical_patterns.
  repeat (constructor; [vm_compute; eexists; reflexivity |]). constructor.
Qed.

Lemma search_any_cs_total (patterns : list (list N)) (text : list N) :
  Forall (fun p => is_Some (Re.compile p)) patterns ->
  is_Some (Review.search_any_cs patterns text).
Proof.
  induction 1 as [| p ps [r Hr] _ IH]; cbn [Review.search_any_cs].
  - eauto.
  - unfold Re.search. rewrite Hr. cbn [mbind option_bind].
    destruct (bool_decide _); [eauto | exact IH].
Qed.

Lemma dated_insert (k : string) (x : list N) (v : dict) :
  dated v -> dated (<[k := x]> v).
Proof.
  intros [Hd Hc]. split.
  - destruct (decide (k = "data")) as [-> | Hk];
      [rewrite lookup_insert_eq; eauto | rewrite lookup_insert_ne by exact Hk; exact Hd].
  - destruct (decide (k = "contexto")) as [-> | Hk];
      [rewrite lookup_insert_eq; eauto | rewrite lookup_insert_ne by exact Hk; exact Hc].
Qed.

Lemma review_dates_loop_total (year_now : nat) (vigencias : list dict) :
  Forall dated vigencias ->
  forall cleaned,
    Forall dated cleaned ->
    exists out,
      Review.review_dates_loop year_now vigencias cleaned = Some out
      /\ Forall dated out.
Proof.
  induction 1 as [| v tl Hv _ IH]; intros cleaned Hc.
  { cbn. eauto. }
  rewrite review_dates_loop_step.
  assert (Hkeep : forall v',
             dated v' ->
             exists out,
               (if (Review.max_dates_allowed <=? length (cleaned ++ [v']))%nat
                then Some (cleaned ++ [v'])
                else Review.review_dates_loop year_now tl (cleaned ++ [v']))
               = Some out
               /\ Forall dated out).
  { intros v' Hv'.
    assert (Hc' : Forall dated (cleaned ++ [v']))
      by (apply Forall_app; split; [exact Hc | constructor; [exact Hv' | constructor]]).
    destruct (_ <=? _)%nat; [eauto | apply IH, Hc']. }
  destruct (spans_years v).
  - apply IH. apply Forall_app. split; [exact Hc |].
    constructor; [| constructor].
    destruct (Py.eqb _ _); [apply dated_insert |]; exact Hv.
  - unfold Re.search_group0. destruct year_pattern_compiles as [r ->].
    cbn [mbind option_bind].
    destruct (Re.search_span false r (get v "data")) as [[a b] |];
      [| apply IH, Hc].
    destruct (_ <? _)%N.
    + destruct (Py.contains_any _ _); [| apply IH, Hc].
      cbv zeta. apply Hkeep, dated_insert, Hv.
    + destruct (search_any_cs_total Review.historical_patterns
                  (Py.lower (get v "contexto")) historical_patterns_compile)
        as [h ->].
      cbn [mbind option_bind].
      destruct (_ && _); [apply IH, Hc |].
      cbv zeta. apply Hkeep.
      destruct (Py.eqb _ _); repeat apply dated_insert; exact Hv.
Qed.

(** X19. The review of the effective dates returns a result, with every
    record it keeps carrying its date and context, whenever every record
    given carries them: the patterns it searches with compile and no lookup
    raises. *)
Theorem review_dates_defined :
  forall (year_now : nat) (dx : DateExtraction),
    Forall dated (vigencias dx) ->
    exists dx',
      Review._review_dates year_now dx = Some dx'
      /\ Forall dated (vigencias dx').
Proof.
  intros year_now dx Hd. unfold Review._review_dates.
  destruct (vigencias dx) as [| v tl] eqn:Ev.
  { exists dx. rewrite Ev. split; [reflexivity | constructor]. }
  destruct (review_dates_loop_total year_now (v :: tl) Hd [])
    as (cleaned & -> & Hc); [constructor |].
  cbn [mbind option_bind].
  destruct cleaned as [| k kept]; cbn [Py.is_empty mbind option_bind].
  - eexists. split; [reflexivity | constructor].
  - destruct (date_lines_total (k :: kept) Hc) as [ls ->].
    cbn [mbind option_bind]. eexists. split; [reflexivity | exact Hc].
Qed.

Lemma review_dates_defined_witness :
  let dx := {| dates_text := []; count := 1; dx_known_law_key := None;
               vigencias := [ Canned.date "01/01/2027" "entra em vigor" ] |} in
  is_Some (Review._review_dates 2025 dx).
Proof.
  intros dx.
  destruct (review_dates_defined 2025 dx) as (dx' & -> & _); [| eauto].
  change (Forall dated [Canned.date "01/01/2027" "entra em vigor"]).
  constructor; [apply canned_date_dated | constructor].
Defined.

(** ** The review stage: the lines of the impact analysis *)

Lemma ii_pattern_compiles :
  is_Some (Re.compile (Py.U "\b(ii|imposto de importação)\b")).
Proof. vm_compute. eexists. reflexivity. Qed.

(** The key of a line, by the two taxes it may name together. *)
Lemma tributo_key_spec (s : list N) :
  exists r,
    Review.tributo_key_of s = Some r
    /\ (r = Some (Py.U "pis_cofins")
        <-> Py.contains (Py.U "pis") s = true
            /\ Py.contains (Py.U "cofins") s = true)
    /\ (r = Some (Py.U "pis")
        <-> Py.contains (Py.U "pis") s = true
            /\ Py.contains (Py.U "cofins") s = false)
    /\ (r = Some (Py.U "cofins")
        <-> Py.contains (Py.U "pis") s = false
            /\ Py.contains (Py.U "cofins") s = true).
Proof.
  assert (Hk : forall (x : option (list N)) (P C : bool),
             x <> Some (Py.U "pis_cofins") -> x <> Some (Py.U "pis") ->
             x <> Some (Py.U "cofins") -> P = false -> C = false ->
             (x = Some (Py.U "pis_cofins") <-> P = true /\ C = true)
             /\ (x = Some (Py.U "pis") <-> P = true /\ C = false)
             /\ (x = Some (Py.U "cofins") <-> P = false /\ C = true)).
  { intros x P C H1 H2 H3 -> ->.
    split; [| split]; (split; [intros Hx | intros [Ha Hb]]);
      first [contradiction | discriminate]. }
  unfold Review.tributo_key_of.
  destruct (Py.contains (Py.U "pis") s), (Py.contains (Py.U "cofins") s);
    cbn [andb].
  1-3: eexists; split; [reflexivity |];
    (split; [| split]; (split; [intros Hx | intros [Ha Hb]]));
    first [ reflexivity
          | split; reflexivity
          | discriminate Ha
          | discriminate Hb
          | vm_compute in Hx; discriminate Hx ].
  unfold Re.search. destruct ii_pattern_compiles as [r ->].
  cbn [mbind option_bind].
  repeat match goal with
         | |- context [if ?b then _ else _] => destruct b
         end;
    eexists; (split; [reflexivity |]);
    apply Hk; try reflexivity; intros Hx; vm_compute in Hx; discriminate Hx.
Qed.

Lemma line_key_spec (line : list N) :
  Review.tributo_key_of (Py.lower line) = Some (line_key line)
  /\ (line_key line = Some (Py.U "pis")
      <-> Py.contains (Py.U "pis") (Py.lower line) = true
          /\ Py.contains (Py.U "cofins") (Py.lower line) = false)
  /\ (line_key line = Some (Py.U "cofins")
      <-> Py.contains (Py.U "pis") (Py.lower line) = false
          /\ Py.contains (Py.U "cofins") (Py.lower line) = true).
Proof.
  unfold line_key.
  destruct (tributo_key_spec (Py.lower line)) as (r & -> & _ & Hp & Hc).
  cbn [default]. auto.
Qed.

(** The two filters of the loop remove the lines filed under one of the
    two taxes alone. *)
Lemma filter_pis_alone (l : list (list N)) :
  List.filter
    (fun l => negb (Py.contains (Py.U "pis") (Py.lower l)
                    && negb (Py.contains (Py.U "cofins") (Py.lower l)))) l
  = List.filter (fun l => negb (has_key (Some (Py.U "pis")) l)) l.
Proof.
  apply List.filter_ext. intros line. f_equal. unfold has_key.
  destruct (line_key_spec line) as (_ & Hp & _).
  destruct (bool_decide (line_key line = Some (Py.U "pis"))) eqn:E.
  - apply bool_decide_eq_true in E. apply Hp in E as [-> ->]. reflexivity.
  - apply bool_decide_eq_false in E.
    destruct (Py.contains (Py.U "pis") (Py.lower line)),
      (Py.contains (Py.U "cofins") (Py.lower line)); try reflexivity.
    exfalso. apply E, Hp. auto.
Qed.

Lemma filter_cofins_alone (l : list (list N)) :
  List.filter
    (fun l => negb (Py.contains (Py.U "cofins") (Py.lower l)
                    && negb (Py.contains (Py.U "pis") (Py.lower l)))) l
  = List.filter (fun l => negb (has_key (Some (Py.U "cofins")) l)) l.
Proof.
  apply List.filter_ext. intros line. f_equal. unfold has_key.
  destruct (line_key_spec line) as (_ & _ & Hc).
  destruct (bool_decide (line_key line = Some (Py.U "cofins"))) eqn:E.
  - apply bool_decide_eq_true in E. apply Hc in E as [-> ->]. reflexivity.
  - apply bool_decide_eq_false in E.
    destruct (Py.contains (Py.U "pis") (Py.lower line)),
      (Py.contains (Py.U "cofins") (Py.lower line)); try reflexivity.
    exfalso. apply E, Hc. auto.
Qed.

(** One turn of the loop, by the key of the line. *)
Lemma dedupe_lines_step (line : list N) (tl seen dedup : list (list N)) :
  Review.dedupe_lines (line :: tl) seen dedup
  = match line_key line with
    | None => Review.dedupe_lines tl seen (dedup ++ [line])
    | Some k =>
        if Py.eqb k (Py.U "pis_cofins") then
          let seen1 :=
            if bool_decide (Py.U "pis" ∈ seen)
            then Review.without (Py.U "pis") seen else seen in
          let kept1 :=
            if bool_decide (Py.U "pis" ∈ seen)
            then List.filter (fun l => negb (has_key (Some (Py.U "pis")) l)) dedup
            else dedup in
          let seen2 :=
            if bool_decide (Py.U "cofins" ∈ seen1)
            then Review.without (Py.U "cofins") seen1 else seen1 in
          let kept2 :=
            if bool_decide (Py.U "cofins" ∈ seen1)
            then List.filter (fun l => negb (has_key (Some (Py.U "cofins")) l))
                             kept1
            else kept1 in
          Review.dedupe_lines tl (Py.U "pis_cofins" :: seen2) (kept2 ++ [line])
        else if bool_decide (Py.U "pis_cofins" ∈ seen)
                && (Py.eqb k (Py.U "pis") || Py.eqb k (Py.U "cofins"))
                || bool_decide (k ∈ seen)
        then Review.dedupe_lines tl seen dedup
        else Review.dedupe_lines tl (k :: seen) (dedup ++ [line])
    end.
Proof.
  cbn [Review.dedupe_lines].
  destruct (line_key_spec line) as (-> & _ & _). cbn [mbind option_bind].
  destruct (line_key line) as [k |]; [| reflexivity].
  destruct (Py.eqb k (Py.U "pis_cofins")).
  - rewrite <- !filter_pis_alone, <- !filter_cofins_alone.
    destruct (bool_decide (Py.U "pis" ∈ seen));
      match goal with
      | |- context [bool_decide (Py.U "cofins" ∈ ?s)] =>
          destruct (bool_decide (Py.U "cofins" ∈ s))
      end; reflexivity.
  - destruct (Py.eqb k (Py.U "pis") || Py.eqb k (Py.U "cofins"));
      destruct (bool_decide (Py.U "pis_cofins" ∈ seen));
      destruct (bool_decide (k ∈ seen)); reflexivity.
Qed.

Lemma filter_absorb {A} (f g : A -> bool) (l : list A) :
  (forall a, f a = true -> g a = true) ->
  List.filter f (List.filter g l) = List.filter f l.
Proof.
  intros H. induction l as [| a l IH]; [reflexivity |]. cbn [List.filter].
  destruct (g a) eqn:Eg; cbn [List.filter].
  - rewrite IH. reflexivity.
  - destruct (f a) eqn:Ef; [| exact IH].
    apply H in Ef. congruence.
Qed.

Lemma filter_disjoint {A} (f g : A -> bool) (l : list A) :
  (forall a, f a = true -> g a = false) ->
  List.filter f (List.filter g l) = [].
Proof.
  intros H. induction l as [| a l IH]; [reflexivity |]. cbn [List.filter].
  destruct (g a) eqn:Eg; cbn [List.filter]; [| exact IH].
  destruct (f a) eqn:Ef; [| exact IH].
  apply H in Ef. congruence.
Qed.

Lemma filter_filter_nil {A} (f g : A -> bool) (l : list A) :
  List.filter f l = [] -> List.filter f (List.filter g l) = [].
Proof.
  induction l as [| a l IH]; [reflexivity |]. cbn [List.filter].
  destruct (f a) eqn:Ef; [discriminate |]. intros H.
  destruct (g a); cbn [List.filter]; [rewrite Ef |]; apply IH, H.
Qed.

Lemma filter_sublist {A} (f : A -> bool) (l : list A) :
  sublist (List.filter f l) l.
Proof.
  induction l as [| a l IH]; [constructor |]. cbn [List.filter].
  destruct (f a); [apply sublist_skip | apply sublist_cons]; exact IH.
Qed.

Lemma has_key_other (x y : option (list N)) (line : list N) :
  has_key x line = true -> x <> y -> has_key y line = false.
Proof.
  unfold has_key. intros H Hxy. apply bool_decide_eq_true in H.
  apply bool_decide_eq_false. congruence.
Qed.

Lemma elem_of_without (k x : list N) (l : list (list N)) :
  k ∈ Review.without x l <-> k ∈ l /\ k <> x.
Proof.
  unfold Review.without. rewrite !list_elem_of_In, filter_In.
  unfold Py.eqb. split; intros [H1 H2]; (split; [exact H1 |]).
  - apply negb_true_iff, bool_decide_eq_false in H2. congruence.
  - apply negb_true_iff, bool_decide_eq_false. congruence.
Qed.

Lemma firstn_one_app {A} (l r : list A) :
  (length l <= 1)%nat -> l <> [] -> firstn 1 (l ++ r) = l.
Proof.
  destruct l as [| a [| b l]]; cbn [length]; intros Hl Hn;
    [contradiction | reflexivity | lia].
Qed.

Lemma filter_key_snoc (x : option (list N)) (dedup : list (list N))
      (line : list N) :
  List.filter (has_key x) (dedup ++ [line])
  = List.filter (has_key x) dedup ++ (if has_key x line then [line] else []).
Proof. rewrite List.filter_app. cbn [List.filter]. reflexivity. Qed.

(** The combined key: what the two filters leave. *)
Lemma dedupe_combined (seen dedup : list (list N)) :
  dedupe_inv seen dedup ->
  let seen1 :=
    if bool_decide (Py.U "pis" ∈ seen)
    then Review.without (Py.U "pis") seen else seen in
  let kept1 :=
    if bool_decide (Py.U "pis" ∈ seen)
    then List.filter (fun l => negb (has_key (Some (Py.U "pis")) l)) dedup
    else dedup in
  let seen2 :=
    if bool_decide (Py.U "cofins" ∈ seen1)
    then Review.without (Py.U "cofins") seen1 else seen1 in
  let kept2 :=
    if bool_decide (Py.U "cofins" ∈ seen1)
    then List.filter (fun l => negb (has_key (Some (Py.U "cofins")) l)) kept1
    else kept1 in
  (forall k, k ∈ seen2 <-> k ∈ seen /\ k <> Py.U "pis" /\ k <> Py.U "cofins")
  /\ sublist kept2 dedup
  /\ (forall x, x <> Some (Py.U "pis") -> x <> Some (Py.U "cofins") ->
                List.filter (has_key x) kept2 = List.filter (has_key x) dedup)
  /\ List.filter (has_key (Some (Py.U "pis"))) kept2 = []
  /\ List.filter (has_key (Some (Py.U "cofins"))) kept2 = [].
Proof.
  intros (I1 & _ & _) seen1 kept1 seen2 kept2.
  assert (Hpc : Py.U "pis" <> Py.U "cofins") by (vm_compute; discriminate).
  assert (Hp : Py.U "pis" <> Py.U "pis_cofins") by (vm_compute; discriminate).
  assert (Hc : Py.U "cofins" <> Py.U "pis_cofins") by (vm_compute; discriminate).
  assert (S1 : forall k, k ∈ seen1 <-> k ∈ seen /\ k <> Py.U "pis").
  { intros k. subst seen1. case_bool_decide as E.
    - apply elem_of_without.
    - split; [intros H; split; [exact H | congruence] | tauto]. }
  assert (S2 : forall k, k ∈ seen2
                         <-> k ∈ seen /\ k <> Py.U "pis" /\ k <> Py.U "cofins").
  { intros k. subst seen2. case_bool_decide as E.
    - rewrite elem_of_without, S1. tauto.
    - rewrite S1. split; [| tauto].
      intros [H1 H2]. split; [exact H1 |]. split; [exact H2 |].
      intros ->. apply E, S1. auto. }
  assert (K1 : sublist kept1 dedup
               /\ (forall x, x <> Some (Py.U "pis") ->
                             List.filter (has_key x) kept1
                             = List.filter (has_key x) dedup)
               /\ List.filter (has_key (Some (Py.U "pis"))) kept1 = []).
  { subst kept1. case_bool_decide as E.
    - split; [apply filter_sublist |]. split.
      + intros x Hx. apply filter_absorb. intros a Ha.
        rewrite (has_key_other x _ a Ha Hx). reflexivity.
      + apply filter_disjoint. intros a Ha. rewrite Ha. reflexivity.
    - split; [reflexivity |]. split; [reflexivity |].
      destruct (List.filter (has_key (Some (Py.U "pis"))) dedup) eqn:Ef;
        [reflexivity |].
      exfalso. apply E, (I1 _ Hp). rewrite Ef. discriminate. }
  destruct K1 as (K1a & K1b & K1c).
  split; [exact S2 |].
  subst kept2. case_bool_decide as E.
  - split; [etransitivity; [apply filter_sublist | exact K1a] |]. split.
    + intros x Hx1 Hx2. rewrite <- (K1b x Hx1). apply filter_absorb.
      intros a Ha. rewrite (has_key_other x _ a Ha Hx2). reflexivity.
    + split.
      * apply filter_filter_nil, K1c.
      * apply filter_disjoint. intros a Ha. rewrite Ha. reflexivity.
  - split; [exact K1a |]. split; [intros x Hx1 _; apply K1b, Hx1 |].
    split; [exact K1c |].
    rewrite K1b by congruence.
    destruct (List.filter (has_key (Some (Py.U "cofins"))) dedup) eqn:Ef;
      [reflexivity |].
    exfalso. apply E, S1. split; [| congruence].
    apply (I1 _ Hc). rewrite Ef. discriminate.
Qed.

Lemma firstn_one_short {A} (l : list A) :
  (length l <= 1)%nat -> firstn 1 l = l.
Proof. destruct l as [| a [| b l]]; cbn [length]; intros; [reflexivity .. | lia]. Qed.

Lemma filter_nil_not_seen (seen dedup : list (list N)) (k : list N) :
  dedupe_inv seen dedup -> k <> Py.U "pis_cofins" -> ~ k ∈ seen ->
  List.filter (has_key (Some k)) dedup = [].
Proof.
  intros (I1 & _ & _) Hk Hn.
  destruct (List.filter (has_key (Some k)) dedup) eqn:E; [reflexivity |].
  exfalso. apply Hn, (I1 k Hk). rewrite E. discriminate.
Qed.

Lemma filter_one_seen (seen dedup : list (list N)) (k : list N) (r r' : list (list N)) :
  dedupe_inv seen dedup -> k <> Py.U "pis_cofins" -> k ∈ seen ->
  firstn 1 (List.filter (has_key (Some k)) dedup ++ r)
  = firstn 1 (List.filter (has_key (Some k)) dedup ++ r').
Proof.
  intros (I1 & I2 & _) Hk Hs.
  rewrite !firstn_one_app; try reflexivity; try apply (I2 k Hk);
    apply (I1 k Hk), Hs.
Qed.

Section Dedupe.

Local Abbreviation PC := (Py.U "pis_cofins").
Local Abbreviation P := (Py.U "pis").
Local Abbreviation C := (Py.U "cofins").

(** The loop of [_deduplicate_tributos], from any state that satisfies its
    invariant. *)
Lemma dedupe_lines_spec (lines : list (list N)) :
  forall seen dedup,
    dedupe_inv seen dedup ->
    exists out,
      Review.dedupe_lines lines seen dedup = Some out
      /\ sublist out (dedup ++ lines)
      /\ (forall x, x = None \/ x = Some PC ->
                    List.filter (has_key x) out
                    = List.filter (has_key x) (dedup ++ lines))
      /\ (forall k, k <> PC -> k <> P -> k <> C ->
                    List.filter (has_key (Some k)) out
                    = firstn 1 (List.filter (has_key (Some k)) (dedup ++ lines)))
      /\ (forall k, k = P \/ k = C ->
                    List.filter (has_key (Some k)) out
                    = if bool_decide (PC ∈ seen)
                         || existsb (has_key (Some PC)) lines
                      then []
                      else firstn 1 (List.filter (has_key (Some k))
                                                 (dedup ++ lines))).
Proof.
  assert (Hpc : P <> C) by (vm_compute; discriminate).
  assert (Hp : P <> PC) by (vm_compute; discriminate).
  assert (Hc : C <> PC) by (vm_compute; discriminate).
  induction lines as [| line tl IH]; intros seen dedup Hinv.
  { exists dedup. split; [reflexivity |]. rewrite app_nil_r.
    split; [reflexivity |]. split; [reflexivity |].
    pose proof Hinv as (I1 & I2 & I3). split.
    - intros k Hk _ _. symmetry. apply firstn_one_short, I2, Hk.
    - intros k Hk. cbn [existsb]. rewrite orb_false_r.
      assert (Hk' : k <> PC) by (destruct Hk as [-> | ->]; assumption).
      case_bool_decide as E.
      + apply (filter_nil_not_seen seen dedup k); [exact Hinv | exact Hk' |].
        destruct (I3 E) as [H1 H2]. destruct Hk as [-> | ->]; assumption.
      + symmetry. apply firstn_one_short, I2, Hk'. }
  rewrite dedupe_lines_step.
  destruct (line_key line) as [k' |] eqn:Ek.
  2:{ (* a line that names no tax *)
      assert (Hh : forall x, x <> None -> has_key x line = false).
      { intros x Hx. unfold has_key. rewrite Ek.
        apply bool_decide_eq_false. congruence. }
      assert (Hf : forall k, List.filter (has_key (Some k)) (dedup ++ [line])
                             = List.filter (has_key (Some k)) dedup).
      { intros k. rewrite filter_key_snoc, Hh by discriminate.
        apply app_nil_r. }
      destruct (IH seen (dedup ++ [line])) as (out & -> & Ha & Hb & Hd & He).
      { destruct Hinv as (I1 & I2 & I3).
        split; [| split; [| exact I3]]; intros k Hk; rewrite Hf;
          [apply I1 | apply I2]; exact Hk. }
      rewrite <- app_assoc in Ha, Hb, Hd, He. cbn [app] in Ha, Hb, Hd, He.
      exists out. split; [reflexivity |]. split; [exact Ha |].
      split; [exact Hb |]. split; [exact Hd |].
      intros k Hk. rewrite (He k Hk). cbn [existsb].
      rewrite (Hh (Some PC)) by discriminate. reflexivity. }
  assert (Hh : forall x, has_key x line = bool_decide (Some k' = x)).
  { intros x. unfold has_key. rewrite Ek. reflexivity. }
  unfold Py.eqb at 1. case_bool_decide as Epc.
  - (* a line that names the two taxes together *)
    subst k'. cbv zeta.
    destruct (dedupe_combined seen dedup Hinv) as (S2 & Ksub & Kf & Kp & Kc).
    cbv zeta in S2, Ksub, Kf, Kp, Kc.
    set (seen2 := if bool_decide (C ∈ _) then Review.without C _ else _) in *.
    set (kept2 := if bool_decide (C ∈ _) then List.filter _ _ else _) in *.
    clearbody seen2 kept2.
    assert (Hf : forall k, k <> PC ->
                           List.filter (has_key (Some k)) (kept2 ++ [line])
                           = List.filter (has_key (Some k)) kept2).
    { intros k Hk. rewrite filter_key_snoc, Hh.
      rewrite bool_decide_eq_false_2 by congruence. apply app_nil_r. }
    destruct Hinv as (I1 & I2 & I3).
    destruct (IH (PC :: seen2) (kept2 ++ [line]))
      as (out & -> & Ha & Hb & Hd & He).
    { split; [| split].
      - intros k Hk. rewrite (Hf k Hk), elem_of_cons, S2.
        destruct (decide (k = P)) as [-> | HkP];
          [rewrite Kp; split; [intros [? | (_ & ? & _)]; congruence | congruence] |].
        destruct (decide (k = C)) as [-> | HkC];
          [rewrite Kc; split; [intros [? | (_ & _ & ?)]; congruence | congruence] |].
        rewrite Kf by congruence. rewrite <- (I1 k Hk). 
        split; [intros [? | (? & _)]; [congruence | assumption] | auto].
      - intros k Hk. rewrite (Hf k Hk).
        destruct (decide (k = P)) as [-> | HkP]; [rewrite Kp; cbn; lia |].
        destruct (decide (k = C)) as [-> | HkC]; [rewrite Kc; cbn; lia |].
        rewrite Kf by congruence. apply I2, Hk.
      - intros _. rewrite !elem_of_cons, !S2. split.
        + intros [? | (_ & ? & _)]; congruence.
        + intros [? | (_ & _ & ?)]; congruence. }
    rewrite <- app_assoc in Ha, Hb, Hd, He. cbn [app] in Ha, Hb, Hd, He.
    exists out. split; [reflexivity |]. split.
    { etransitivity; [exact Ha |]. apply sublist_app; [exact Ksub | reflexivity]. }
    split.
    { intros x Hx. rewrite (Hb x Hx), !List.filter_app.
      rewrite Kf by (destruct Hx as [-> | ->]; congruence). reflexivity. }
    split.
    { intros k H1 H2 H3. rewrite (Hd k H1 H2 H3), !List.filter_app.
      rewrite Kf by congruence. reflexivity. }
    intros k Hk. rewrite (He k Hk).
    rewrite bool_decide_eq_true_2 by (apply elem_of_cons; auto).
    cbn [existsb orb]. rewrite Hh.
    rewrite (bool_decide_eq_true_2 (Some PC = Some PC)) by reflexivity.
    cbn [orb]. rewrite orb_true_r. reflexivity.
  - (* a line that names one tax *)
    assert (HhPC : has_key (Some PC) line = false).
    { rewrite Hh. apply bool_decide_eq_false. congruence. }
    assert (HhN : has_key None line = false).
    { rewrite Hh. apply bool_decide_eq_false. congruence. }
    assert (Hother : forall k, k <> k' ->
                               List.filter (has_key (Some k)) (line :: tl)
                               = List.filter (has_key (Some k)) tl).
    { intros k Hk. cbn [List.filter]. rewrite Hh.
      rewrite bool_decide_eq_false_2 by congruence. reflexivity. }
    assert (Hsame : List.filter (has_key (Some k')) (line :: tl)
                    = line :: List.filter (has_key (Some k')) tl).
    { cbn [List.filter]. rewrite Hh.
      rewrite bool_decide_eq_true_2 by reflexivity. reflexivity. }
    destruct (bool_decide (PC ∈ seen) && (Py.eqb k' P || Py.eqb k' C)
              || bool_decide (k' ∈ seen)) eqn:Eskip.
    + (* the line is dropped *)
      destruct (IH seen dedup Hinv) as (out & -> & Ha & Hb & Hd & He).
      exists out. split; [reflexivity |]. split.
      { etransitivity; [exact Ha |].
        apply sublist_app; [reflexivity | apply sublist_cons; reflexivity]. }
      split.
      { intros x Hx. rewrite (Hb x Hx), !List.filter_app. cbn [List.filter].
        destruct Hx as [-> | ->]; [rewrite HhN | rewrite HhPC]; reflexivity. }
      split.
      { intros k H1 H2 H3. rewrite (Hd k H1 H2 H3), !List.filter_app.
        destruct (decide (k = k')) as [-> | Hk];
          [| rewrite (Hother k Hk); reflexivity].
        apply (filter_one_seen seen dedup k'); [exact Hinv | exact H1 |].
        apply orb_true_iff in Eskip as [Es | Es].
        - apply andb_true_iff in Es as [_ Es]. unfold Py.eqb in Es.
          apply orb_true_iff in Es as [Es | Es];
            apply bool_decide_eq_true in Es; congruence.
        - apply bool_decide_eq_true in Es. exact Es. }
      intros k Hk. rewrite (He k Hk). cbn [existsb]. rewrite HhPC. cbn [orb].
      case_bool_decide as Eseen; cbn [orb]; [reflexivity |].
      destruct (existsb (has_key (Some PC)) tl); [reflexivity |].
      rewrite !List.filter_app.
      destruct (decide (k = k')) as [-> | Hkk];
        [| rewrite (Hother k Hkk); reflexivity].
      apply (filter_one_seen seen dedup k'); [exact Hinv | exact Epc |].
      cbn [andb orb] in Eskip. apply bool_decide_eq_true in Eskip. exact Eskip.
    + (* the line is kept *)
      apply orb_false_iff in Eskip as [Es1 Es2].
      apply bool_decide_eq_false in Es2.
      assert (Hf : forall k, k <> k' ->
                             List.filter (has_key (Some k)) (dedup ++ [line])
                             = List.filter (has_key (Some k)) dedup).
      { intros k Hk. rewrite filter_key_snoc, Hh.
        rewrite bool_decide_eq_false_2 by congruence. apply app_nil_r. }
      assert (Hf' : List.filter (has_key (Some k')) (dedup ++ [line]) = [line]).
      { rewrite filter_key_snoc, Hh.
        rewrite bool_decide_eq_true_2 by reflexivity.
        rewrite (filter_nil_not_seen seen dedup k' Hinv Epc Es2). reflexivity. }
      pose proof Hinv as (I1 & I2 & I3).
      destruct (IH (k' :: seen) (dedup ++ [line]))
        as (out & -> & Ha & Hb & Hd & He).
      { split; [| split].
        - intros k Hk. rewrite elem_of_cons.
          destruct (decide (k = k')) as [-> | Hkk].
          + rewrite Hf'. split; [discriminate | auto].
          + rewrite (Hf k Hkk), <- (I1 k Hk).
            split; [intros [? | ?]; [contradiction | assumption] | auto].
        - intros k Hk. destruct (decide (k = k')) as [-> | Hkk].
          + rewrite Hf'. cbn. lia.
          + rewrite (Hf k Hkk). apply I2, Hk.
        - rewrite !elem_of_cons. intros [? | Hin]; [congruence |].
          destruct (I3 Hin) as [H1 H2].
          rewrite bool_decide_eq_true_2 in Es1 by exact Hin.
          cbn [andb] in Es1. apply orb_false_iff in Es1 as [E1 E2].
          unfold Py.eqb in E1, E2.
          apply bool_decide_eq_false in E1, E2.
          split; intros [? | ?]; congruence. }
      rewrite <- app_assoc in Ha, Hb, Hd, He. cbn [app] in Ha, Hb, Hd, He.
      exists out. split; [reflexivity |]. split; [exact Ha |].
      split; [exact Hb |]. split; [exact Hd |].
      intros k Hk. rewrite (He k Hk). cbn [existsb]. rewrite HhPC. cbn [orb].
      replace (bool_decide (PC ∈ k' :: seen)) with (bool_decide (PC ∈ seen));
        [reflexivity |].
      apply bool_decide_ext. rewrite elem_of_cons.
      split; [auto | intros [? | ?]; [congruence | assumption]].
Qed.

End Dedupe.

(** X27. The de-duplication of the tax lines never raises and returns a
    subsequence of the stripped, non-empty lines of the text.  The lines
    that name no tax and the lines that name PIS and COFINS together are all
    kept; of the lines filed under any other tax only the first is kept; and
    a line about PIS alone or COFINS alone is kept only when no line names
    the two together. *)
Theorem dedupe_keeps_one_line_per_tax :
  forall tributos_text : list N,
    let lines :=
      List.filter (fun l => negb (Py.eqb l []))
                  (List.map Py.strip (Py.split_on 10 tributos_text)) in
    exists kept,
      Review.dedupe_lines lines [] [] = Some kept
      /\ (tributos_text <> [] ->
          Review._deduplicate_tributos tributos_text
          = Some (Py.join [10] kept))
      /\ sublist kept lines
      /\ List.filter (has_key None) kept = List.filter (has_key None) lines
      /\ List.filter (has_key (Some (Py.U "pis_cofins"))) kept
         = List.filter (has_key (Some (Py.U "pis_cofins"))) lines
      /\ (forall k,
             k <> Py.U "pis_cofins" -> k <> Py.U "pis" -> k <> Py.U "cofins" ->
             List.filter (has_key (Some k)) kept
             = firstn 1 (List.filter (has_key (Some k)) lines))
      /\ (forall k,
             k = Py.U "pis" \/ k = Py.U "cofins" ->
             List.filter (has_key (Some k)) kept
             = if existsb (has_key (Some (Py.U "pis_cofins"))) lines then []
               else firstn 1 (List.filter (has_key (Some k)) lines)).
Proof.
  intros text lines.
  destruct (dedupe_lines_spec lines [] []) as (kept & Hk & Ha & Hb & Hd & He).
  { split; [| split].
    - intros k _. cbn [List.filter]. split; [intros H | congruence].
      apply elem_of_nil in H. contradiction.
    - intros k _. cbn. lia.
    - intros H. apply elem_of_nil in H. contradiction. }
  cbn [app] in Ha, Hb, Hd, He.
  exists kept. split; [exact Hk |]. split.
  { intros Hne. unfold Review._deduplicate_tributos. unfold Py.eqb at 1.
    rewrite bool_decide_eq_false_2 by exact Hne.
    fold lines. rewrite Hk. reflexivity. }
  split; [exact Ha |]. split; [apply Hb; auto |]. split; [apply Hb; auto |].
  split; [exact Hd |].
  intros k Hkk. rewrite (He k Hkk).
  rewrite bool_decide_eq_false_2 by (intros H; apply elem_of_nil in H; exact H).
  reflexivity.
Qed.

(** ** The orchestrator: the order of the stages *)

Lemma run_from_input_order (env : Env) (state0 : State)
      (trace : list (Workflow.node * State)) (out : Workflow.outcome) :
  Workflow.run_from env 14 Workflow.input state0 = (trace, out) ->
  exists with_enhance,
    Workflow.nodes_of trace `prefix_of` stage_order with_enhance
    /\ match out with
       | Workflow.Completed final =>
           Workflow.nodes_of trace = stage_order with_enhance
           /\ workflow_complete final = true
       | Workflow.Raised n before =>
           Workflow.exec env n before = None
           /\ List.last trace (Workflow.input, state0) = (n, before)
       | Workflow.Unfinished => False
       end.
Proof.
  intros H.
  cbn [Workflow.run_from Workflow.exec Workflow.next Workflow.validate_stage
       Structure.process validation_results set_validation_results
       set_structured_data needs_enhancement] in H.
  run_cases H.
  all: first
         [ exists true; split;
           [ eexists; cbn [Workflow.nodes_of List.map fst app stage_order];
             reflexivity |]
         | exists false; split;
           [ eexists; cbn [Workflow.nodes_of List.map fst app stage_order];
             reflexivity |] ].
  all: lazymatch goal with
       | |- _ /\ workflow_complete _ = true =>
           split;
           [ cbn [Workflow.nodes_of List.map fst app stage_order]; reflexivity |];
           match goal with
           | E : Workflow.assemble_stage _ _ = Some _ |- _ =>
               unfold Workflow.assemble_stage in E; bind_inv E;
               injection E as <-; reflexivity
           end
       | |- Workflow.exec _ _ _ = None /\ _ =>
           split; [cbn [Workflow.exec]; assumption |];
           cbn [List.last]; reflexivity
       end.
Qed.

(** X20. A run raises [ValueError] before any stage exactly when neither a
    query nor a URL is given.  Otherwise it executes the stages in the order
    of the graph, each once at most and the enhancement optionally, and it
    ends in one of two ways: with the report, after every stage, or at the
    stage whose collaborator raised. *)
Theorem run_follows_the_graph :
  forall (env : Env) (query url : list N) (urls : list (list N)),
    match Workflow.run env query url urls with
    | None => query = [] /\ url = [] /\ urls = []
    | Some (trace, out) =>
        (query <> [] \/ url <> [] \/ urls <> [])
        /\ exists with_enhance,
            Workflow.nodes_of trace `prefix_of` stage_order with_enhance
            /\ match out with
               | Workflow.Completed final =>
                   Workflow.nodes_of trace = stage_order with_enhance
                   /\ workflow_complete final = true
               | Workflow.Raised n before =>
                   Workflow.exec env n before = None
                   /\ exists s0, List.last trace (Workflow.input, s0)
                                 = (n, before)
               | Workflow.Unfinished => False
               end
    end.
Proof.
  intros env query url urls. unfold Workflow.run.
  set (url_list := if negb (Py.is_empty urls) then urls
                   else if negb (Py.eqb url []) then [url] else []).
  assert (Hl : Py.is_empty url_list = true -> url = [] /\ urls = []).
  { subst url_list. destruct urls as [| u urls']; [| discriminate].
    cbn [Py.is_empty negb]. unfold Py.eqb.
    destruct (bool_decide (url = [])) eqn:Eu; [| discriminate].
    apply bool_decide_eq_true in Eu. auto. }
  assert (Hl' : Py.is_empty url_list = false -> url <> [] \/ urls <> []).
  { subst url_list. destruct urls as [| u urls']; [| right; discriminate].
    cbn [Py.is_empty negb]. unfold Py.eqb.
    destruct (bool_decide (url = [])) eqn:Eu; [discriminate |].
    apply bool_decide_eq_false in Eu. auto. }
  clearbody url_list.
  destruct (Py.eqb query [] && Py.is_empty url_list) eqn:B.
  - apply andb_true_iff in B as [Bq Bl].
    apply bool_decide_eq_true in Bq. destruct (Hl Bl). auto.
  - cbv beta iota zeta.
    destruct (Workflow.run_from env 14 Workflow.input _) as [trace out] eqn:E.
    split.
    + apply andb_false_iff in B as [Bq | Bl].
      * left. apply bool_decide_eq_false in Bq. exact Bq.
      * right. apply Hl', Bl.
    + destruct (run_from_input_order _ _ _ _ E) as (b & Hp & Ho).
      exists b. split; [exact Hp |].
      destruct out; [exact Ho | | exact Ho].
      split; [apply Ho | eexists; apply Ho].
Qed.

(** ** The orchestrator: what each stage writes *)

Lemma set_same (s : State) :
  set_validation_status (validation_status s)
    (set_date_extraction (date_extraction s)
       (set_system_changes (system_changes s) s)) = s.
Proof. destruct s; reflexivity. Qed.

Lemma validate_shape (generate : Validation.Generate) (state state' : State) :
  Validation.validate generate state = Some state' ->
  exists sc dx vs,
    state' = set_validation_status vs
               (set_date_extraction dx (set_system_changes sc state)).
Proof.
  intros H.
  destruct (validate_inv _ _ _ H)
    as [[_ ->] | (_ & st1 & c1 & e & st3 & H1 & H3 & ->)].
  { eexists _, _, _. symmetry. apply set_same. }
  set (text := Validation._get_original_text state) in *.
  pose proof (escalate_frame generate text e st1 c1) as [F1 _].
  cbv zeta in F1.
  set (st2 := fst (Validation.escalate generate text e st1 c1)) in *.
  assert (R : st1 = set_system_changes (system_changes st1) state).
  { unfold Validation.validate_changes in H1.
    destruct (system_changes state) as [sc |] eqn:Esc.
    - bind_inv H1. destruct p as [[l1 c] e1]. injection H1 as <- <- <-.
      reflexivity.
    - injection H1 as <- <- <-. destruct state; cbn in *. rewrite Esc.
      reflexivity. }
  assert (R2 : st2 = set_system_changes (system_changes st2) state).
  { transitivity (set_system_changes (system_changes st2) st1).
    - rewrite <- F1. destruct st2; reflexivity.
    - rewrite R. reflexivity. }
  unfold Validation.validate_dates in H3.
  destruct (date_extraction st2) as [dx |] eqn:Edx.
  - bind_inv H3. injection H3 as <-. rewrite R2.
    eexists _, _, _. reflexivity.
  - injection H3 as <-. exists (system_changes st2), None, (Some (Validation.status_of (snd (Validation.escalate generate text e st1 c1)) e)).
    rewrite R2 at 1. f_equal.
    rewrite R2 in Edx. cbn [date_extraction set_system_changes] in Edx.
    destruct state; cbn in *. rewrite Edx. reflexivity.
Qed.

Lemma review_shape (env : Env) (state state' : State) :
  Review.review env state = Some state' ->
  exists dx sc ia,
    state' = set_impact_analysis ia
               (set_system_changes sc (set_date_extraction dx state)).
Proof.
  unfold Review.review. intros H.
  destruct (match date_extraction state with
            | Some dx => _ | None => Some state end) as [s1 |] eqn:E1;
    cbn [mbind option_bind] in H; [| discriminate].
  assert (H1 : exists dx, s1 = set_date_extraction dx state).
  { destruct (date_extraction state) as [dx |] eqn:Ed.
    - bind_inv E1. injection E1 as <-. eauto.
    - injection E1 as <-. exists None. destruct state; cbn in *.
      rewrite Ed. reflexivity. }
  destruct H1 as [dx ->].
  destruct (match system_changes (set_date_extraction dx state) with
            | Some sc => _ | None => Some _ end) as [s2 |] eqn:E2;
    cbn [mbind option_bind] in H; [| discriminate].
  assert (H2 : exists sc, s2 = set_system_changes sc (set_date_extraction dx state)).
  { destruct (system_changes (set_date_extraction dx state)) as [sc |] eqn:Es.
    - bind_inv E2. injection E2 as <-. eauto.
    - injection E2 as <-. exists None. destruct state; cbn in *.
      rewrite Es. reflexivity. }
  destruct H2 as [sc ->].
  destruct (bool_decide _).
  - injection H as <-. exists dx, sc, (impact_analysis state).
    destruct state; reflexivity.
  - bind_inv H. injection H as <-. eauto.
Qed.

Lemma detect_type_shape (env : Env) (s : State) :
  exists leg_type key,
    Workflow.detect_type_stage env s
    = set_known_law_key key (set_legislation_type leg_type s).
Proof.
  unfold Workflow.detect_type_stage.
  destruct (web_results s) as [| first rest].
  - exists (Py.U "default"), (known_law_key s). destruct s; reflexivity.
  - destruct (KB.detect_known_legislation _ _ _); [eauto |].
    match goal with
    | |- context [set_legislation_type ?leg_type s] =>
        exists leg_type, (known_law_key s)
    end.
    destruct s; reflexivity.
Qed.

(** X21. Which stage can change which key of the state.  The query and the
    URLs are never changed; each of the other keys is changed only by the
    stages that own it.  A law key that is set is changed by no stage after
    the type detection. *)
Theorem stage_frames :
  forall (env : Env) (n : Workflow.node) (s s' : State),
    Workflow.exec env n s = Some s' ->
    query s' = query s
    /\ urls s' = urls s
    /\ (n <> Workflow.search_node -> web_results s' = web_results s)
    /\ (n <> Workflow.detect_type -> legislation_type s' = legislation_type s)
    /\ (n <> Workflow.raw_extract -> raw_extraction s' = raw_extraction s)
    /\ (n <> Workflow.extract_numbers -> quantification s' = quantification s)
    /\ (n <> Workflow.validate ->
        validation_results s' = validation_results s)
    /\ (n <> Workflow.dell_relevance -> dell_analysis s' = dell_analysis s)
    /\ (n <> Workflow.assemble ->
        final_analysis s' = final_analysis s
        /\ workflow_complete s' = workflow_complete s)
    /\ (n <> Workflow.analyze_impact -> n <> Workflow.review ->
        impact_analysis s' = impact_analysis s)
    /\ (n <> Workflow.extract_dates -> n <> Workflow.validation_check ->
        n <> Workflow.review ->
        date_extraction s' = date_extraction s)
    /\ (n <> Workflow.system_changes_node -> n <> Workflow.validation_check ->
        n <> Workflow.review ->
        system_changes s' = system_changes s)
    /\ (n <> Workflow.input -> n <> Workflow.validation_check ->
        validation_status s' = validation_status s)
    /\ (n <> Workflow.input -> n <> Workflow.detect_type ->
        forall key, key <> [] -> known_law_key s = Some key ->
                    known_law_key s' = Some key).
Proof.
  intros env n s s' H.
  assert (Hs : exists s1,
             s' = s1
             /\ query s1 = query s /\ urls s1 = urls s
             /\ (n <> Workflow.search_node -> web_results s1 = web_results s)
             /\ (n <> Workflow.detect_type ->
                 legislation_type s1 = legislation_type s)
             /\ (n <> Workflow.raw_extract ->
                 raw_extraction s1 = raw_extraction s)
             /\ (n <> Workflow.extract_numbers ->
                 quantification s1 = quantification s)
             /\ (n <> Workflow.validate ->
                 validation_results s1 = validation_results s)
             /\ (n <> Workflow.dell_relevance ->
                 dell_analysis s1 = dell_analysis s)
             /\ (n <> Workflow.assemble ->
                 final_analysis s1 = final_analysis s
                 /\ workflow_complete s1 = workflow_complete s)
             /\ (n <> Workflow.analyze_impact -> n <> Workflow.review ->
                 impact_analysis s1 = impact_analysis s)
             /\ (n <> Workflow.extract_dates ->
                 n <> Workflow.validation_check -> n <> Workflow.review ->
                 date_extraction s1 = date_extraction s)
             /\ (n <> Workflow.system_changes_node ->
                 n <> Workflow.validation_check -> n <> Workflow.review ->
                 system_changes s1 = system_changes s)
             /\ (n <> Workflow.input -> n <> Workflow.validation_check ->
                 validation_status s1 = validation_status s)
             /\ (n <> Workflow.input -> n <> Workflow.detect_type ->
                 forall key, key <> [] -> known_law_key s = Some key ->
                             known_law_key s1 = Some key)).
  2:{ destruct Hs as (s1 & -> & Hs). exact Hs. }
  destruct n; cbn [Workflow.exec] in H.
  - injection H as <-. eexists. split; [reflexivity |].
    repeat split; intros; first [reflexivity | assumption | congruence].
  - injection H as <-. eexists. split; [reflexivity |].
    repeat split; intros; first [reflexivity | assumption | congruence].
  - injection H as <-. eexists. split; [reflexivity |].
    destruct (detect_type_shape env s) as (leg_type & key & ->).
    repeat split; intros; first [reflexivity | assumption | congruence].
  - unfold Workflow.extract_raw in H. bind_inv H. injection H as <-.
    eexists. split; [reflexivity |].
    repeat split; intros; first [reflexivity | assumption | congruence].
  - unfold Workflow.extract_dates_stage in H. bind_inv H. injection H as <-.
    eexists. split; [reflexivity |]. fields.
    destruct (dx_known_law_key d), (known_law_key s) eqn:Ek;
      repeat split; intros; fields; first [reflexivity | assumption | congruence].
  - injection H as <-. eexists. split; [reflexivity |].
    repeat split; intros; first [reflexivity | assumption | congruence].
  - injection H as <-. eexists. split; [reflexivity |].
    unfold Workflow.validate_stage, Structure.process.
    repeat split; intros; first [reflexivity | assumption | congruence].
  - injection H as <-. eexists. split; [reflexivity |].
    repeat split; intros; first [reflexivity | assumption | congruence].
  - unfold Workflow.analyze_impact_stage in H. bind_inv H. injection H as <-.
    eexists. split; [reflexivity |].
    repeat split; intros; first [reflexivity | assumption | congruence].
  - injection H as <-. eexists. split; [reflexivity |].
    unfold Workflow.analyze_system_changes. fields.
    destruct (sc_known_law_key _), (known_law_key s) eqn:Ek;
      repeat split; intros; fields; first [reflexivity | assumption | congruence].
  - unfold Workflow.run_validation in H.
    destruct (HAS_VALIDATION_AGENT env).
    + apply validate_shape in H as (sc & dx & vs & ->).
      eexists. split; [reflexivity |].
      repeat split; intros; first [reflexivity | assumption | congruence].
    + injection H as <-. eexists. split; [reflexivity |].
      repeat split; intros; first [reflexivity | assumption | congruence].
  - unfold Workflow.dell_relevance_check in H. bind_inv H. injection H as <-.
    eexists. split; [reflexivity |].
    repeat split; intros; first [reflexivity | assumption | congruence].
  - apply review_shape in H as (dx & sc & ia & ->).
    eexists. split; [reflexivity |].
    repeat split; intros; first [reflexivity | assumption | congruence].
  - unfold Workflow.assemble_stage in H. bind_inv H. injection H as <-.
    eexists. split; [reflexivity |].
    repeat split; intros; first [reflexivity | assumption | congruence].
Qed.

(** The theorem at the search stage of a run on a query. *)
Lemma stage_frames_witness :
  let env := Canned.env [Canned.lc214_page] None [] [] [] None in
  let s := Workflow.initial_state (Py.U "lei complementar 214") [] in
  exists s',
    Workflow.exec env Workflow.search_node s = Some s'
    /\ query s' = query s
    /\ web_results s' = [Canned.lc214_page].
Proof.
  intros env s. eexists. split; [reflexivity |].
  split; [| reflexivity].
  exact (proj1 (stage_frames env Workflow.search_node s _ eq_refl)).
Defined.

(** ** The completeness of the structured data *)

(** X22. Each gap is reported exactly when its section is empty, and data
    without extracted text always need enhancement: whatever dates and
    percentages were found, the score stays below 0.70. *)
Theorem empty_text_needs_enhancement :
  forall (raw : option RawExtraction) (dx : option DateExtraction)
         (quant : option Quantification) (legislation_type : list N),
    let data := fst (Structure.process raw dx quant legislation_type) in
    let results := snd (Structure.process raw dx quant legislation_type) in
    (Py.U "raw_extraction" ∈ missing_sections results
     <-> Structure.raw_text_of data = [])
    /\ (Py.U "vigencias" ∈ missing_sections results
        <-> Structure.vigencias_of data = [])
    /\ (Py.U "percentuais" ∈ missing_sections results
        <-> Structure.percentuais_of data = [])
    /\ (Structure.raw_text_of data = [] ->
        needs_enhancement results = true
        /\ PrimFloat.ltb (completeness_score results) 0.70%float = true).
Proof.
  intros raw dx quant lt data results.
  subst data results. unfold Structure.process.
  cbn [fst snd missing_sections needs_enhancement completeness_score].
  unfold Structure._identify_gaps, Structure._calculate_completeness.
  set (sd := {| sd_raw_extraction := raw |}).
  destruct (Structure.raw_text_of sd) as [| c text];
    destruct (Structure.vigencias_of sd) as [| v vs];
    destruct (Structure.percentuais_of sd) as [| p ps];
    cbn [Py.is_empty app].
  all: repeat split; intros;
    try reflexivity; try discriminate;
    try (vm_compute; reflexivity);
    try (apply list_elem_of_In; cbn [In]; auto);
    try match goal with
        | H : _ ∈ _ |- _ =>
            apply list_elem_of_In in H; cbn [In] in H;
            repeat match type of H with
                   | _ \/ _ => destruct H as [H | H]
                   end;
            first [contradiction | vm_compute in H; discriminate]
        end.
Qed.

(** ** The knowledge base: the laws it serves *)

Lemma knowledge_base_other (key : option (list N)) :
  key <> Some (Py.U "LC_214") ->
  KB.get_vigencias_for_legislation key = []
  /\ KB.get_system_changes_for_legislation key = [].
Proof.
  intros Hk. destruct key as [k |]; [| split; reflexivity].
  unfold KB.get_vigencias_for_legislation, KB.get_system_changes_for_legislation,
    KB.KNOWLEDGE_BASE.
  rewrite lookup_insert_ne by congruence.
  destruct (decide (k = Py.U "MPV_1318")) as [-> | H2].
  - rewrite lookup_insert_eq. split; reflexivity.
  - rewrite lookup_insert_ne by congruence. rewrite lookup_empty.
    split; reflexivity.
Qed.

(** X23. The knowledge base holds dates and tax changes for Lei
    Complementar 214 only.  For any other key, or none, the fallbacks of
    the two stages leave the extracted lists as they are, whereas
    [merge_with_extracted_data] returns no date at all when fewer than three
    were extracted, and no tax change when the extraction failed. *)
Theorem knowledge_base_serves_lc214_only :
  forall key : option (list N),
    key <> Some (Py.U "LC_214") ->
    KB.get_vigencias_for_legislation key = []
    /\ KB.get_system_changes_for_legislation key = []
    /\ (forall has_knowledge_base vigencias,
           DateExtraction.knowledge_base_fallback has_knowledge_base key vigencias
           = vigencias)
    /\ (forall has_knowledge_base aliquotas,
           SystemChangesStage.fallback has_knowledge_base key aliquotas
           = aliquotas)
    /\ (forall vigencias changes,
           (length vigencias < 3)%nat ->
           fst (KB.merge_with_extracted_data vigencias changes key) = [])
    /\ (forall vigencias changes,
           KB.has_valid_changes changes = false ->
           snd (KB.merge_with_extracted_data vigencias changes key) = []).
Proof.
  intros key Hk. destruct (knowledge_base_other key Hk) as [Hv Hc].
  split; [exact Hv |]. split; [exact Hc |]. split; [| split; [| split]].
  - intros hk v. unfold DateExtraction.knowledge_base_fallback.
    rewrite Hv. cbn [Py.is_empty negb].
    destruct (_ && _); [| reflexivity]. destruct (_ || _); reflexivity.
  - intros hk a. unfold SystemChangesStage.fallback.
    rewrite Hc. cbn [Py.is_empty negb].
    destruct (_ && _); [| reflexivity]. destruct (negb _); reflexivity.
  - intros v c Hl. unfold KB.merge_with_extracted_data. cbv zeta. cbn [fst].
    rewrite Hv. apply Nat.ltb_lt in Hl. rewrite Hl, orb_true_r. reflexivity.
  - intros v c Hf. unfold KB.merge_with_extracted_data. cbv zeta. cbn [snd].
    rewrite Hc, Hf. reflexivity.
Qed.

(** The theorem at MPV 1318 with two extracted dates. *)
Lemma knowledge_base_serves_lc214_only_witness :
  let extracted := [Canned.date "17/09/2025" "a"; Canned.date "2026" "b"] in
  fst (KB.merge_with_extracted_data extracted [] (Some (Py.U "MPV_1318"))) = []
  /\ DateExtraction.knowledge_base_fallback true (Some (Py.U "MPV_1318"))
                                            extracted = extracted.
Proof.
  intros extracted.
  assert (Hk : Some (Py.U "MPV_1318") <> Some (Py.U "LC_214"))
    by (vm_compute; discriminate).
  destruct (knowledge_base_serves_lc214_only _ Hk)
    as (_ & _ & Hd & _ & Hm & _).
  split; [apply Hm; cbn; lia | apply Hd].
Defined.

(** ** The validation engine: the dates it keeps *)

(** The filter on three dates without pattern characters: the first occurs
    in the text with hyphens for its slashes, the second does not occur and
    its year is not in the text, the third writes the end of its year in
    Arabic-Indic digits and that year is in the text. *)
Lemma plain_dates_validated_witness :
  Validation._validate_vigencias
    [Canned.date "01/01/2027" "Início"; Canned.date "31/12/2030" "Prazo";
     Canned.date "01/01/20٢٨" "Início"]
    (Py.U "esta lei vigora a partir de 01-01-2027 e até 20٢٨.")
  = Some [Canned.date "01/01/2027" "Início"; Canned.date "01/01/20٢٨" "Início"].
Proof.
  refine (eq_trans (PlainDates.plain_dates_validated _ _ _) _).
  - repeat (constructor; [vm_compute; reflexivity |]). constructor.
  - vm_compute. reflexivity.
Defined.

(** ** The validation engine: where it returns *)

Lemma escaped_or_plain (c : N) : Chain.escaped c = false -> plain c = true.
Proof. intros H. by_bits c. Qed.

Lemma parse_atom_escaped (c : N) (f : nat) (rest : list N) :
  Chain.escaped c = true ->
  Re.parse_atom (S f) (0x5C :: c :: rest) = Some (Re.Lit c, rest).
Proof. intros H. by_bits c. Qed.

Lemma escape_cons (c : N) (data : list N) :
  Re.escape (c :: data)
  = (if Chain.escaped c then [0x5C; c] else [c]) ++ Re.escape data.
Proof. reflexivity. Qed.

Lemma escape_head (data tail : list N) :
  Chain.head_ok tail = true -> Chain.head_ok (Re.escape data ++ tail) = true.
Proof.
  intros Ht. destruct data as [| c data]; [exact Ht |].
  rewrite escape_cons. destruct (Chain.escaped c) eqn:E; [reflexivity |].
  cbn [app Chain.head_ok]. rewrite (escaped_or_plain c E). reflexivity.
Qed.

Lemma parse_seq_S (f : nat) (s : list N) :
  Re.parse_seq (S f) s
  = match s with
    | [] => Some (Re.Empty, [])
    | c :: _ =>
        if ((c =? 0x7C) || (c =? 0x29))%N then Some (Re.Empty, s)
        else
          match Re.parse_atom f s with
          | None => None
          | Some (a, s1) =>
              match Re.parse_quantifier a s1 with
              | None => None
              | Some (q, s2) =>
                  match Re.parse_seq f s2 with
                  | Some (Re.Empty, s3) => Some (q, s3)
                  | Some (r, s3) => Some (Re.Cat q r, s3)
                  | None => None
                  end
              end
          end
    end.
Proof. reflexivity. Qed.

Lemma parse_alt_S (f : nat) (s : list N) :
  Re.parse_alt (S f) s
  = match Re.parse_seq f s with
    | Some (r, 0x7C :: s1) =>
        match Re.parse_alt f s1 with
        | Some (r2, s2) => Some (Re.Or r r2, s2)
        | None => None
        end
    | other => other
    end.
Proof. reflexivity. Qed.

(** An escaped text followed by a word boundary is parsed to its end. *)
Lemma parse_seq_escape (data : list N) :
  forall f, (length data + 2 <= f)%nat ->
    exists r, Re.parse_seq f (Re.escape data ++ Py.U "\b") = Some (r, []).
Proof.
  induction data as [| c data IH]; intros f Hf.
  - destruct f as [| [| f]]; [cbn in Hf; lia | cbn in Hf; lia |].
    eexists. reflexivity.
  - cbn [length] in Hf. destruct f as [| f]; [lia |].
    destruct (IH f ltac:(lia)) as [r Hr].
    assert (Hq : forall a,
               Re.parse_quantifier a (Re.escape data ++ Py.U "\b")
               = Some (a, Re.escape data ++ Py.U "\b"))
      by (intros a; apply PlainDates.parse_quantifier_head, escape_head;
          reflexivity).
    rewrite parse_seq_S, escape_cons.
    destruct f as [| f']; [lia |].
    destruct (Chain.escaped c) eqn:E.
    + cbn [app].
      change ((0x5C =? 0x7C) || (0x5C =? 0x29))%N with false. cbv iota.
      rewrite (parse_atom_escaped c f' _ E). rewrite Hq, Hr.
      destruct r; eexists; reflexivity.
    + pose proof (escaped_or_plain c E) as Hp.
      cbn [app].
      replace ((c =? 0x7C) || (c =? 0x29))%N with false
        by (symmetry; clear - Hp; by_bits c).
      cbv iota.
      rewrite (PlainDates.parse_atom_plain c f' _ Hp). rewrite Hq, Hr.
      destruct r; eexists; reflexivity.
Qed.

(** The pattern built around an escaped text always compiles. *)
Lemma word_pattern_compiles (t : list N) :
  is_Some (Re.compile (Validation.word_pattern t)).
Proof.
  unfold Re.compile, Validation.word_pattern.
  assert (Hlen : (length t <= length (Re.escape t))%nat).
  { induction t as [| c t IH]; [reflexivity |]. rewrite escape_cons.
    rewrite length_app. destruct (Chain.escaped c); cbn [length]; lia. }
  remember (4 * length (Py.U "\b" ++ Re.escape t ++ Py.U "\b") + 8)%nat
    as fuel eqn:Hfuel.
  assert (Hf : (length t + 4 <= fuel)%nat).
  { rewrite Hfuel, !length_app. lia. }
  clear Hfuel.
  destruct fuel as [| [| [| f]]]; [lia | lia | lia |].
  destruct (parse_seq_escape t (S f) ltac:(lia)) as [r Hr].
  rewrite parse_alt_S, parse_seq_S.
  change (Py.U "\b" ++ Re.escape t ++ Py.U "\b")
    with (0x5C :: 0x62 :: Re.escape t ++ Py.U "\b").
  change ((0x5C =? 0x7C) || (0x5C =? 0x29))%N with false. cbv iota.
  change (Re.parse_atom (S f) (0x5C :: 0x62 :: Re.escape t ++ Py.U "\b"))
    with (Some (Re.At Re.AtBoundary, Re.escape t ++ Py.U "\b")).
  cbv iota beta.
  rewrite PlainDates.parse_quantifier_head by (apply escape_head; reflexivity).
  rewrite Hr. destruct r; eauto.
Qed.

(** Every pattern of the tax table compiles. *)
Lemma tributo_patterns_compile :
  Forall (fun kp : list N * list (list N) =>
            Forall (fun p => is_Some (Re.compile p)) kp.2)
         Validation.tributo_patterns.
Proof.
  unfold Validation.tributo_patterns.
  repeat (constructor;
          [cbn [snd];
           repeat (constructor; [vm_compute; eexists; reflexivity |]);
           constructor |]).
  constructor.
Qed.

Lemma assoc_compiles (table : list (list N * list (list N))) (key t : list N) :
  Forall (fun kp => Forall (fun p => is_Some (Re.compile p)) kp.2) table ->
  Forall (fun p => is_Some (Re.compile p))
         (default [Validation.word_pattern t] (Validation.assoc table key)).
Proof.
  induction 1 as [| [k pats] tl Hp _ IH]; cbn [Validation.assoc].
  - constructor; [apply word_pattern_compiles | constructor].
  - destruct (Py.eqb k key); [exact Hp | exact IH].
Qed.

Lemma validate_tributo_total (tributo text : list N) :
  is_Some (Validation._validate_tributo tributo text).
Proof.
  unfold Validation._validate_tributo. cbv zeta.
  apply search_any_total, assoc_compiles, tributo_patterns_compile.
Qed.

Lemma contexts_of_patterns_total (patterns : list (list N)) (text : list N) :
  Forall (fun p => is_Some (Re.compile p)) patterns ->
  is_Some (Validation.contexts_of_patterns patterns text).
Proof.
  induction 1 as [| p ps [r Hr] _ [cs IH]]; cbn [Validation.contexts_of_patterns].
  - eauto.
  - unfold Re.finditer. rewrite Hr. cbn [mbind option_bind]. rewrite IH.
    cbn [mbind option_bind]. eauto.
Qed.

Lemma validate_change_type_total (tributo tipo text : list N) :
  is_Some (Validation._validate_change_type tributo tipo text).
Proof.
  unfold Validation._validate_change_type.
  destruct (Validation.types_to_check tipo) as [[to_check |] secondary];
    [| eauto].
  unfold Validation.tributo_contexts, Validation._find_tributo_contexts.
  cbv zeta.
  match goal with
  | |- context [Validation.contexts_of_patterns ?ps ?t] =>
      destruct (contexts_of_patterns_total ps t) as [found ->];
      [apply assoc_compiles, tributo_patterns_compile |]
  end.
  cbn [mbind option_bind].
  match goal with
  | |- context [Validation.first_type_in ?cs] =>
      destruct (first_type_in_total cs) as [t ->]
  end.
  cbn [mbind option_bind].
  destruct t as [k |]; [| eauto].
  destruct (Py.eqb to_check k); [eauto |].
  destruct secondary as [sec |]; [destruct (Py.eqb sec k) |]; eauto.
Qed.

(** The loop over the tax-change list never raises. *)
Lemma validate_aliquotas_total (text : list N) (aliquotas : list dict) :
  forall c e, is_Some (Validation.validate_aliquotas text aliquotas c e).
Proof.
  induction aliquotas as [| aliq tl IH]; intros c e.
  - cbn. eauto.
  - rewrite validate_aliquotas_cons. cbv zeta.
    destruct (validate_tributo_total (get aliq "tributo") text) as [b ->].
    cbn [mbind option_bind].
    assert (Hrec : forall c e (f : dict),
               is_Some ('(tl', c0, e0) ← Validation.validate_aliquotas text tl c e;
                        Some (f :: tl', c0, e0))).
    { intros c0 e0 f. destruct (IH c0 e0) as [[[l1 c1] e1] ->].
      cbn [mbind option_bind]. eauto. }
    destruct b; cbn [negb]; [| apply Hrec].
    destruct (validate_change_type_total (get aliq "tributo")
                (get aliq "tipo_mudanca") text) as [[ok correto] ->].
    cbn [mbind option_bind].
    destruct ok; cbn [negb]; [apply Hrec |].
    destruct correto; apply Hrec.
Qed.

Lemma plain_dates_total (vigencias : list dict) (text : list N) :
  Forall (fun vig => forallb plain (get vig "data") = true) vigencias ->
  is_Some (Validation._validate_vigencias vigencias text).
Proof.
  induction 1 as [| vig tl Hv _ [kept IH]]; cbn [Validation._validate_vigencias].
  - eauto.
  - rewrite (PlainDates.plain_date_kept vig text Hv), IH.
    cbn [mbind option_bind]. eauto.
Qed.

(** X25. The checks of the tax codes and of the types of change return for
    every list of records and every text, since the patterns they search
    with compile whatever the tax code is; and the validation, on records
    and answers of the service that hold strings, returns a state whenever
    every effective date is free of pattern characters. *)
Theorem validation_returns_on_plain_dates :
  (forall (original_lower : list N) (aliquotas : list dict)
          (corrections_made : nat) (errors_found : list (list N)),
      is_Some (Validation.validate_aliquotas original_lower aliquotas
                                             corrections_made errors_found))
  /\ (forall (generate : Validation.Generate) (state : State),
         (forall dx, date_extraction state = Some dx ->
                     Forall (fun vig => forallb plain (get vig "data") = true)
                            (vigencias dx)) ->
         is_Some (Validation.validate generate state)).
Proof.
  split; [intros text l c e; apply validate_aliquotas_total |].
  intros generate state Hplain.
  unfold Validation.validate. cbv zeta.
  set (text := Validation._get_original_text state).
  destruct (Py.eqb text []); [eauto |].
  unfold Validation.validate_changes.
  assert (H1 : exists state1 c1 e1,
             match system_changes state with
             | Some sc =>
                 '(aliquotas', c, e) ←
                   Validation.validate_aliquotas (Py.lower text)
                                                 (aliquotas sc) 0 [];
                 Some (set_system_changes
                         (Some (set_aliquotas aliquotas' sc)) state, c, e)
             | None => Some (state, 0%nat, [])
             end = Some (state1, c1, e1)
             /\ date_extraction state1 = date_extraction state).
  { destruct (system_changes state) as [sc |].
    - destruct (validate_aliquotas_total (Py.lower text) (aliquotas sc) 0 [])
        as [[[l c] e] ->].
      cbn [mbind option_bind]. eexists _, _, _. split; reflexivity.
    - eexists _, _, _. split; reflexivity. }
  destruct H1 as (state1 & c1 & e1 & -> & Hd1). cbn [mbind option_bind].
  pose proof (escalate_frame generate text e1 state1 c1) as [F _].
  cbv zeta in F.
  destruct (Validation.escalate generate text e1 state1 c1) as [state2 c2].
  cbn [fst] in F.
  assert (Hd2 : date_extraction state2 = date_extraction state).
  { rewrite <- Hd1, <- F. reflexivity. }
  unfold Validation.validate_dates. rewrite Hd2.
  destruct (date_extraction state) as [dx |] eqn:Hdx.
  - destruct (plain_dates_total (vigencias dx) (Py.lower text) (Hplain dx eq_refl))
      as [kept ->].
    cbn [mbind option_bind]. eauto.
  - cbn [mbind option_bind]. eauto.
Qed.

(** The validation on a tax code full of pattern characters and a date
    without any. *)
Lemma validation_returns_on_plain_dates_witness :
  let state :=
    Canned.state_with (Py.U "Fica reduzida a zero a alíquota do PIS em 2027.")
                      [Canned.change "PIS (a+b)" "REDUÇÃO"]
                      [Canned.date "01/01/2027" "Início"] in
  is_Some (Validation.validate (fun _ _ => None) state).
Proof.
  intros state.
  apply (proj2 validation_returns_on_plain_dates).
  intros dx Hdx. vm_compute in Hdx. injection Hdx as <-.
  repeat (constructor; [vm_compute; reflexivity |]). constructor.
Defined.

Lemma compile_leading_operator (s : list N) :
  starts_with_operator s = true -> Re.compile s = None.
Proof.
  destruct s as [| c s]; [discriminate |]. cbn [starts_with_operator].
  intros H. unfold Re.compile.
  remember (4 * length (c :: s) + 8)%nat as fuel eqn:Hfuel.
  destruct fuel as [| [| [| f]]]; try (cbn [length] in Hfuel; lia).
  clear Hfuel. rewrite parse_alt_S, parse_seq_S.
  change (existsb (N.eqb c) (Py.U "*+?)"))
    with ((c =? 0x2A) || ((c =? 0x2B) || ((c =? 0x3F) || ((c =? 0x29) || false))))%N
    in H.
  destruct (c =? 0x29)%N eqn:E29.
  - apply N.eqb_eq in E29. subst c. reflexivity.
  - destruct (c =? 0x7C)%N eqn:E7C.
    + apply N.eqb_eq in E7C. subst c. discriminate H.
    + cbn [orb].
      assert (Ha : Re.parse_atom (S f) (c :: s) = None).
      { clear - H E29. by_bits c. }
      rewrite Ha. reflexivity.
Qed.

Lemma replace_slash_head (c : N) (rest : list N) :
  starts_with_operator (c :: rest) = true ->
  starts_with_operator (Py.replace (Py.U "/") (Py.U "[-/]") (c :: rest)) = true.
Proof.
  intros H. rewrite PlainDates.replace_slash. cbn [List.map Chain.source List.flat_map].
  unfold Chain.sep_or_lit at 1.
  destruct (N.eqb c 0x2F) eqn:E.
  - apply N.eqb_eq in E. subst c. discriminate H.
  - exact H.
Qed.

(** X26. A date that begins with a repetition operator or with a closing
    parenthesis, and is not a span of years, makes the filter of the
    effective dates raise, wherever it stands in the list: the date is
    compiled as a pattern before it is compared with the text. *)
Theorem date_with_leading_operator_raises :
  forall (vigencias : list dict) (original_lower : list N),
    Exists (fun vig =>
              starts_with_operator (get vig "data") = true
              /\ Py.contains (Py.U "ano") (Py.lower (get vig "data")) = false)
           vigencias ->
    Validation._validate_vigencias vigencias original_lower = None.
Proof.
  intros vigencias text H.
  induction H as [vig tl [Hop Hano] | vig tl _ IH];
    cbn [Validation._validate_vigencias].
  - unfold Validation.vigencia_kept. cbv zeta. rewrite Hano.
    destruct (get vig "data") as [| c rest] eqn:Ed; [discriminate |].
    assert (Hs : Re.search false (Py.replace (Py.U "/") (Py.U "[-/]") (c :: rest))
                           text = None).
    { unfold Re.search.
      rewrite (compile_leading_operator _ (replace_slash_head c rest Hop)).
      reflexivity. }
    rewrite Hs. reflexivity.
  - rewrite IH. destruct (Validation.vigencia_kept vig text); reflexivity.
Qed.

(** The theorem at a list whose second date is a question mark. *)
Lemma date_with_leading_operator_raises_witness :
  Validation._validate_vigencias
    [Canned.date "2026" "Início"; Canned.date "?" "Prazo não informado"]
    (Py.U "a partir de 2026")
  = None.
Proof.
  apply date_with_leading_operator_raises.
  apply Exists_cons_tl, Exists_cons_hd. split; vm_compute; reflexivity.
Defined.

(** ** The validation engine: a date with an open parenthesis *)

(** A chain of tokens is parsed to its end or not at all. *)
Lemma parse_seq_tokens_any (ts : list Chain.token) :
  forallb Chain.tok_ok ts = true ->
  forall f,
    Re.parse_seq f (Chain.source ts) = None
    \/ exists r, Re.parse_seq f (Chain.source ts) = Some (r, []).
Proof.
  induction ts as [| t ts IH]; intros Hok f.
  - destruct f; [now left | right; eexists; reflexivity].
  - cbn [forallb] in Hok. apply andb_true_iff in Hok as [Ht Hts].
    destruct f as [| f]; [now left |].
    cbn [Chain.source List.flat_map]. rewrite parse_seq_S.
    destruct (PlainDates.tok_src_nonempty t (List.flat_map Chain.tok_src ts))
      as (c & s & E & Hc).
    assert (Hc' : (N.eqb c 0x7C || N.eqb c 0x29) = false).
    { destruct (N.eqb c 0x7C || N.eqb c 0x29); [| reflexivity].
      rewrite Hc in Ht by reflexivity. discriminate Ht. }
    destruct f as [| f]; [rewrite E, Hc'; now left |].
    rewrite (PlainDates.parse_atom_tok t f _ Ht). rewrite E, Hc'.
    rewrite (PlainDates.parse_quantifier_head _ _ (PlainDates.source_head ts Hts)).
    fold (Chain.source ts).
    destruct (IH Hts (S f)) as [-> | [r ->]]; [now left |].
    right. destruct r; eexists; reflexivity.
Qed.

Lemma parse_alt_tokens_any (ts : list Chain.token) (f : nat) :
  forallb Chain.tok_ok ts = true ->
  Re.parse_alt f (Chain.source ts) = None
  \/ exists r, Re.parse_alt f (Chain.source ts) = Some (r, []).
Proof.
  intros Hok. destruct f as [| f]; [now left |]. rewrite parse_alt_S.
  destruct (parse_seq_tokens_any ts Hok f) as [-> | [r ->]];
    [now left | right; eauto].
Qed.

(** A group that opens before a chain of tokens is never closed. *)
Lemma parse_atom_open (ts : list Chain.token) (f : nat) :
  forallb Chain.tok_ok ts = true ->
  Re.parse_atom f (0x28 :: Chain.source ts) = None.
Proof.
  intros Hok. destruct f as [| f]; [reflexivity |].
  assert (Hg : Re.parse_atom (S f) (0x28 :: Chain.source ts)
               = match Re.parse_alt f (Chain.source ts) with
                 | Some (r, 0x29 :: s2) => Some (r, s2)
                 | _ => None
                 end).
  { destruct ts as [| t ts]; [reflexivity |].
    cbn [forallb] in Hok. apply andb_true_iff in Hok as [Ht _].
    cbn [Chain.source List.flat_map].
    destruct t as [c | | c |]; cbn [Chain.tok_src app]; try reflexivity.
    cbn [Chain.tok_ok] in Ht. clear - Ht. by_bits c. }
  rewrite Hg.
  destruct (parse_alt_tokens_any ts f Hok) as [-> | [r ->]]; reflexivity.
Qed.

Lemma parse_seq_open (before after : list Chain.token) :
  forallb Chain.tok_ok before = true ->
  forallb Chain.tok_ok after = true ->
  forall f,
    Re.parse_seq f (Chain.source before ++ 0x28 :: Chain.source after) = None.
Proof.
  intros Hb Ha. induction before as [| t ts IH]; intros f.
  - cbn [Chain.source List.flat_map app]. destruct f as [| f]; [reflexivity |].
    rewrite parse_seq_S.
    change ((0x28 =? 0x7C) || (0x28 =? 0x29))%N with false. cbv iota.
    rewrite (parse_atom_open after f Ha). reflexivity.
  - cbn [forallb] in Hb. apply andb_true_iff in Hb as [Ht Hts].
    destruct f as [| f]; [reflexivity |].
    cbn [Chain.source List.flat_map]. rewrite <- app_assoc, parse_seq_S.
    destruct (PlainDates.tok_src_nonempty
                t (List.flat_map Chain.tok_src ts ++ 0x28 :: Chain.source after))
      as (c & s & E & Hc).
    assert (Hc' : (N.eqb c 0x7C || N.eqb c 0x29) = false).
    { destruct (N.eqb c 0x7C || N.eqb c 0x29); [| reflexivity].
      rewrite Hc in Ht by reflexivity. discriminate Ht. }
    destruct f as [| f]; [rewrite E, Hc'; reflexivity |].
    rewrite (PlainDates.parse_atom_tok t f _ Ht). rewrite E, Hc'.
    assert (Hq : forall a,
               Re.parse_quantifier
                 a (List.flat_map Chain.tok_src ts ++ 0x28 :: Chain.source after)
               = Some (a, List.flat_map Chain.tok_src ts
                            ++ 0x28 :: Chain.source after)).
    { intros a. destruct ts as [| t' ts']; [reflexivity |].
      apply PlainDates.parse_quantifier_head.
      cbn [List.flat_map]. rewrite <- app_assoc.
      cbn [forallb] in Hts. apply andb_true_iff in Hts as [Ht' _].
      apply PlainDates.tok_src_head, Ht'. }
    rewrite Hq. fold (Chain.source ts). rewrite (IH Hts (S f)). reflexivity.
Qed.

Lemma compile_open_parenthesis (data : list N) :
  opens_parenthesis data ->
  Re.compile (Py.replace (Py.U "/") (Py.U "[-/]") data) = None.
Proof.
  intros (before & after & -> & Hb & Ha).
  rewrite PlainDates.replace_slash, List.map_app. cbn [List.map].
  unfold Chain.source. rewrite List.flat_map_app. cbn [List.flat_map].
  change (Chain.tok_src (Chain.sep_or_lit 0x28)) with [0x28]. cbn [app].
  fold (Chain.source (List.map Chain.sep_or_lit before)).
  fold (Chain.source (List.map Chain.sep_or_lit after)).
  unfold Re.compile.
  match goal with
  | |- match Re.parse_alt ?f ?s with _ => _ end = None =>
      destruct f as [| f']; [reflexivity |]; rewrite parse_alt_S
  end.
  rewrite (parse_seq_open _ _ (PlainDates.sep_or_lit_ok before Hb)
                          (PlainDates.sep_or_lit_ok after Ha)).
  reflexivity.
Qed.

(** X29. A date that opens a parenthesis and never closes it, as in
    "01/01/2026 (previsto", and is not a span of years, makes the filter
    of the effective dates raise, wherever it stands in the list. *)
Theorem date_with_open_parenthesis_raises :
  forall (vigencias : list dict) (original_lower : list N),
    Exists (fun vig =>
              opens_parenthesis (get vig "data")
              /\ Py.contains (Py.U "ano") (Py.lower (get vig "data")) = false)
           vigencias ->
    Validation._validate_vigencias vigencias original_lower = None.
Proof.
  intros vigencias text H.
  induction H as [vig tl [Hop Hano] | vig tl _ IH];
    cbn [Validation._validate_vigencias].
  - unfold Validation.vigencia_kept. cbv zeta. rewrite Hano.
    assert (Hs : Re.search false
                   (Py.replace (Py.U "/") (Py.U "[-/]") (get vig "data")) text
                 = None).
    { unfold Re.search. rewrite (compile_open_parenthesis _ Hop). reflexivity. }
    rewrite Hs. reflexivity.
  - rewrite IH. destruct (Validation.vigencia_kept vig text); reflexivity.
Qed.

(** The theorem at a date followed by an unfinished remark. *)
Lemma date_with_open_parenthesis_raises_witness :
  Validation._validate_vigencias
    [Canned.date "01/01/2026 (previsto" "Início"]
    (Py.U "a partir de 01/01/2026")
  = None.
Proof.
  apply date_with_open_parenthesis_raises.
  apply Exists_cons_hd. split; [| vm_compute; reflexivity].
  exists (Py.U "01/01/2026 "), (Py.U "previsto").
  split; [vm_compute; reflexivity |]. split; vm_compute; reflexivity.
Defined.

(** ** The orchestrator: a detected law stays detected *)

Lemma run_from_S (env : Env) (fuel : nat) (n : Workflow.node) (s : State) :
  Workflow.run_from env (S fuel) n s
  = match Workflow.exec env n s with
    | None => ([(n, s)], Workflow.Raised n s)
    | Some s' =>
        match Workflow.next n s' with
        | None => ([(n, s)], Workflow.Completed s')
        | Some n' =>
            let '(trace, out) := Workflow.run_from env fuel n' s' in
            ((n, s) :: trace, out)
        end
    end.
Proof. reflexivity. Qed.

(** No edge of the graph leads back to the first three stages. *)
Lemma next_is_late (n n' : Workflow.node) (s : State) :
  n <> Workflow.input -> n <> Workflow.search_node ->
  Workflow.next n s = Some n' ->
  n' <> Workflow.input /\ n' <> Workflow.search_node
  /\ n' <> Workflow.detect_type.
Proof.
  intros H1 H2 H. destruct n; cbn [Workflow.next] in H;
    try contradiction;
    try (injection H as <-; repeat split; discriminate);
    try discriminate.
  destruct (validation_results s) as [v |];
    [destruct (needs_enhancement v) |];
    injection H as <-; repeat split; discriminate.
Qed.

Lemma exec_keeps_law_key (env : Env) (n : Workflow.node) (s s' : State)
      (key : list N) :
  n <> Workflow.input -> n <> Workflow.detect_type ->
  Workflow.exec env n s = Some s' ->
  known_law_key s = Some key ->
  known_law_key s' = Some key.
Proof.
  intros H1 H2 H Hk. destruct n; cbn [Workflow.exec] in H;
    try contradiction.
  - injection H as <-. exact Hk.
  - unfold Workflow.extract_raw in H. bind_inv H. injection H as <-. exact Hk.
  - unfold Workflow.extract_dates_stage in H. bind_inv H. injection H as <-.
    fields. rewrite Hk. destruct (dx_known_law_key d); exact Hk.
  - injection H as <-. exact Hk.
  - injection H as <-. exact Hk.
  - injection H as <-. exact Hk.
  - unfold Workflow.analyze_impact_stage in H. bind_inv H. injection H as <-.
    exact Hk.
  - injection H as <-. unfold Workflow.analyze_system_changes. fields.
    rewrite Hk. destruct (sc_known_law_key _); exact Hk.
  - unfold Workflow.run_validation in H.
    destruct (HAS_VALIDATION_AGENT env); [| injection H as <-; exact Hk].
    apply validate_shape in H as (sc & dx & vs & ->). exact Hk.
  - unfold Workflow.dell_relevance_check in H. bind_inv H. injection H as <-.
    exact Hk.
  - apply review_shape in H as (dx & sc & ia & ->). exact Hk.
  - unfold Workflow.assemble_stage in H. bind_inv H. injection H as <-.
    exact Hk.
Qed.

Lemma run_from_keeps_law_key (env : Env) (key : list N) (fuel : nat) :
  forall (n : Workflow.node) (s : State)
         (trace : list (Workflow.node * State)) (out : Workflow.outcome),
    n <> Workflow.input -> n <> Workflow.search_node ->
    n <> Workflow.detect_type ->
    known_law_key s = Some key ->
    Workflow.run_from env fuel n s = (trace, out) ->
    (forall m st, In (m, st) trace -> known_law_key st = Some key)
    /\ (forall final, out = Workflow.Completed final ->
                      known_law_key final = Some key).
Proof.
  induction fuel as [| fuel IH]; intros n s trace out H1 H2 H3 Hk H.
  { injection H as <- <-. split; [intros m st [] | discriminate]. }
  rewrite run_from_S in H.
  destruct (Workflow.exec env n s) as [s' |] eqn:E.
  2:{ injection H as <- <-. split; [| discriminate].
      intros m st [Hin | []]. injection Hin as <- <-. exact Hk. }
  pose proof (exec_keeps_law_key env n s s' key H1 H3 E Hk) as Hk'.
  destruct (Workflow.next n s') as [n' |] eqn:En.
  2:{ injection H as <- <-. split.
      - intros m st [Hin | []]. injection Hin as <- <-. exact Hk.
      - intros final Hf. injection Hf as <-. exact Hk'. }
  destruct (next_is_late n n' s' H1 H2 En) as (L1 & L2 & L3).
  destruct (Workflow.run_from env fuel n' s') as [trace' out'] eqn:R.
  injection H as <- <-.
  destruct (IH n' s' trace' out' L1 L2 L3 Hk' R) as [Ht Ho].
  split; [| exact Ho].
  intros m st [Hin | Hin]; [injection Hin as <- <-; exact Hk | eapply Ht, Hin].
Qed.

(** X28. With the knowledge base importable, when the first source that
    the type detection sees has "lcp214" in its URL, the law key is LC_214
    for every later stage of the run, whatever the stages in between find,
    and for the state the run ends with. *)
Theorem detected_law_reaches_every_stage :
  forall (env : Env) (query url : list N) (urls : list (list N))
         (trace : list (Workflow.node * State)) (out : Workflow.outcome)
         (s : State) (first : WebResult) (rest : list WebResult),
    HAS_KNOWLEDGE_BASE env = true ->
    Workflow.run env query url urls = Some (trace, out) ->
    Workflow.state_at Workflow.detect_type trace = Some s ->
    web_results s = first :: rest ->
    Py.contains (Py.U "lcp214") (Py.lower (wr_url first)) = true ->
    (forall n st,
        In (n, st) trace ->
        n <> Workflow.input -> n <> Workflow.search_node ->
        n <> Workflow.detect_type ->
        known_law_key st = Some (Py.U "LC_214"))
    /\ (forall final, out = Workflow.Completed final ->
                      known_law_key final = Some (Py.U "LC_214")).
Proof.
  intros env query url urls trace out s first rest _ H Hs Hw Hu.
  unfold Workflow.run in H.
  match type of H with
  | (if ?b then None else _) = Some _ => destruct b; [discriminate H |]
  end.
  cbv beta iota zeta in H.
  match type of H with
  | Some (Workflow.run_from env _ _ ?st) = _ =>
      generalize dependent st; intros s0 H
  end.
  assert (H' : Workflow.run_from env 14 Workflow.input s0 = (trace, out))
    by congruence.
  clear H. rename H' into H.
  rewrite (run_from_S env 13) in H. cbn [Workflow.exec Workflow.next] in H.
  rewrite (run_from_S env 12) in H. cbn [Workflow.exec Workflow.next] in H.
  rewrite (run_from_S env 11) in H. cbn [Workflow.exec Workflow.next] in H.
  destruct (Workflow.run_from env 11 Workflow.raw_extract _)
    as [trace' out'] eqn:R.
  injection H as <- <-.
  cbn [Workflow.state_at Workflow.node_eqb] in Hs. injection Hs as <-.
  assert (Hk : known_law_key
                 (Workflow.detect_type_stage
                    env (Workflow.search_web env (Workflow.process_input s0)))
               = Some (Py.U "LC_214")).
  { unfold Workflow.detect_type_stage at 1. rewrite Hw.
    unfold KB.detect_known_legislation. cbv zeta. rewrite Hu. cbn [orb].
    reflexivity. }
  assert (L1 : Workflow.raw_extract <> Workflow.input) by discriminate.
  assert (L2 : Workflow.raw_extract <> Workflow.search_node) by discriminate.
  assert (L3 : Workflow.raw_extract <> Workflow.detect_type) by discriminate.
  destruct (run_from_keeps_law_key env _ _ _ _ _ _ L1 L2 L3 Hk R) as [Ht Ho].
  split; [| exact Ho].
  intros n st [Hin | [Hin | [Hin | Hin]]] N1 N2 N3;
    try (injection Hin as <- <-; contradiction).
  eapply Ht, Hin.
Qed.

(** The theorem at a run on the page of Lei Complementar 214. *)
Lemma detected_law_reaches_every_stage_witness :
  let env := Canned.env [Canned.lc214_page]
                        (Some (Py.U "Art. 1º Fica instituído o IBS."))
                        [] Canned.nothing_extracted [] None in
  let r := Workflow.run env (Py.U "lei complementar 214") [] [] in
  known_law_key <$> Canned.final_of r = Some (Some (Py.U "LC_214")).
Proof.
  intros env r.
  destruct (is_some_of_bool r) as [[trace out] E]; [vm_compute; reflexivity |].
  destruct (is_some_of_bool (Canned.final_of r)) as [final Ef];
    [vm_compute; reflexivity |].
  destruct (is_some_of_bool (Workflow.state_at Workflow.detect_type
                                               (Canned.trace_of r)))
    as [s Es]; [vm_compute; reflexivity |].
  assert (Hw : web_results <$> Workflow.state_at Workflow.detect_type
                                 (Canned.trace_of r)
               = Some [Canned.lc214_page]) by (vm_compute; reflexivity).
  rewrite Es in Hw. injection Hw as Hw.
  rewrite Ef. cbn [fmap option_fmap option_map]. do 2 f_equal.
  rewrite E in Es, Ef. cbn [Canned.trace_of Canned.final_of] in Es, Ef.
  destruct out as [final' | |]; try discriminate Ef. injection Ef as ->.
  refine (proj2 (detected_law_reaches_every_stage
                   env _ _ _ trace _ s Canned.lc214_page [] eq_refl E Es Hw _)
                final eq_refl).
  vm_compute. reflexivity.
Defined.
